(** * A shallow embedding of the job-matching pipeline

    The repository is a four-stage batch pipeline over flat files:
    acquisition (Stage1DataAcquisition.py), cleaning
    (Stage2DataCleaningAndResumeParsing.py), embedding
    (Stage3OpenAIEmbedding.py) and ranking (Stage4Similarity.py), driven by
    the orchestrator of main.py.

    Conventions of the embedding.
    - A Python exception is a value of [exn]; code that may raise returns a
      [result]. Code that also touches the file system, the network or the
      clock is a function from a world to a [result] and the world it leaves
      behind, so that what a failing run has already written stays visible.
    - A file is modelled by its decoded content ([file]); the file system is
      a finite map from path names to files.
    - A Python [str] that the code measures, cuts or strips is the list of
      its code points ([str]); names that the code only compares
      (dictionary keys, paths, environment variables) are Rocq strings.
    - A Python float is a [spec_float] of the binary64 format and a numpy
      float32 one of the binary32 format, with the IEEE operations of the
      Standard Library's [SpecFloat].
    - External code (numpy's reductions, the HTTP service, child processes,
      BeautifulSoup) is a parameter of the section that uses it. *)

From Stdlib Require Import ZArith NArith List String Ascii Bool Lia.
From Stdlib Require Import Sorted Permutation SpecFloat DecimalString.
From stdpp Require Import gmap strings.

Local Open Scope Z_scope.

(** ** Exceptions and results *)

Inductive exn :=
| FileNotFoundError
| ValueError
| RuntimeError
| IndexError
| KeyError
| AttributeError
| TypeError
| JSONDecodeError.

Inductive result (A : Type) :=
| Ok (a : A)
| Raise (e : exn).
Arguments Ok {A} a.
Arguments Raise {A} e.

Definition result_bind {A B} (m : result A) (k : A -> result B) : result B :=
  match m with
  | Ok a => k a
  | Raise e => Raise e
  end.

Declare Scope result_scope.
Delimit Scope result_scope with result.
Notation "'try!' x := m 'in' k" := (result_bind m (fun x => k))
  (at level 10, x pattern, m at level 100, k at level 200) : result_scope.


(** ** Text *)

(** A Python [str]: its code points, so that [len(s)] is the length of the
    list and [s[:n]] its first [n] elements. *)
Definition str := list N.

(** The text of a literal written in ASCII. *)
Definition lit (s : string) : str :=
  map (fun c => N.of_nat (nat_of_ascii c)) (list_ascii_of_string s).

(** The code points that [str.strip()] removes: the ASCII controls
    U+0009 to U+000D and U+001C to U+001F, the space, and the Unicode
    spaces U+0085, U+00A0, U+1680, U+2000 to U+200A, U+2028, U+2029,
    U+202F, U+205F and U+3000. *)
Definition py_isspace (c : N) : bool :=
  ((9 <=? c) && (c <=? 13) || (28 <=? c) && (c <=? 32)
   || (c =? 133) || (c =? 160) || (c =? 5760)
   || (8192 <=? c) && (c <=? 8202)
   || (c =? 8232) || (c =? 8233) || (c =? 8239) || (c =? 8287)
   || (c =? 12288))%N.

Fixpoint lstrip (s : str) : str :=
  match s with
  | [] => []
  | c :: s' => if py_isspace c then lstrip s' else s
  end.

(** [s.strip()]. *)
Definition py_strip (s : str) : str := rev (lstrip (rev (lstrip s))).

(** [s[:n]]. *)
Definition str_prefix (n : nat) (s : str) : str := firstn n s.

(** [sep.join(parts)]. *)
Fixpoint join (sep : str) (parts : list str) : str :=
  match parts with
  | [] => []
  | [p] => p
  | p :: rest => p ++ sep ++ join sep rest
  end.

(** [" ".join(parts)]. *)
Definition join_space (parts : list str) : str := join (lit " ") parts.

(** [s == ""]. *)
Definition is_empty (s : str) : bool :=
  match s with [] => true | _ => false end.

(** ** Python values used across the stages *)

(** [None] or a string: the value of an optional text field. *)
Definition pystr := option str.

(** Truthiness of an optional string: [None] and [""] are falsy. *)
Definition truthy (v : pystr) : bool :=
  match v with
  | Some s => negb (is_empty s)
  | None => false
  end.

(** [a or b]. *)
Definition py_or (a b : pystr) : pystr := if truthy a then a else b.

(** [(v or "")]: always a string. *)
Definition or_empty (v : pystr) : str :=
  match py_or v (Some []) with
  | Some s => s
  | None => []
  end.

(** A decoded JSON value. A dictionary keeps the order of its keys, which
    [find_jobs] iterates over; its keys are distinct. *)
#[warnings="-register-all"]
Inductive json :=
| JNull
| JBool (b : bool)
| JNum (n : Z)
| JStr (s : str)
| JList (l : list json)
| JDict (d : list (string * json)).

(** [d.get(k)]. *)
Fixpoint jget (d : list (string * json)) (k : string) : json :=
  match d with
  | [] => JNull
  | (k', v) :: d' => if String.eqb k' k then v else jget d' k
  end.

Definition jtruthy (v : json) : bool :=
  match v with
  | JNull => false
  | JBool b => b
  | JNum n => negb (n =? 0)
  | JStr s => negb (is_empty s)
  | JList l => match l with [] => false | _ => true end
  | JDict d => match d with [] => false | _ => true end
  end.

(** [a or b] on JSON values. *)
Definition jor (a b : json) : json := if jtruthy a then a else b.

(** [isinstance(v, dict)]. *)
Definition is_dict (v : json) : bool :=
  match v with JDict _ => true | _ => false end.

(** An optional string as a JSON value. *)
Definition of_pystr (v : pystr) : json :=
  match v with
  | Some s => JStr s
  | None => JNull
  end.

(** A dictionary with string keys, where the order of the keys does not
    matter; [d.get(k)] is [None] for a missing key. *)
Definition dict_get (d : gmap string json) (k : string) : json :=
  match d !! k with
  | Some v => v
  | None => JNull
  end.

(** [l[:n]] for a Python integer [n]: a negative bound counts from the end. *)
Definition slice_to {A} (l : list A) (n : Z) : list A :=
  if n <? 0 then firstn (Z.to_nat (Z.of_nat (length l) + n)) l
  else firstn (Z.to_nat n) l.

(** [l[i:j]] for indices within or beyond the end. *)
Definition slice {A} (l : list A) (i j : nat) : list A :=
  firstn (j - i) (skipn i l).

(** [enumerate(l, start)]. *)
Definition enumerate {A} (l : list A) (start : nat) : list (nat * A) :=
  combine (seq start (length l)) l.

(** ** Floats *)

Module Float.

(** binary32 (numpy float32) and binary64 (Python float) arithmetic. *)
Definition prec32 : Z := 24.
Definition emax32 : Z := 128.
Definition prec64 : Z := 53.
Definition emax64 : Z := 1024.

Definition mul32 := SFmul prec32 emax32.
Definition div32 := SFdiv prec32 emax32.
Definition add32 := SFadd prec32 emax32.
Definition sqrt32 := SFsqrt prec32 emax32.

(** The Python float literals [0.0], [1.0] and [-1.0]. *)
Definition zero : spec_float := S754_zero false.
Definition one : spec_float := Eval vm_compute in SFone prec64 emax64.
Definition minus_one : spec_float := Eval vm_compute in SFopp (SFone prec64 emax64).

(** [float(x)] of a float32 scalar: the same number in binary64. *)
Definition widen (x : spec_float) : spec_float :=
  match x with
  | S754_finite s m e => binary_normalize prec64 emax64 (cond_Zopp s (Zpos m)) e s
  | _ => x
  end.

(** [np.float32(x)] of a Python float: rounding to binary32. *)
Definition narrow (x : spec_float) : spec_float :=
  match x with
  | S754_finite s m e => binary_normalize prec32 emax32 (cond_Zopp s (Zpos m)) e s
  | _ => x
  end.

(** [math.isnan]. *)
Definition isnan (x : spec_float) : bool :=
  match x with S754_nan => true | _ => false end.

(** [a < b], [a == b] and [a <= b] on floats. *)
Definition ltb (a b : spec_float) : bool := SFltb a b.
Definition eqb (a b : spec_float) : bool := SFeqb a b.
Definition leb (a b : spec_float) : bool := SFleb a b.

(** The builtins [min(a, b)] and [max(a, b)]: the first argument is kept
    unless the second is strictly smaller (resp. strictly greater). *)
Definition py_min (a b : spec_float) : spec_float := if ltb b a then b else a.
Definition py_max (a b : spec_float) : spec_float := if ltb a b then b else a.

End Float.

(** ** The builtin [sorted] *)

(** [sorted(l, key=key, reverse=True)] on float keys. The builtin is a
    stable sort that compares keys with [<] only; with [reverse=True] the
    result is descending and elements whose keys compare equal keep their
    input order. Insertion from the right is the model: an element goes
    after the elements with a strictly greater key and before the others,
    which come later in the input. *)
Fixpoint insort {A} (key : A -> spec_float) (x : A) (s : list A) : list A :=
  match s with
  | [] => [x]
  | y :: s' =>
      if Float.ltb (key x) (key y) then y :: insort key x s'
      else x :: y :: s'
  end.

Definition sorted_reverse {A} (key : A -> spec_float) (l : list A) : list A :=
  fold_right (insort key) [] l.

(** Sorted by key, non-increasing: the key of an element is at most the
    key of every element before it. *)
Definition nonincreasing {A} (key : A -> spec_float) (l : list A) : Prop :=
  StronglySorted (fun x y => Float.leb (key y) (key x) = true) l.

(** [l'] has the elements of [l] whose keys compare equal to [v], for every
    [v], in the order they have in [l]. *)
Definition keeps_order {A} (key : A -> spec_float) (l l' : list A) : Prop :=
  forall v,
    List.filter (fun x => Float.eqb (key x) v) l'
    = List.filter (fun x => Float.eqb (key x) v) l.


(** ** The decoded content of the pipeline's files *)

(** A cleaned job record (cleaned_jobs.json, written by Stage 2). *)
Record JobRecord := {
  job_key : pystr;
  title : pystr;
  companyName : pystr;
  location_normalized : pystr;
  location_raw : pystr;
  description : pystr
}.

(** One decoded JSON object of jobs_embeddings.jsonl. A key that is absent
    is [JNull] or [None]; [eo_meta] is a dictionary when present, and its
    values are any JSON values. *)
Record EmbeddingRecord := {
  eo_job_key : json;
  eo_meta : option (gmap string json);
  eo_embedding : option (list spec_float)
}.

(** A line of a JSONL file as the reader sees it: empty once stripped,
    text that [json.loads] rejects, or a JSON object. *)
Inductive jsonl_line :=
| BlankLine
| BadLine
| ObjLine (o : EmbeddingRecord).

(** The JSON object of resume_embedding.json. *)
Record ResumeEmbedding := {
  re_model : string;
  re_embedding : option (list spec_float);
  re_text_sample : str
}.

(** An entry of top_jobs.json. *)
Record RankedResult := {
  r_job_key : json;
  r_title : json;
  r_company : json;
  r_location : json;
  r_similarity : spec_float;
  r_meta : gmap string json
}.

(** A row of top_jobs.csv; the writer turns each value into text. *)
Record CsvRow := {
  c_rank : nat;
  c_job_key : json;
  c_title : json;
  c_company : json;
  c_location : json;
  c_similarity : string
}.

Inductive file :=
| CleanedJobs (jobs : list JobRecord)
| Text (s : str)
| JobsEmbeddings (lines : list jsonl_line)
| Npy (rows : list (list spec_float))
| ResumeFile (o : ResumeEmbedding)
| TopJobsJson (top : list RankedResult)
| TopJobsCsv (rows : list CsvRow)
| OtherFile.

(** [Path(p).exists()]. *)
Definition path_exists {F} (fs : gmap string F) (p : string) : bool :=
  match fs !! p with Some _ => true | None => false end.

(** ** Stage 4: similarity and ranking (Stage4Similarity.py) *)

Module Stage4.
Import Float.

Definition DEFAULT_JOBS_FILE : string := "jobs_embeddings.jsonl".
Definition DEFAULT_RESUME_FILE : string := "resume_embedding.json".
Definition OUTPUT_JSON : string := "top_jobs.json".
Definition OUTPUT_CSV : string := "top_jobs.csv".

(** Clipping [c] into [-1, 1] gives [r]. *)
Definition clipped (c r : spec_float) : Prop :=
  (ltb one c = true -> r = one) /\
  (ltb c minus_one = true -> r = minus_one) /\
  (ltb one c = false -> ltb c minus_one = false -> r = c).

(** [r] lies within [-1, 1]. *)
Definition within_unit (r : spec_float) : Prop :=
  leb minus_one r = true /\ leb r one = true.

(** A record that [load_jobs_embeddings] has accepted: its embedding is
    present. *)
Record LoadedJob := {
  lj_job_key : json;
  lj_meta : option (gmap string json);
  lj_embedding : list spec_float
}.

(** The candidate a line of the jobs file stands for, if any. *)
Definition candidate_of (line : jsonl_line) : option LoadedJob :=
  match line with
  | ObjLine o =>
      match eo_embedding o with
      | Some emb => Some {| lj_job_key := eo_job_key o;
                            lj_meta := eo_meta o;
                            lj_embedding := emb |}
      | None => None
      end
  | _ => None
  end.

(** The candidates of a jobs file, in the order of the file. *)
Fixpoint candidates (lines : list jsonl_line) : list LoadedJob :=
  match lines with
  | [] => []
  | line :: rest =>
      match candidate_of line with
      | Some c => c :: candidates rest
      | None => candidates rest
      end
  end.

(** [rec.get("meta") or {}]; [rec.get("meta", {})] is the same dictionary
    here, since [lj_meta] is a dictionary whenever the key is present. *)
Definition meta_or_empty (rec : LoadedJob) : gmap string json :=
  match lj_meta rec with
  | Some d => d
  | None => ∅
  end.

(** The display fields of a record, with their fallbacks. *)
Definition title_of (rec : LoadedJob) : json :=
  let meta := meta_or_empty rec in
  jor (jor (dict_get meta "title") (dict_get meta "job_title"))
      (dict_get (meta_or_empty rec) "title").

Definition company_of (rec : LoadedJob) : json :=
  let meta := meta_or_empty rec in
  jor (jor (dict_get meta "companyName") (dict_get meta "company"))
      (dict_get (meta_or_empty rec) "companyName").

Definition location_of (rec : LoadedJob) : json :=
  let meta := meta_or_empty rec in
  jor (jor (jor (dict_get meta "location") (dict_get meta "location_normalized"))
           (dict_get meta "location_raw"))
      (dict_get (meta_or_empty rec) "location").

(** A display field that the table can show: once [v or ""] is taken it is
    a string, or, where the field is printed without a width, a list. *)
Definition printable (with_width : bool) (v : json) : bool :=
  match jor v (JStr []) with
  | JStr _ => true
  | JList _ => negb with_width
  | _ => false
  end.

(** A record whose display fields the table can show: title and company
    are printed with a width, the location without. *)
Definition displayable (rec : LoadedJob) : Prop :=
  printable true (title_of rec) = true
  /\ printable true (company_of rec) = true
  /\ printable false (location_of rec) = true.

(** A line of a well-formed jobs file for embeddings of dimension [d]:
    blank, or an object with an embedding of that dimension whose display
    fields the table can show, as in the lines Stage 3 writes. *)
Definition well_formed (d : nat) (line : jsonl_line) : Prop :=
  match line with
  | BlankLine => True
  | BadLine => False
  | ObjLine o =>
      (exists emb, eo_embedding o = Some emb /\ length emb = d)
      /\ forall c, candidate_of line = Some c -> displayable c
  end.

Fixpoint load_lines (lines : list jsonl_line) (records : list LoadedJob)
  : result (list LoadedJob) :=
  match lines with
  | [] => Ok records
  | BlankLine :: rest => load_lines rest records
  | BadLine :: _ => Raise JSONDecodeError
  | ObjLine o :: rest =>
      match eo_embedding o with
      | None => Raise ValueError
      | Some emb =>
          load_lines rest
            (records ++ [{| lj_job_key := eo_job_key o;
                            lj_meta := eo_meta o;
                            lj_embedding := emb |}])
      end
  end.

Definition load_jobs_embeddings (fs : gmap string file) (path : string)
  : result (list LoadedJob) :=
  match fs !! path with
  | None => Raise FileNotFoundError
  | Some (JobsEmbeddings lines) => load_lines lines []
  | Some _ => Raise JSONDecodeError
  end.

Definition load_resume_embedding (fs : gmap string file) (path : string)
  : result (list spec_float) :=
  match fs !! path with
  | None => Raise FileNotFoundError
  | Some (ResumeFile o) =>
      match re_embedding o with
      | None => Raise ValueError
      | Some emb => Ok emb
      end
  | Some _ => Raise JSONDecodeError
  end.

(** [np.array(vec, dtype=np.float32)]. *)
Definition to_numpy (vec : list spec_float) : list spec_float := map narrow vec.

Section Ranker.

(** numpy's reductions over float32 arrays. Their summation order is the
    BLAS library's, so they are parameters: [sdot a b] is [np.dot(a, b)] on
    arrays of one shape and [nrm2 a] is [np.linalg.norm(a)]. *)
Variable sdot : list spec_float -> list spec_float -> spec_float.
Variable nrm2 : list spec_float -> spec_float.

(** ["%.6f"] formatting of a float. *)
Variable fmt6 : spec_float -> string.

(** What [d[:n]] raises on a dictionary [d]: [TypeError] (a slice is not
    hashable) up to Python 3.11, [KeyError] from Python 3.12 on. *)
Variable dict_slice_error : exn.

(** [np.dot] raises [ValueError] on arrays whose shapes are not aligned. *)
Definition np_dot (a b : list spec_float) : result spec_float :=
  if Nat.eqb (length a) (length b) then Ok (sdot a b) else Raise ValueError.

(** The quotient the source converts with [float(...)]. *)
Definition cosine (dot norm_a norm_b : spec_float) : spec_float :=
  widen (div32 dot (mul32 norm_a norm_b)).

Definition safe_cosine_similarity (a b : list spec_float) : result spec_float :=
  let norm_a := nrm2 a in
  let norm_b := nrm2 b in
  if eqb norm_a zero || eqb norm_b zero then Ok zero
  else
    (try! dot := np_dot a b in
     let cos := cosine dot norm_a norm_b in
     if isnan cos then Ok zero
     else Ok (py_max (py_min cos one) minus_one))%result.

(** The body of the scoring loop for one record. *)
Definition score (resume_arr : list spec_float) (rec : LoadedJob)
  : result RankedResult :=
  let emb_arr := to_numpy (lj_embedding rec) in
  (try! sim := safe_cosine_similarity resume_arr emb_arr in
   let meta := meta_or_empty rec in
   Ok {| r_job_key := lj_job_key rec;
         r_title := title_of rec;
         r_company := company_of rec;
         r_location := location_of rec;
         r_similarity := sim;
         r_meta := meta |})%result.

(** [for rec in jobs: ... results.append(...)]. *)
Fixpoint score_loop (resume_arr : list spec_float) (jobs : list LoadedJob)
    (results : list RankedResult) : result (list RankedResult) :=
  match jobs with
  | [] => Ok results
  | rec :: rest =>
      (try! r := score resume_arr rec in
       score_loop resume_arr rest (results ++ [r]))%result
  end.

(** [results_sorted]: every candidate, by similarity descending. *)
Definition results_sorted (resume_vec : list spec_float) (jobs : list LoadedJob)
  : result (list RankedResult) :=
  (try! results := score_loop (to_numpy resume_vec) jobs [] in
   Ok (sorted_reverse r_similarity results))%result.

(** A row of the CSV summary, from [enumerate(top_results, start=1)]. *)
Definition csv_row (ir : nat * RankedResult) : CsvRow :=
  {| c_rank := fst ir;
     c_job_key := r_job_key (snd ir);
     c_title := jor (r_title (snd ir)) (JStr []);
     c_company := jor (r_company (snd ir)) (JStr []);
     c_location := jor (r_location (snd ir)) (JStr []);
     c_similarity := fmt6 (r_similarity (snd ir)) |}.

Definition csv_rows (top_results : list RankedResult) : list CsvRow :=
  map csv_row (enumerate top_results 1).

(** [(v or "")[:n]]: a string or a list is cut, a number or a boolean
    cannot be sliced, a dictionary raises [dict_slice_error]. *)
Definition cut (n : nat) (v : json) : result json :=
  match jor v (JStr []) with
  | JStr s => Ok (JStr (firstn n s))
  | JList l => Ok (JList (firstn n l))
  | JDict _ => Raise dict_slice_error
  | _ => Raise TypeError
  end.

(** [f"{v:<n}"]: only a string accepts an alignment. *)
Definition padded (v : json) : result unit :=
  match v with
  | JStr _ => Ok tt
  | _ => Raise TypeError
  end.

(** One row of the table printed to standard output: the three display
    fields are cut, then the line is formatted, title and company with a
    width. Only whether the row can be printed is modelled, not its
    text. *)
Definition print_row (r : RankedResult) : result unit :=
  (try! title := cut 38 (r_title r) in
   try! company := cut 28 (r_company r) in
   try! location := cut 40 (r_location r) in
   try! _ := padded title in
   padded company)%result.

(** [for i, r in enumerate(top_results, start=1): ...; print(...)]. *)
Fixpoint print_rows (top_results : list RankedResult) : result unit :=
  match top_results with
  | [] => Ok tt
  | r :: rest => (try! _ := print_row r in print_rows rest)%result
  end.

Definition rank_jobs (jobs_file resume_file : string) (top_n : Z)
    (fs : gmap string file) : result (list RankedResult) * gmap string file :=
  match load_jobs_embeddings fs jobs_file with
  | Raise e => (Raise e, fs)
  | Ok jobs =>
      match load_resume_embedding fs resume_file with
      | Raise e => (Raise e, fs)
      | Ok resume_vec =>
          match results_sorted resume_vec jobs with
          | Raise e => (Raise e, fs)
          | Ok all_sorted =>
              let top_results := slice_to all_sorted top_n in
              let fs1 := <[OUTPUT_JSON := TopJobsJson top_results]> fs in
              let fs2 := <[OUTPUT_CSV := TopJobsCsv (csv_rows top_results)]> fs1 in
              match print_rows top_results with
              | Raise e => (Raise e, fs2)
              | Ok _ => (Ok top_results, fs2)
              end
          end
      end
  end.

(** The command line: [--top], [--jobs], [--resume]. *)
Record Cli := {
  cli_top : Z;
  cli_jobs : string;
  cli_resume : string
}.

Definition default_cli : Cli :=
  {| cli_top := 10; cli_jobs := DEFAULT_JOBS_FILE; cli_resume := DEFAULT_RESUME_FILE |}.

Definition main (args : Cli) (fs : gmap string file)
  : result (list RankedResult) * gmap string file :=
  rank_jobs (cli_jobs args) (cli_resume args) (cli_top args) fs.

End Ranker.
End Stage4.

(** ** Stage 3: the embedding client (Stage3OpenAIEmbedding.py) *)

Module Stage3.

Definition MODEL : string := "text-embedding-3-small".
Definition CLEANED_JOBS_JSON : string := "cleaned_jobs.json".
Definition PROCESSED_RESUME : string := "processed_resume.txt".
Definition OUT_JSONL : string := "jobs_embeddings.jsonl".
Definition OUT_NPY : string := "jobs_embeddings.npy".
Definition OUT_RESUME : string := "resume_embedding.json".

Definition BATCH_SIZE : nat := 64.
Definition MAX_RETRIES : nat := 5.
(** [INITIAL_BACKOFF = 1.0] and [MAX_BACKOFF = 30.0] seconds; every
    backoff the loop computes is a whole number of seconds. *)
Definition INITIAL_BACKOFF : Z := 1.
Definition MAX_BACKOFF : Z := 30.
Definition TRUNCATE_INPUT_CHARS : nat := 32000.

(** The body of a response with status 200, as the client reads it.
    - [NotJson]: [resp.json()] raises requests' [JSONDecodeError], which is
      a [RequestException].
    - [Data embeddings]: a JSON object whose ["data"] is a list of items,
      each with an ["embedding"]; their embeddings in order.
    - [NoData]: JSON in which ["data" in j] is false, such as an object
      without that key.
    - [Unusable e]: JSON on which ["data" in j] or the comprehension over
      the items raises [e]: [TypeError] for [null], a number or a boolean,
      [KeyError] for an item without ["embedding"]. *)
Inductive response_body :=
| NotJson
| Data (embeddings : list (list spec_float))
| NoData
| Unusable (e : exn).

(** What one request gives: a response with its status code and its body,
    or a [requests.RequestException] raised by the request itself. *)
Inductive http_outcome :=
| Response (status : Z) (body : response_body)
| RequestException.

(** [time.sleep]: a backoff of a number of seconds (plus a jitter below a
    tenth of a second, which is not modelled), or the pause between
    batches. *)
Inductive sleep :=
| Backoff (seconds : Z)
| Pause.

(** The world of the stage: the file system, the number of requests sent
    so far and the sleeps taken, latest first. *)
Record world := {
  fs : gmap string file;
  calls : nat;
  slept : list sleep
}.

Definition posted (w : world) : world :=
  {| fs := fs w; calls := S (calls w); slept := slept w |}.

Definition time_sleep (d : sleep) (w : world) : world :=
  {| fs := fs w; calls := calls w; slept := d :: slept w |}.

Definition write_file (p : string) (f : file) (w : world) : world :=
  {| fs := <[p := f]> (fs w); calls := calls w; slept := slept w |}.

Definition load_jobs (w : world) : result (list JobRecord) :=
  match fs w !! CLEANED_JOBS_JSON with
  | None => Raise FileNotFoundError
  | Some (CleanedJobs jobs) => Ok jobs
  | Some _ => Raise JSONDecodeError
  end.

Definition read_resume_text (w : world) : result str :=
  match fs w !! PROCESSED_RESUME with
  | None => Raise FileNotFoundError
  | Some (Text s) => Ok s
  | Some _ => Raise ValueError
  end.

(** [range(0, stop, n)] for a positive step. *)
Definition range_step (stop n : nat) : list nat :=
  map (fun k => (k * n)%nat) (seq 0 ((stop + n - 1) / n)).

(** [chunked(iterable, n)]: [range] raises [ValueError] on a zero step. *)
Definition chunked {A} (iterable : list A) (n : nat) : result (list (list A)) :=
  match n with
  | O => Raise ValueError
  | S _ => Ok (map (fun i => slice iterable i (i + n)) (range_step (length iterable) n))
  end.

(** The status codes the client retries. *)
Definition transient (status : Z) : bool :=
  (status =? 429) || (status =? 502) || (status =? 503) || (status =? 504).

(** An outcome after which the client backs off and tries again: a
    transient status, an exception of the request, or a response with
    status 200 whose body is not JSON. *)
Definition retried (o : http_outcome) : Prop :=
  match o with
  | Response status body =>
      transient status = true \/ (status = 200 /\ body = NotJson)
  | RequestException => True
  end.

Section Client.

(** The embedding service: the outcome of the request sent after [k]
    earlier ones, for a model name and a batch of inputs. *)
Variable post : nat -> string -> list str -> http_outcome.

(** The [for attempt in range(1, MAX_RETRIES + 1)] loop, with the [raise]
    that follows it. Whatever is raised inside the [try] and is not a
    [RequestException] escapes the loop. *)
Fixpoint attempts (range : list nat) (inputs : list str) (model : string)
    (backoff : Z) (w : world) : result (list (list spec_float)) * world :=
  match range with
  | [] => (Raise RuntimeError, w)
  | _ :: rest =>
      let w1 := posted w in
      let retry :=
        attempts rest inputs model (Z.min (backoff * 2) MAX_BACKOFF)
                 (time_sleep (Backoff backoff) w1) in
      match post (calls w) model inputs with
      | Response status body =>
          if status =? 200 then
            match body with
            | NotJson => retry
            | Data embeddings => (Ok embeddings, w1)
            | NoData => (Raise RuntimeError, w1)
            | Unusable e => (Raise e, w1)
            end
          else if transient status then retry
          else (Raise RuntimeError, w1)
      | RequestException => retry
      end
  end.

Definition call_openai_embeddings (inputs : list str) (model : string)
    (w : world) : result (list (list spec_float)) * world :=
  attempts (seq 1 MAX_RETRIES) inputs model INITIAL_BACKOFF w.

(** The text that is embedded for a job, and its metadata. *)
Definition truncate (text : str) : str :=
  if Nat.ltb TRUNCATE_INPUT_CHARS (length text)
  then str_prefix TRUNCATE_INPUT_CHARS text ++ lit " ... (truncated)"
  else text.

Definition job_title (r : JobRecord) : str := py_strip (or_empty (title r)).
Definition job_company (r : JobRecord) : str := py_strip (or_empty (companyName r)).
Definition job_location (r : JobRecord) : str :=
  py_strip (or_empty (py_or (location_normalized r) (location_raw r))).

Definition job_input (r : JobRecord) : str :=
  let desc := or_empty (description r) in
  truncate
    (join_space
       (List.filter (fun part => negb (is_empty part))
                    [job_title r; job_company r; job_location r; desc])).

Definition job_meta (r : JobRecord) : gmap string json :=
  {[ "job_key"%string := of_pystr (job_key r);
     "title"%string := JStr (job_title r);
     "companyName"%string := JStr (job_company r);
     "location"%string := JStr (job_location r) ]}.

(** The accumulators of the batching loop. *)
Record acc := {
  idx : nat;
  out_lines : list EmbeddingRecord;
  all_embeddings : list (list spec_float)
}.

(** [for e in embeddings: meta = metas[idx]; ...; idx += 1]. *)
Fixpoint emit (embeddings : list (list spec_float))
    (metas : list (gmap string json)) (a : acc) : result acc :=
  match embeddings with
  | [] => Ok a
  | e :: rest =>
      match nth_error metas (idx a) with
      | None => Raise IndexError
      | Some meta =>
          let line := {| eo_job_key := dict_get meta "job_key";
                         eo_meta := Some meta;
                         eo_embedding := Some e |} in
          emit rest metas
               {| idx := S (idx a);
                  out_lines := out_lines a ++ [line];
                  all_embeddings := all_embeddings a ++ [e] |}
      end
  end.

(** [for chunk in chunks: embeddings = call_openai_embeddings(chunk, MODEL);
    ...; time.sleep(0.1)]. *)
Fixpoint embed_batches (chunks : list (list str))
    (metas : list (gmap string json)) (a : acc) (w : world)
  : result acc * world :=
  match chunks with
  | [] => (Ok a, w)
  | chunk :: rest =>
      match call_openai_embeddings chunk MODEL w with
      | (Raise e, w1) => (Raise e, w1)
      | (Ok embeddings, w1) =>
          match emit embeddings metas a with
          | Raise e => (Raise e, w1)
          | Ok a1 => embed_batches rest metas a1 (time_sleep Pause w1)
          end
      end
  end.

(** The batching part of [main] for a batch size. *)
Definition embed_jobs (batch_size : nat) (jobs : list JobRecord) (w : world)
  : result acc * world :=
  let inputs := map job_input jobs in
  let metas := map job_meta jobs in
  match chunked inputs batch_size with
  | Raise e => (Raise e, w)
  | Ok chunks =>
      embed_batches chunks metas
        {| idx := O; out_lines := []; all_embeddings := [] |} w
  end.

(** [np.array(all_embeddings, dtype=np.float32)]: rows of unequal length
    are a [ValueError]. *)
Definition np_array (rows : list (list spec_float)) : result (list (list spec_float)) :=
  match rows with
  | [] => Ok []
  | r :: _ =>
      if forallb (fun r' => Nat.eqb (length r') (length r)) rows
      then Ok (map (map Float.narrow) rows)
      else Raise ValueError
  end.

(** The resume part of [main]. *)
Definition embed_resume (w : world) : result unit * world :=
  match read_resume_text w with
  | Raise e => (Raise e, w)
  | Ok text =>
      let resume_text := py_strip text in
      if is_empty resume_text then (Ok tt, w)
      else
        let resume_text := truncate resume_text in
        match call_openai_embeddings [resume_text] MODEL w with
        | (Raise e, w1) => (Raise e, w1)
        | (Ok [], w1) => (Raise IndexError, w1)
        | (Ok (resume_embedding :: _), w1) =>
            let resume_obj :=
              {| re_model := MODEL;
                 re_embedding := Some resume_embedding;
                 re_text_sample := str_prefix 2000 resume_text |} in
            (Ok tt, write_file OUT_RESUME (ResumeFile resume_obj) w1)
        end
  end.

Definition main_with (batch_size : nat) (w : world) : result unit * world :=
  match load_jobs w with
  | Raise e => (Raise e, w)
  | Ok jobs =>
      match embed_jobs batch_size jobs w with
      | (Raise e, w1) => (Raise e, w1)
      | (Ok a, w1) =>
          let w2 := write_file OUT_JSONL (JobsEmbeddings (map ObjLine (out_lines a))) w1 in
          match np_array (all_embeddings a) with
          | Raise e => (Raise e, w2)
          | Ok arr =>
              let w3 := write_file OUT_NPY (Npy arr) w2 in
              embed_resume w3
          end
      end
  end.

Definition main (w : world) : result unit * world := main_with BATCH_SIZE w.

(** The script: the module's top level refuses to run without the key. *)
Definition script (env : gmap string str) (w : world) : result unit * world :=
  if truthy (env !! "OPENAI_API_KEY"%string) then main w
  else (Raise RuntimeError, w).

End Client.
End Stage3.

(** The exit status of a Python script: 0 when it returns, 1 when an
    exception escapes. *)
Definition exit_status {A} (r : result A) : Z :=
  match r with
  | Ok _ => 0
  | Raise _ => 1
  end.

(** ** Stage 1: acquisition (Stage1DataAcquisition.py) *)

Module Stage1.

Definition OUTPUT_JSON : string := "stage1_jobs.json".
Definition OUTPUT_CSV : string := "stage1_jobs.csv".
Definition RAW_JSON : string := "indeed_response_raw.json".

(** The dictionary [flatten_job] returns. *)
Record FlatJob := {
  f_job_key : json;
  f_title : json;
  f_companyName : json;
  f_city : json;
  f_state : json;
  f_formattedAddress : json;
  f_datePublished : json;
  f_jobUrl : json;
  f_salary_text : json;
  f_salary_min : json;
  f_salary_max : json;
  f_descriptionText : json;
  f_attributes : str;
  f_raw : json
}.

(** The files of the stage, by decoded content. *)
Inductive file1 :=
| RawJson (j : json)
| RawText (body : str)
| FlatJson (flattened : list FlatJob)
| FlatCsv (rows : list (list json)).

Inductive log_record :=
| HttpError
| RequestFailed
| SavedRaw
| SavedRawText
| NoJobList
| SavedJson (records : nat)
| SavedCsv
| Done (processed : nat).

(** The world of the stage: its files and its log, latest record first. *)
Record world := {
  fs : gmap string file1;
  log : list log_record
}.

Definition write_file (p : string) (f : file1) (w : world) : world :=
  {| fs := <[p := f]> (fs w); log := log w |}.

Definition logging (r : log_record) (w : world) : world :=
  {| fs := fs w; log := r :: log w |}.

(** What the single POST of [main] gives: a response (whether
    [raise_for_status] accepts it, its text, and its body when that is
    JSON), or any exception other than [HTTPError]. *)
Inductive reply :=
| Reply (ok : bool) (text : str) (body : option json)
| PostFailed.

Definition save_raw (obj : json) (w : world) : world :=
  logging SavedRaw (write_file RAW_JSON (RawJson obj) w).

Definition is_list_of_dicts (v : json) : option (list json) :=
  match v with
  | JList (JDict x :: rest) => Some (JDict x :: rest)
  | _ => None
  end.

(** [for key in (...): v = obj.get(key); if isinstance(v, list): return v]. *)
Fixpoint first_list (d : list (string * json)) (keys : list string) : option (list json) :=
  match keys with
  | [] => None
  | key :: keys' =>
      match jget d key with
      | JList l => Some l
      | _ => first_list d keys'
      end
  end.

(** [for k, v in obj.items(): if isinstance(v, list) and v and
    isinstance(v[0], dict): return v]. *)
Fixpoint first_list_of_dicts (items : list (string * json)) : option (list json) :=
  match items with
  | [] => None
  | (_, v) :: items' =>
      match is_list_of_dicts v with
      | Some l => Some l
      | None => first_list_of_dicts items'
      end
  end.

Definition find_jobs (obj : json) : option (list json) :=
  match obj with
  | JNull => None
  | JDict d =>
      let rv_data :=
        match jget d "returnvalue" with
        | JDict rv => match jget rv "data" with JList l => Some l | _ => None end
        | _ => None
        end in
      match rv_data with
      | Some l => Some l
      | None =>
          match first_list d ["data"; "results"; "items"; "jobs"; "listings"]%string with
          | Some l => Some l
          | None => first_list_of_dicts d
          end
      end
  | JList _ => is_list_of_dicts obj
  | _ => None
  end.

Section Acquisition.

(** BeautifulSoup's text of a non-empty HTML string, spaces normalised. *)
Variable soup_text : str -> str.
(** [str(v)]. *)
Variable py_str : json -> str.
(** The reply to the request of this run. *)
Variable the_reply : reply.

(** [html_to_text] on the value of ["descriptionHtml"], which the caller
    has found truthy; BeautifulSoup rejects what is not markup text. *)
Definition html_to_text (html : json) : result str :=
  if negb (jtruthy html) then Ok []
  else match html with
       | JStr s => Ok (soup_text s)
       | _ => Raise TypeError
       end.

(** [v.get(k)] on a value that need not be a dictionary. *)
Definition attr_get (v : json) (k : string) : result json :=
  match v with
  | JDict d => Ok (jget d k)
  | _ => Raise AttributeError
  end.

Definition flatten_job (job : list (string * json)) : result FlatJob :=
  let loc := jor (jget job "location") (JDict []) in
  let '(city, state, formatted) :=
    match loc with
    | JDict l =>
        (jor (jget l "city") (jget l "cityName"),
         jor (jget l "region") (jget l "state"),
         jor (jor (jget l "formattedAddressLong") (jget l "formattedAddressShort"))
             (jget l "fullAddress"))
    | _ => (JNull, JNull, JNull)
    end in
  let description_html := jget job "descriptionHtml" in
  (try! desc :=
     (if jtruthy description_html
      then (try! t := html_to_text description_html in Ok (JStr t))
      else Ok (jor (jor (jor (jget job "descriptionText") (jget job "description"))
                        (jget job "snippet"))
                   (JStr []))) in
   let salary := jor (jget job "salary") (JDict []) in
   try! st1 := attr_get salary "salaryText" in
   try! st2 := attr_get salary "text" in
   try! smin1 := attr_get salary "salaryMin" in
   try! smin2 := attr_get salary "salary_min" in
   try! smax1 := attr_get salary "salaryMax" in
   try! smax2 := attr_get salary "salary_max" in
   let attrs := jor (jget job "attributes") (JList []) in
   let attrs_str :=
     match attrs with
     | JList l => join (lit "; ") (map py_str l)
     | _ => py_str attrs
     end in
   Ok {| f_job_key := jor (jor (jget job "jobKey") (jget job "id")) (jget job "job_id");
         f_title := jget job "title";
         f_companyName :=
           jor (jor (jget job "companyName") (jget job "company")) (jget job "company_name");
         f_city := city;
         f_state := state;
         f_formattedAddress := formatted;
         f_datePublished := jget job "datePublished";
         f_jobUrl := jor (jor (jget job "jobUrl") (jget job "url")) (jget job "link");
         f_salary_text := jor st1 st2;
         f_salary_min := jor smin1 smin2;
         f_salary_max := jor smax1 smax2;
         f_descriptionText := desc;
         f_attributes := attrs_str;
         f_raw := JDict job |})%result.

(** [[flatten_job(j) for j in jobs if isinstance(j, dict)]]. *)
Fixpoint flatten_all (jobs : list json) : result (list FlatJob) :=
  match jobs with
  | [] => Ok []
  | JDict d :: rest =>
      (try! f := flatten_job d in
       try! fl := flatten_all rest in
       Ok (f :: fl))%result
  | _ :: rest => flatten_all rest
  end.

(** A row of the CSV, in the order of [csv_cols], with a long description
    cut at 1200 characters. *)
Definition csv_description (desc : json) : json :=
  match jor desc (JStr []) with
  | JStr s =>
      if Nat.ltb 1200 (length s)
      then JStr (str_prefix 1200 s ++ lit " ... (truncated)")
      else desc
  | _ => desc
  end.

Definition csv_row (r : FlatJob) : list json :=
  [f_job_key r; f_title r; f_companyName r; f_city r; f_state r;
   f_formattedAddress r; f_datePublished r; f_jobUrl r; f_salary_text r;
   f_salary_min r; f_salary_max r; JStr (f_attributes r);
   csv_description (f_descriptionText r)].

Definition write_outputs (flattened : list FlatJob) (w : world) : world :=
  let w1 := logging (SavedJson (length flattened))
                    (write_file OUTPUT_JSON (FlatJson flattened) w) in
  logging SavedCsv (write_file OUTPUT_CSV (FlatCsv (map csv_row flattened)) w1).

Definition main (w : world) : result unit * world :=
  match the_reply with
  | PostFailed => (Ok tt, logging RequestFailed w)
  | Reply false text body =>
      let w1 := logging HttpError w in
      match body with
      | Some jr => (Ok tt, save_raw jr w1)
      | None => (Ok tt, logging SavedRawText (write_file RAW_JSON (RawText text) w1))
      end
  | Reply true _ None => (Raise JSONDecodeError, w)
  | Reply true _ (Some result) =>
      let w1 := save_raw result w in
      match find_jobs result with
      | None | Some [] => (Ok tt, logging NoJobList w1)
      | Some jobs =>
          match flatten_all jobs with
          | Raise e => (Raise e, w1)
          | Ok flattened =>
              (Ok tt, logging (Done (length flattened)) (write_outputs flattened w1))
          end
      end
  end.

(** The script: the module's top level refuses to run without the key. *)
Definition script (env : gmap string str) (w : world) : result unit * world :=
  if truthy (env !! "RAPIDAPI_KEY"%string) then main w
  else (Raise RuntimeError, w).

End Acquisition.
End Stage1.

(** ** The orchestrator (main.py) *)

Module Orchestrator.

Definition STAGE1_SCRIPT : string := "Stage1DataAcquisition.py".
Definition STAGE2_SCRIPT : string := "Stage2DataCleaningAndResumeParsing.py".
Definition STAGE3_SCRIPT : string := "Stage3OpenAIEmbedding.py".
Definition STAGE4_SCRIPT : string := "Stage4Similarity.py".

Definition STAGE1_RAW : string := "indeed_response_raw.json".
Definition STAGE1_OUT : string := "stage1_jobs.json".
Definition STAGE2_OUT_JSON : string := "cleaned_jobs.json".
Definition STAGE2_OUT_CSV : string := "cleaned_jobs.csv".
Definition STAGE2_RESUME_PROCESSED : string := "processed_resume.txt".
Definition STAGE3_JOBS_EMBED : string := "jobs_embeddings.jsonl".
Definition STAGE3_RESUME_EMBED : string := "resume_embedding.json".
Definition STAGE4_TOP : string := "top_jobs.json".

Definition DEFAULT_RESUME_PATH : string := "Cole_Gruenke_Resume.pdf".
Definition STOP_ON_ERROR : bool := true.
Definition SKIP_IF_OUTPUT_EXISTS : bool := true.
Definition MAX_STAGE1_RUNS : nat := 1.

(** The parsed command line. *)
Record Args := {
  resume : string;
  skip_stage1 : bool;
  skip_stage2 : bool;
  skip_stage3 : bool;
  skip_stage4 : bool;
  continue_on_error : bool;
  force_stage1 : bool
}.

(** How [subprocess.run] ends: the child's return code, a
    [TimeoutExpired], or another exception. *)
Inductive proc :=
| Exited (returncode : Z)
| TimeoutExpired
| OtherException.

(** What the orchestrator prints that the properties refer to. *)
Inductive notice :=
| KeyWarning (name : string)
| StageFailed (stage : nat)
| PipelineCompleted.

Section Run.

(** The content of files does not matter to the orchestrator. *)
Context {F : Type}.

(** The world: the files, the environment, the commands run and the
    notices printed, latest first. *)
Record world := {
  fs : gmap string F;
  env : gmap string str;
  ran : list (list string);
  printed : list notice
}.

(** A child process: from the command (script and arguments), the timeout,
    the environment and the files, how it ends and the files it leaves. *)
Variable subprocess_run :
  list string -> option Z -> gmap string str -> gmap string F -> proc * gmap string F.

Definition print (n : notice) (w : world) : world :=
  {| fs := fs w; env := env w; ran := ran w; printed := n :: printed w |}.

(** [os.getenv(name)]. *)
Definition getenv (w : world) (name : string) : pystr := env w !! name.

Definition run_script (script : string) (args : list string) (timeout : option Z)
    (w : world) : Z * world :=
  let cmd := script :: args in
  let '(p, fs') := subprocess_run cmd timeout (env w) (fs w) in
  let w' := {| fs := fs'; env := env w; ran := cmd :: ran w; printed := printed w |} in
  match p with
  | Exited returncode => (returncode, w')
  | TimeoutExpired => (124, w')
  | OtherException => (1, w')
  end.

(** A stage's block either returns from [orchestrate] with a code or falls
    through to the next block. *)
Definition failed (stage : nat) (rc : Z) (stop_on_error : bool) (w : world)
  : option Z * world :=
  if negb (rc =? 0) && stop_on_error then (Some rc, print (StageFailed stage) w)
  else (None, w).

(** A block that returns from [orchestrate] does so with a code that is
    not 0, only when errors stop the pipeline, and the last notice printed
    is not the completion notice. *)
Definition returns (r : option Z * world) (stop_on_error : bool) : Prop :=
  match r with
  | (Some rc, w) =>
      rc <> 0 /\ stop_on_error = true
      /\ exists n, head (printed w) = Some n /\ n <> PipelineCompleted
  | (None, _) => True
  end.

Definition stage1 (args : Args) (stop_on_error : bool) (stage1_runs : nat)
    (w : world) : option Z * world :=
  if skip_stage1 args then (None, w)
  else if SKIP_IF_OUTPUT_EXISTS && path_exists (fs w) STAGE1_OUT
          && negb (force_stage1 args) then (None, w)
  else if Nat.leb MAX_STAGE1_RUNS stage1_runs then (None, w)
  else
    let w0 := if truthy (getenv w "RAPIDAPI_KEY") then w
              else print (KeyWarning "RAPIDAPI_KEY") w in
    let '(rc, w1) := run_script STAGE1_SCRIPT [] None w0 in
    failed 1 rc stop_on_error w1.

Definition resume_path (args : Args) : string :=
  if String.eqb (resume args) "" then DEFAULT_RESUME_PATH else resume args.

Definition stage2 (args : Args) (stop_on_error : bool) (w : world)
  : option Z * world :=
  if skip_stage2 args then (None, w)
  else if SKIP_IF_OUTPUT_EXISTS && path_exists (fs w) STAGE2_OUT_JSON then (None, w)
  else
    let stage2_args :=
      if path_exists (fs w) (resume_path args) then [resume_path args] else [] in
    let '(rc, w1) := run_script STAGE2_SCRIPT stage2_args None w in
    failed 2 rc stop_on_error w1.

(** The check that skips Stage 3: both of its outputs exist. *)
Definition stage3_outputs_exist (files : gmap string F) : bool :=
  SKIP_IF_OUTPUT_EXISTS && path_exists files STAGE3_JOBS_EMBED
  && path_exists files STAGE3_RESUME_EMBED.

Definition stage3 (args : Args) (stop_on_error : bool) (w : world)
  : option Z * world :=
  if skip_stage3 args then (None, w)
  else if stage3_outputs_exist (fs w) then (None, w)
  else if negb (truthy (getenv w "OPENAI_API_KEY")) then
    let w1 := print (KeyWarning "OPENAI_API_KEY") w in
    if stop_on_error then (Some 1, w1) else (None, w1)
  else
    let '(rc, w1) := run_script STAGE3_SCRIPT [] None w in
    failed 3 rc stop_on_error w1.

Definition stage4 (args : Args) (stop_on_error : bool) (w : world)
  : option Z * world :=
  if skip_stage4 args then (None, w)
  else if SKIP_IF_OUTPUT_EXISTS && path_exists (fs w) STAGE4_TOP then (None, w)
  else
    let '(rc, w1) := run_script STAGE4_SCRIPT [] None w in
    failed 4 rc stop_on_error w1.

(** [orchestrate(args)]: the value it returns is the exit code of the
    orchestrator ([sys.exit(rc)]). *)
Definition orchestrate (args : Args) (w : world) : Z * world :=
  let stop_on_error := negb (continue_on_error args) in
  let stage1_runs := O in
  match stage1 args stop_on_error stage1_runs w with
  | (Some rc, w1) => (rc, w1)
  | (None, w1) =>
      match stage2 args stop_on_error w1 with
      | (Some rc, w2) => (rc, w2)
      | (None, w2) =>
          match stage3 args stop_on_error w2 with
          | (Some rc, w3) => (rc, w3)
          | (None, w3) =>
              match stage4 args stop_on_error w3 with
              | (Some rc, w4) => (rc, w4)
              | (None, w4) => (0, print PipelineCompleted w4)
              end
          end
      end
  end.

End Run.

Arguments world F : clear implicits.

End Orchestrator.

(** ** Sample data

    Concrete kernels, files and services on which the definitions above
    run; the examples of the second part are stated on them. *)

Module Sample.
Import Float.

(** A dot product that accumulates from left to right in float32, and the
    norm it gives. *)
Definition seq_dot (a b : list spec_float) : spec_float :=
  fold_left (fun s xy => add32 s (mul32 (fst xy) (snd xy))) (combine a b) zero.

Definition seq_norm (a : list spec_float) : spec_float := sqrt32 (seq_dot a a).

(** [num / den] rounded to the nearest integer, ties to even. *)
Definition round_half_even (num den : Z) : Z :=
  let q := num / den in
  let r := num mod den in
  if (den <? 2 * r) || ((den =? 2 * r) && Z.odd q) then q + 1 else q.

Definition decimal (n : Z) : string := NilZero.string_of_uint (N.to_uint (Z.to_N n)).

(** ["%.6f"]: the exact value rounded to six decimals. *)
Definition fixed6 (x : spec_float) : string :=
  match x with
  | S754_nan => "nan"
  | S754_infinity s => if s then "-inf" else "inf"
  | S754_zero s => if s then "-0.000000" else "0.000000"
  | S754_finite s m e =>
      let micro :=
        if 0 <=? e then Z.pos m * 2 ^ e * 1000000
        else round_half_even (Z.pos m * 1000000) (2 ^ (- e)) in
      ((if s then "-" else "") +:+ decimal (micro / 1000000) +:+ "."
       +:+ substring 1 6 (decimal (1000000 + micro mod 1000000)))%string
  end.

(** The Python floats [0.9] and [0.1]. *)
Definition nine_tenths : spec_float := S754_finite false 8106479329266893 (-53).
Definition one_tenth : spec_float := S754_finite false 7205759403792794 (-56).

Definition candidate (key : string) (emb : list spec_float) : jsonl_line :=
  ObjLine {| eo_job_key := JStr (lit key);
             eo_meta := Some {[ "title"%string := JStr (lit key) ]};
             eo_embedding := Some emb |}.

(** A jobs file with the candidates A = [1, 0], B = [0, 1] and
    C = [0.9, 0.1], and a blank line. *)
Definition lines : list jsonl_line :=
  [candidate "A" [one; zero]; BlankLine; candidate "B" [zero; one];
   candidate "C" [nine_tenths; one_tenth]].

(** The same file with a line between A and C that has no embedding. *)
Definition lines_missing_embedding : list jsonl_line :=
  [candidate "A" [one; zero];
   ObjLine {| eo_job_key := JStr (lit "B"); eo_meta := None; eo_embedding := None |};
   candidate "C" [nine_tenths; one_tenth]].

(** A jobs file with ties: A = [1, 0] and D = [2, 0] both have
    similarity 1 with the reference, B = [0, 1] and E = [0, 3] both have
    similarity 0. *)
Definition two : spec_float := Eval vm_compute in SFadd prec64 emax64 one one.
Definition three : spec_float := Eval vm_compute in SFadd prec64 emax64 two one.

Definition lines_with_ties : list jsonl_line :=
  [candidate "B" [zero; one]; candidate "A" [one; zero];
   candidate "C" [nine_tenths; one_tenth]; candidate "E" [zero; three];
   candidate "D" [two; zero]].


(** The reference [1, 0]. *)
Definition resume_obj : ResumeEmbedding :=
  {| re_model := "text-embedding-3-small";
     re_embedding := Some [one; zero];
     re_text_sample := lit "resume" |}.

Definition files : gmap string file :=
  {[ Stage4.DEFAULT_JOBS_FILE := JobsEmbeddings lines;
     Stage4.DEFAULT_RESUME_FILE := ResumeFile resume_obj ]}.

Definition files_missing_embedding : gmap string file :=
  {[ Stage4.DEFAULT_JOBS_FILE := JobsEmbeddings lines_missing_embedding;
     Stage4.DEFAULT_RESUME_FILE := ResumeFile resume_obj ]}.

Definition files_with_ties : gmap string file :=
  {[ Stage4.DEFAULT_JOBS_FILE := JobsEmbeddings lines_with_ties;
     Stage4.DEFAULT_RESUME_FILE := ResumeFile resume_obj ]}.


(** The ranker on the sample files, under a Python in which slicing a
    dictionary is a [TypeError]. *)
Definition rank (top_n : Z) (fs : gmap string file)
  : result (list RankedResult) * gmap string file :=
  Stage4.rank_jobs seq_dot seq_norm fixed6 TypeError
    Stage4.DEFAULT_JOBS_FILE Stage4.DEFAULT_RESUME_FILE top_n fs.

(** Cleaned job records, and a service that answers every request with
    one vector per text: the length of the text, and 1. *)
Definition job (key ttl : string) : JobRecord :=
  {| job_key := Some (lit key);
     title := Some (lit ttl);
     companyName := Some (lit "Acme");
     location_normalized := None;
     location_raw := Some (lit "Remote");
     description := Some (lit "Builds things") |}.

Definition jobs : list JobRecord :=
  [job "k1" "Engineer"; job "k2" "Analyst"; job "k3" "Designer"].

Definition text_vector (s : str) : list spec_float :=
  [binary_normalize prec64 emax64 (Z.of_nat (length s)) 0 false; one].

Definition service_ok (k : nat) (model : string) (inputs : list str)
  : Stage3.http_outcome :=
  Stage3.Response 200 (Stage3.Data (map text_vector inputs)).

(** A service that is always rate limited. *)
Definition service_busy (k : nat) (model : string) (inputs : list str)
  : Stage3.http_outcome :=
  Stage3.Response 429 Stage3.NotJson.

(** A service that answers [n] requests and rejects the later ones as
    unauthorised. *)
Definition service_denied_after (n k : nat) (model : string) (inputs : list str)
  : Stage3.http_outcome :=
  if Nat.ltb k n then Stage3.Response 200 (Stage3.Data (map text_vector inputs))
  else Stage3.Response 401 Stage3.NoData.

(** A service that is unavailable for the first [n] requests and answers
    the later ones. *)
Definition service_busy_until (n k : nat) (model : string) (inputs : list str)
  : Stage3.http_outcome :=
  if Nat.ltb k n then Stage3.Response 503 Stage3.NotJson
  else Stage3.Response 200 (Stage3.Data (map text_vector inputs)).

(** The files Stage 2 leaves, with a given processed resume. *)
Definition world3 (resume_text : string) : Stage3.world :=
  {| Stage3.fs := {[ Stage3.CLEANED_JOBS_JSON := CleanedJobs jobs;
                     Stage3.PROCESSED_RESUME := Text (lit resume_text) ]};
     Stage3.calls := 0;
     Stage3.slept := [] |}.

(** A resume of spaces that are not ASCII: a no-break space, an em space,
    an ideographic space and a next-line control. *)
Definition unicode_blanks : str := [160; 8195; 12288; 133]%N.

Definition world3_unicode_blanks : Stage3.world :=
  {| Stage3.fs := {[ Stage3.CLEANED_JOBS_JSON := CleanedJobs jobs;
                     Stage3.PROCESSED_RESUME := Text unicode_blanks ]};
     Stage3.calls := 0;
     Stage3.slept := [] |}.

(** The same files with a resume embedding left by an earlier run. *)
Definition world3_stale (resume_text : string) : Stage3.world :=
  {| Stage3.fs := <[Stage3.OUT_RESUME := ResumeFile resume_obj]>
                    (Stage3.fs (world3 resume_text));
     Stage3.calls := 0;
     Stage3.slept := [] |}.

(** A service whose answers have status 200: the first [n] bodies are not
    JSON, the later ones carry the embeddings. *)
Definition service_garbled_until (n k : nat) (model : string) (inputs : list str)
  : Stage3.http_outcome :=
  if Nat.ltb k n then Stage3.Response 200 Stage3.NotJson
  else Stage3.Response 200 (Stage3.Data (map text_vector inputs)).

(** A service that answers with status 200 and the body [null]. *)
Definition service_null (k : nat) (model : string) (inputs : list str)
  : Stage3.http_outcome :=
  Stage3.Response 200 (Stage3.Unusable TypeError).

(** A service that answers with status 200 and an object without
    ["data"]. *)
Definition service_no_data (k : nat) (model : string) (inputs : list str)
  : Stage3.http_outcome :=
  Stage3.Response 200 Stage3.NoData.

(** A service whose vectors do not all have one dimension: the second
    text of a batch gets a vector of one component. *)
Definition service_ragged (k : nat) (model : string) (inputs : list str)
  : Stage3.http_outcome :=
  Stage3.Response 200
    (Stage3.Data (map (fun it => if Nat.eqb (fst it) 1 then [one]
                                 else text_vector (snd it))
                      (enumerate inputs 0))).

(** The orchestrator's command line without any flag, environments with
    and without the keys, and child processes: one that always exits with
    a given code, and one in which a stage script exits with 1 when its key
    is missing from the environment, as the scripts do, and with 0
    otherwise. *)
Definition args0 : Orchestrator.Args :=
  {| Orchestrator.resume := Orchestrator.DEFAULT_RESUME_PATH;
     Orchestrator.skip_stage1 := false;
     Orchestrator.skip_stage2 := false;
     Orchestrator.skip_stage3 := false;
     Orchestrator.skip_stage4 := false;
     Orchestrator.continue_on_error := false;
     Orchestrator.force_stage1 := false |}.

Definition args_continue : Orchestrator.Args :=
  {| Orchestrator.resume := Orchestrator.DEFAULT_RESUME_PATH;
     Orchestrator.skip_stage1 := false;
     Orchestrator.skip_stage2 := false;
     Orchestrator.skip_stage3 := false;
     Orchestrator.skip_stage4 := false;
     Orchestrator.continue_on_error := true;
     Orchestrator.force_stage1 := false |}.

Definition env_both : gmap string str :=
  {[ "RAPIDAPI_KEY"%string := lit "rk"; "OPENAI_API_KEY"%string := lit "sk" ]}.

Definition env_openai_only : gmap string str :=
  {[ "OPENAI_API_KEY"%string := lit "sk" ]}.

Definition env_rapidapi_only : gmap string str :=
  {[ "RAPIDAPI_KEY"%string := lit "rk" ]}.

Definition exits (rc : Z) (cmd : list string) (timeout : option Z)
    (env : gmap string str) (fs : gmap string file)
  : Orchestrator.proc * gmap string file :=
  (Orchestrator.Exited rc, fs).

Definition key_of (script : string) : option string :=
  if String.eqb script Orchestrator.STAGE1_SCRIPT then Some "RAPIDAPI_KEY"%string
  else if String.eqb script Orchestrator.STAGE3_SCRIPT then Some "OPENAI_API_KEY"%string
  else None.

Definition scripts (cmd : list string) (timeout : option Z)
    (env : gmap string str) (fs : gmap string file)
  : Orchestrator.proc * gmap string file :=
  match cmd with
  | script :: _ =>
      match key_of script with
      | Some key =>
          if truthy (env !! key) then (Orchestrator.Exited 0, fs)
          else (Orchestrator.Exited 1, fs)
      | None => (Orchestrator.Exited 0, fs)
      end
  | [] => (Orchestrator.OtherException, fs)
  end.

(** An orchestrator that starts in a directory without any stage output. *)
Definition fresh (env : gmap string str) : Orchestrator.world file :=
  {| Orchestrator.fs := ∅;
     Orchestrator.env := env;
     Orchestrator.ran := [];
     Orchestrator.printed := [] |}.

(** A directory in which every stage has left its outputs. *)
Definition complete_dir : gmap string file :=
  {[ Orchestrator.STAGE1_OUT := OtherFile;
     Orchestrator.STAGE2_OUT_JSON := CleanedJobs jobs;
     Orchestrator.STAGE3_JOBS_EMBED := JobsEmbeddings lines;
     Orchestrator.STAGE3_RESUME_EMBED := ResumeFile resume_obj;
     Orchestrator.STAGE4_TOP := TopJobsJson [] ]}.

Definition rerun : Orchestrator.world file :=
  {| Orchestrator.fs := complete_dir;
     Orchestrator.env := ∅;
     Orchestrator.ran := [];
     Orchestrator.printed := [] |}.

(** Stage 1: [str] on the scalars of JSON (the samples hold no container
    where [str] is applied), markup that is its own text, and a provider
    response whose job list has a record that is not an object. *)
Definition scalar_str (v : json) : str :=
  match v with
  | JNull => lit "None"
  | JBool b => if b then lit "True" else lit "False"
  | JNum n => if n <? 0 then lit ("-" +:+ decimal (- n)) else lit (decimal n)
  | JStr s => s
  | _ => lit "..."
  end.

Definition plain_text (html : str) : str := html.

Definition posting (key ttl : string) : json :=
  JDict [("jobKey"%string, JStr (lit key)); ("title"%string, JStr (lit ttl))].

Definition response : json :=
  JDict [("returnvalue"%string,
          JDict [("data"%string,
                  JList [posting "j1" "Engineer"; JStr (lit "not a record");
                         posting "j2" "Analyst"])])].

(** A response with a record whose salary is a string. *)
Definition response_bad_salary : json :=
  JDict [("jobs"%string,
          JList [posting "j1" "Engineer";
                 JDict [("jobKey"%string, JStr (lit "j2"));
                        ("salary"%string, JStr (lit "50k"))]])].

(** A response in which a key that is not one of the named ones holds a
    list of objects and comes before ["jobs"], which holds a list of
    another kind. *)
Definition response_two_lists : json :=
  JDict [("postings"%string, JList [posting "j1" "Engineer"]);
         ("jobs"%string, JList [JNum 7])].

Definition world1 : Stage1.world := {| Stage1.fs := ∅; Stage1.log := [] |}.

End Sample.

(** * Properties *)

(** ** Order on floats *)

Module FloatFacts.
Import Float.

Ltac cmp_split :=
  repeat match goal with
  | H : context [Pos.compare_cont Eq ?p ?q] |- _ =>
      change (Pos.compare_cont Eq p q) with (Pos.compare p q) in H
  | |- context [Pos.compare_cont Eq ?p ?q] =>
      change (Pos.compare_cont Eq p q) with (Pos.compare p q)
  end;
  repeat match goal with
  | H : context [Z.compare ?a ?b] |- _ => destruct (Z.compare_spec a b); simpl in H
  | |- context [Z.compare ?a ?b] => destruct (Z.compare_spec a b); simpl
  | H : context [Pos.compare ?a ?b] |- _ => destruct (Pos.compare_spec a b); simpl in H
  | |- context [Pos.compare ?a ?b] => destruct (Pos.compare_spec a b); simpl
  end.

Lemma compare_antisym x y :
  SFcompare y x = option_map CompOpp (SFcompare x y).
Proof.
  destruct x as [[]|[]| |[] mx ex], y as [[]|[]| |[] my ey]; simpl; try reflexivity;
    cmp_split; try reflexivity; try lia.
Qed.

Lemma ltb_leb a b :
  isnan a = false -> isnan b = false -> ltb a b = negb (leb b a).
Proof.
  intros Ha Hb. unfold ltb, leb, SFltb, SFleb. rewrite (compare_antisym a b).
  destruct a as [[]|[]| |[] mx ex], b as [[]|[]| |[] my ey];
    try discriminate; simpl; try reflexivity; cmp_split; reflexivity.
Qed.

Lemma ltb_incl a b : ltb a b = true -> leb a b = true.
Proof.
  unfold ltb, leb, SFltb, SFleb. destruct (SFcompare a b) as [[]|]; auto.
Qed.

Lemma leb_trans a b c : leb a b = true -> leb b c = true -> leb a c = true.
Proof.
  unfold leb, SFleb.
  destruct a as [[]|[]| |[] ma ea], b as [[]|[]| |[] mb eb], c as [[]|[]| |[] mc ec];
    simpl; try reflexivity; try discriminate; intros H1 H2;
    cmp_split; try reflexivity; try discriminate; try lia.
Qed.

Lemma eqb_leb a b : eqb a b = true -> leb a b = true /\ leb b a = true.
Proof.
  unfold eqb, leb, SFeqb, SFleb. rewrite (compare_antisym a b).
  destruct (SFcompare a b) as [[]|]; simpl; intros; try discriminate; auto.
Qed.

Lemma leb_notnan a b : leb a b = true -> isnan a = false /\ isnan b = false.
Proof.
  unfold leb, SFleb. destruct a, b; simpl; try discriminate; auto.
Qed.

Lemma eqb_not_ltb a b v :
  eqb a v = true -> eqb b v = true -> ltb a b = false.
Proof.
  intros Ha Hb. apply eqb_leb in Ha as [Hav Hva]. apply eqb_leb in Hb as [Hbv Hvb].
  pose proof (leb_trans _ _ _ Hbv Hva) as Hba.
  destruct (leb_notnan _ _ Hba) as [Nb Na].
  rewrite ltb_leb by assumption. now rewrite Hba.
Qed.

(** The clip of a number lies within [-1, 1]. *)
Lemma clip_within c :
  isnan c = false -> Stage4.within_unit (py_max (py_min c one) minus_one).
Proof.
  intros Hc. unfold Stage4.within_unit, py_max, py_min.
  destruct (ltb one c) eqn:H1.
  - vm_compute. auto.
  - destruct (ltb c minus_one) eqn:H2.
    + vm_compute. auto.
    + rewrite ltb_leb in H1, H2 by (assumption || reflexivity).
      apply negb_false_iff in H1, H2. auto.
Qed.

Lemma clip_clipped c :
  isnan c = false -> Stage4.clipped c (py_max (py_min c one) minus_one).
Proof.
  intros Hc. unfold Stage4.clipped, py_max, py_min.
  destruct (ltb one c) eqn:H1.
  - replace (ltb one minus_one) with false by reflexivity.
    repeat split; try discriminate. intros H2.
    exfalso.
    assert (leb one minus_one = true).
    { eapply leb_trans; apply ltb_incl; eassumption. }
    discriminate.
  - destruct (ltb c minus_one) eqn:H2; repeat split; intros; congruence.
Qed.

End FloatFacts.

(** ** The sort is a stable descending sort *)

Module SortFacts.
Import Float FloatFacts.

Section Sorting.
Context {A : Type} (key : A -> spec_float).

Lemma insort_perm x s : Permutation (insort key x s) (x :: s).
Proof.
  induction s as [|y s IH]; simpl; [reflexivity|].
  destruct (ltb (key x) (key y)); [|reflexivity].
  rewrite IH. apply perm_swap.
Qed.

Lemma sorted_reverse_perm l : Permutation (sorted_reverse key l) l.
Proof.
  induction l as [|x l IH]; simpl; [reflexivity|].
  rewrite insort_perm. now constructor.
Qed.

Lemma sorted_reverse_length l : length (sorted_reverse key l) = length l.
Proof. apply Permutation_length, sorted_reverse_perm. Qed.

Lemma insort_nonincreasing x s :
  isnan (key x) = false ->
  Forall (fun y => isnan (key y) = false) s ->
  nonincreasing key s -> nonincreasing key (insort key x s).
Proof.
  intros Hx Hs Hsorted. unfold nonincreasing in *.
  induction Hsorted as [|y s Hsorted IH Hy]; simpl.
  - repeat constructor.
  - inversion Hs as [|? ? Hny Hs']; subst.
    destruct (ltb (key x) (key y)) eqn:Hlt.
    + constructor; [auto|].
      eapply Permutation_Forall; [symmetry; apply insort_perm|].
      constructor; [now apply ltb_incl|assumption].
    + rewrite ltb_leb in Hlt by assumption.
      apply negb_false_iff in Hlt.
      constructor; [constructor; assumption|].
      constructor; [assumption|].
      eapply List.Forall_impl; [|exact Hy].
      intros z Hz. simpl in Hz. eapply leb_trans; eassumption.
Qed.

Lemma sorted_reverse_nonincreasing l :
  Forall (fun y => isnan (key y) = false) l ->
  nonincreasing key (sorted_reverse key l).
Proof.
  induction 1 as [|x l Hx Hl IH]; simpl; [constructor|].
  apply insort_nonincreasing; auto.
  eapply Permutation_Forall; [symmetry; apply sorted_reverse_perm|assumption].
Qed.

Lemma insort_filter v x s :
  List.filter (fun y => eqb (key y) v) (insort key x s)
  = List.filter (fun y => eqb (key y) v) (x :: s).
Proof.
  induction s as [|y s IH]; [reflexivity|].
  simpl insort. destruct (ltb (key x) (key y)) eqn:Hlt; [|reflexivity].
  simpl. simpl in IH. rewrite IH.
  destruct (eqb (key x) v) eqn:Hx, (eqb (key y) v) eqn:Hy; try reflexivity.
  rewrite (eqb_not_ltb _ _ _ Hx Hy) in Hlt. discriminate.
Qed.

Lemma sorted_reverse_keeps_order l : keeps_order key l (sorted_reverse key l).
Proof.
  intros v. induction l as [|x l IH]; [reflexivity|].
  simpl sorted_reverse. rewrite insort_filter. simpl. now rewrite IH.
Qed.

End Sorting.

Lemma Forall_firstn {A} (P : A -> Prop) n l :
  Forall P l -> Forall P (firstn n l).
Proof.
  intros H. revert n.
  induction H; intros [|n]; simpl; constructor; auto.
Qed.

Lemma nonincreasing_firstn {A} (key : A -> spec_float) n l :
  nonincreasing key l -> nonincreasing key (firstn n l).
Proof.
  unfold nonincreasing. intros H. revert n.
  induction H as [|x l Hl IH Hx]; intros [|n]; simpl; try constructor; auto.
  now apply Forall_firstn.
Qed.

Lemma nonincreasing_slice_to {A} (key : A -> spec_float) n l :
  nonincreasing key l -> nonincreasing key (slice_to l n).
Proof. unfold slice_to. destruct (n <? 0); apply nonincreasing_firstn. Qed.

Lemma slice_to_nonneg {A} (l : list A) n :
  0 <= n -> slice_to l n = firstn (Z.to_nat n) l.
Proof. intros H. unfold slice_to. destruct (Z.ltb_spec n 0); [lia|reflexivity]. Qed.

End SortFacts.

(** ** Stage 4: the ranker *)

Module Stage4Facts.
Import Float FloatFacts SortFacts Stage4.

Section Ranker.
Variable sdot : list spec_float -> list spec_float -> spec_float.
Variable nrm2 : list spec_float -> spec_float.
Variable fmt6 : spec_float -> string.
Variable dict_slice_error : exn.

Lemma similarity_zero_norm a b :
  eqb (nrm2 a) zero = true \/ eqb (nrm2 b) zero = true ->
  safe_cosine_similarity sdot nrm2 a b = Ok zero.
Proof.
  intros H. unfold safe_cosine_similarity.
  destruct H as [H|H]; rewrite H; [reflexivity|].
  now rewrite orb_true_r.
Qed.

Lemma similarity_nonzero_norm a b :
  eqb (nrm2 a) zero = false -> eqb (nrm2 b) zero = false -> length a = length b ->
  safe_cosine_similarity sdot nrm2 a b =
    let cos := cosine (sdot a b) (nrm2 a) (nrm2 b) in
    if isnan cos then Ok zero else Ok (py_max (py_min cos one) minus_one).
Proof.
  intros Ha Hb Hlen. unfold safe_cosine_similarity, np_dot.
  rewrite Ha, Hb, Hlen, Nat.eqb_refl. reflexivity.
Qed.

Lemma within_unit_zero : within_unit zero.
Proof. split; reflexivity. Qed.

Lemma similarity_within a b :
  length a = length b ->
  exists r, safe_cosine_similarity sdot nrm2 a b = Ok r /\ within_unit r.
Proof.
  intros Hlen.
  destruct (eqb (nrm2 a) zero) eqn:Ha.
  { exists zero. split; [apply similarity_zero_norm; auto|apply within_unit_zero]. }
  destruct (eqb (nrm2 b) zero) eqn:Hb.
  { exists zero. split; [apply similarity_zero_norm; auto|apply within_unit_zero]. }
  rewrite similarity_nonzero_norm by assumption. cbv zeta.
  destruct (isnan _) eqn:Hnan.
  - exists zero. split; [reflexivity|apply within_unit_zero].
  - eexists. split; [reflexivity|]. now apply clip_within.
Qed.

(** Claim C1. [safe_cosine_similarity a b] is [0.0] as soon as the norm of
    [a] or of [b] compares equal to zero. For vectors of one dimension whose
    norms are both non-zero, with [cos] the dot product divided, in
    float32, by the float32 product of the two norms and then converted to
    a Python float: the result is [0.0] when [cos] is not-a-number, and
    otherwise [cos] clipped into [-1, 1] (1 when [cos] exceeds 1, -1 when
    it is below -1, [cos] itself in between). Hence, for vectors of one
    dimension, the function returns a value and that value lies within
    [-1, 1]. *)
Theorem safe_cosine_similarity_spec (a b : list spec_float) :
  (eqb (nrm2 a) zero = true \/ eqb (nrm2 b) zero = true ->
   safe_cosine_similarity sdot nrm2 a b = Ok zero)
  /\ (eqb (nrm2 a) zero = false -> eqb (nrm2 b) zero = false ->
      length a = length b ->
      let cos := widen (div32 (sdot a b) (mul32 (nrm2 a) (nrm2 b))) in
      (isnan cos = true -> safe_cosine_similarity sdot nrm2 a b = Ok zero)
      /\ (isnan cos = false ->
          exists r, safe_cosine_similarity sdot nrm2 a b = Ok r /\ clipped cos r))
  /\ (length a = length b ->
      exists r, safe_cosine_similarity sdot nrm2 a b = Ok r /\ within_unit r).
Proof.
  split; [apply similarity_zero_norm|]. split; [|apply similarity_within].
  intros Ha Hb Hlen cos.
  rewrite similarity_nonzero_norm by assumption. unfold cosine. fold cos. cbv zeta.
  split; intros Hnan; rewrite Hnan; [reflexivity|].
  eexists. split; [reflexivity|]. now apply clip_clipped.
Qed.

(** On a well-formed file the loader returns the candidates of the file,
    in order; they all have the dimension of the file and display fields
    that can be shown. *)
Lemma load_lines_candidates d lines records :
  Forall (well_formed d) lines ->
  load_lines lines records = Ok (records ++ candidates lines)
  /\ Forall (fun c => length (lj_embedding c) = d /\ displayable c) (candidates lines).
Proof.
  intros H. revert records.
  induction H as [|line lines Hline Hlines IH]; intros records; simpl.
  - rewrite app_nil_r. auto.
  - destruct line as [| |o]; simpl in *; [apply IH|contradiction|].
    destruct Hline as [(emb & Hemb & Hd) Hshow].
    rewrite Hemb in *.
    destruct (IH (records ++ [{| lj_job_key := eo_job_key o; lj_meta := eo_meta o;
                                lj_embedding := emb |}])) as [-> HF].
    rewrite <- app_assoc. split; [reflexivity|]. constructor; [|assumption].
    split; [assumption|]. now apply Hshow.
Qed.

Lemma cut_printable n v :
  printable true v = true -> exists s, cut dict_slice_error n v = Ok (JStr s).
Proof.
  unfold printable, cut. destruct (jor v (JStr [])); try discriminate. eauto.
Qed.

Lemma cut_printable_any n v :
  printable false v = true -> exists c, cut dict_slice_error n v = Ok c.
Proof.
  unfold printable, cut. destruct (jor v (JStr [])); try discriminate; eauto.
Qed.

(** A row whose display fields can be shown is printed. *)
Lemma print_row_ok r :
  printable true (r_title r) = true ->
  printable true (r_company r) = true ->
  printable false (r_location r) = true ->
  print_row dict_slice_error r = Ok tt.
Proof.
  intros Ht Hc Hl. unfold print_row.
  destruct (cut_printable 38 _ Ht) as [t ->].
  destruct (cut_printable 28 _ Hc) as [c ->].
  destruct (cut_printable_any 40 _ Hl) as [l ->].
  reflexivity.
Qed.

Lemma print_rows_ok rows :
  Forall (fun r => print_row dict_slice_error r = Ok tt) rows ->
  print_rows dict_slice_error rows = Ok tt.
Proof.
  induction 1 as [|r rows Hr _ IH]; simpl; [reflexivity|]. now rewrite Hr.
Qed.


Lemma to_numpy_length v : length (to_numpy v) = length v.
Proof. apply length_map. Qed.

Lemma score_ok resume_vec rec :
  length (lj_embedding rec) = length resume_vec /\ displayable rec ->
  exists r,
    Stage4.score sdot nrm2 (to_numpy resume_vec) rec = Ok r
    /\ within_unit (r_similarity r)
    /\ print_row dict_slice_error r = Ok tt.
Proof.
  intros [Hlen (Ht & Hc & Hl)]. unfold Stage4.score.
  destruct (similarity_within (to_numpy resume_vec) (to_numpy (lj_embedding rec)))
    as (sim & -> & Hsim).
  { now rewrite !to_numpy_length. }
  simpl. eexists. split; [reflexivity|]. split; [exact Hsim|].
  now apply print_row_ok.
Qed.

Lemma score_loop_ok resume_vec jobs results :
  Forall (fun c => length (lj_embedding c) = length resume_vec /\ displayable c) jobs ->
  exists scored,
    score_loop sdot nrm2 (to_numpy resume_vec) jobs results = Ok (results ++ scored)
    /\ Forall2 (fun job r => Stage4.score sdot nrm2 (to_numpy resume_vec) job = Ok r) jobs scored
    /\ Forall (fun r => within_unit (r_similarity r)
                        /\ print_row dict_slice_error r = Ok tt) scored.
Proof.
  intros H. revert results.
  induction H as [|rec jobs Hrec Hjobs IH]; intros results; simpl.
  - exists []. rewrite app_nil_r. repeat split; constructor.
  - destruct (score_ok resume_vec rec Hrec) as (r & Hr & Hin & Hprint).
    rewrite Hr. simpl.
    destruct (IH (results ++ [r])) as (scored & -> & HF2 & HF).
    exists (r :: scored). rewrite <- app_assoc.
    split; [reflexivity|]. split; constructor; auto.
Qed.

Lemma within_unit_notnan r : within_unit r -> isnan r = false.
Proof. intros [H _]. now apply leb_notnan in H. Qed.

Lemma results_sorted_ok resume_vec jobs :
  Forall (fun c => length (lj_embedding c) = length resume_vec /\ displayable c) jobs ->
  exists results,
    Forall2 (fun job r => Stage4.score sdot nrm2 (to_numpy resume_vec) job = Ok r)
            jobs results
    /\ results_sorted sdot nrm2 resume_vec jobs
       = Ok (sorted_reverse r_similarity results)
    /\ Forall (fun r => isnan (r_similarity r) = false) results
    /\ Forall (fun r => print_row dict_slice_error r = Ok tt) results.
Proof.
  intros H. destruct (score_loop_ok resume_vec jobs [] H) as (scored & Hloop & HF2 & HF).
  exists scored. unfold results_sorted. rewrite Hloop. simpl.
  split; [assumption|]. split; [reflexivity|].
  split; (eapply List.Forall_impl; [|exact HF]); intros r [Hu Hp];
    [now apply within_unit_notnan|exact Hp].
Qed.

Lemma print_rows_slice_to rows top_n :
  Forall (fun r => print_row dict_slice_error r = Ok tt) rows ->
  print_rows dict_slice_error (slice_to rows top_n) = Ok tt.
Proof.
  intros H. apply print_rows_ok. unfold slice_to.
  destruct (top_n <? 0); now apply Forall_firstn.
Qed.

(** What a run of [rank_jobs] on a well-formed pair of files amounts to. *)
Lemma rank_jobs_ok fs jobs_file resume_file top_n lines o resume_vec :
  fs !! jobs_file = Some (JobsEmbeddings lines) ->
  fs !! resume_file = Some (ResumeFile o) ->
  re_embedding o = Some resume_vec ->
  Forall (well_formed (length resume_vec)) lines ->
  exists results,
    Forall2 (fun job r => Stage4.score sdot nrm2 (to_numpy resume_vec) job = Ok r)
            (candidates lines) results
    /\ Forall (fun r => isnan (r_similarity r) = false) results
    /\ results_sorted sdot nrm2 resume_vec (candidates lines)
       = Ok (sorted_reverse r_similarity results)
    /\ rank_jobs sdot nrm2 fmt6 dict_slice_error jobs_file resume_file top_n fs
       = (Ok (slice_to (sorted_reverse r_similarity results) top_n),
          <[OUTPUT_CSV :=
              TopJobsCsv (csv_rows fmt6 (slice_to (sorted_reverse r_similarity results) top_n))]>
            (<[OUTPUT_JSON :=
                 TopJobsJson (slice_to (sorted_reverse r_similarity results) top_n)]> fs)).
Proof.
  intros Hjobs Hresume Hemb Hwf.
  destruct (load_lines_candidates _ lines [] Hwf) as [Hload Hdim].
  destruct (results_sorted_ok resume_vec (candidates lines) Hdim)
    as (results & HF2 & Hsorted & Hnan & Hprint).
  exists results. repeat split; try assumption.
  unfold rank_jobs, load_jobs_embeddings, load_resume_embedding.
  rewrite Hjobs, Hresume, Hemb, Hload. simpl app. rewrite Hsorted. cbv zeta.
  rewrite print_rows_slice_to; [reflexivity|].
  eapply Permutation_Forall; [|exact Hprint].
  apply Permutation_sym, sorted_reverse_perm.
Qed.

Lemma Forall2_length_eq {A B} (R : A -> B -> Prop) l l' :
  Forall2 R l l' -> length l' = length l.
Proof. induction 1; simpl; congruence. Qed.

(** Claim C2, for a requested number that is not negative. On a jobs file
    whose lines are blank or carry an embedding of the resume's dimension
    and display fields that the table can show (title and company absent
    or strings, as Stage 3 writes them), for every [top_n >= 0],
    [rank_jobs] returns a list (it does not raise, also when [top_n]
    exceeds the number of candidates) whose length is the minimum of
    [top_n] and the number of candidates and whose similarities are
    non-increasing. *)
Theorem rank_jobs_top_n fs jobs_file resume_file top_n lines o resume_vec :
  fs !! jobs_file = Some (JobsEmbeddings lines) ->
  fs !! resume_file = Some (ResumeFile o) ->
  re_embedding o = Some resume_vec ->
  Forall (well_formed (length resume_vec)) lines ->
  0 <= top_n ->
  exists top fs',
    rank_jobs sdot nrm2 fmt6 dict_slice_error jobs_file resume_file top_n fs = (Ok top, fs')
    /\ length top = Nat.min (Z.to_nat top_n) (length (candidates lines))
    /\ nonincreasing r_similarity top.
Proof.
  intros Hjobs Hresume Hemb Hwf Htop.
  destruct (rank_jobs_ok fs jobs_file resume_file top_n lines o resume_vec
              Hjobs Hresume Hemb Hwf) as (results & HF2 & Hnan & _ & Hrun).
  eexists. eexists. split; [exact Hrun|]. split.
  - rewrite slice_to_nonneg by assumption.
    rewrite length_firstn, sorted_reverse_length.
    now rewrite (Forall2_length_eq _ _ _ HF2).
  - apply nonincreasing_slice_to, sorted_reverse_nonincreasing, Hnan.
Qed.

Lemma enumerate_ranks {A} (l : list A) start :
  map fst (enumerate l start) = seq start (length l).
Proof.
  unfold enumerate. revert start.
  induction l as [|x l IH]; intros start; simpl; [reflexivity|].
  now rewrite IH.
Qed.

Lemma enumerate_items {A} (l : list A) start :
  map snd (enumerate l start) = l.
Proof.
  unfold enumerate. revert start.
  induction l as [|x l IH]; intros start; simpl; [reflexivity|].
  now rewrite IH.
Qed.

Lemma csv_rows_ranks top :
  map c_rank (csv_rows fmt6 top) = seq 1 (length top)
  /\ map c_job_key (csv_rows fmt6 top) = map r_job_key top.
Proof.
  unfold csv_rows. rewrite !map_map. simpl. split.
  - apply enumerate_ranks.
  - rewrite <- (enumerate_items top 1) at 2. now rewrite map_map.
Qed.

(** Claim C3, on a well-formed jobs file. [rank_jobs] sorts the scored
    candidates into a permutation of them that is descending by similarity
    and in which, for every similarity value, the candidates with that
    value keep the order they have in the jobs file (the descending sort
    is stable); the output is the front of that sorted list, and row [i] of
    the CSV summary (counting from 1) has rank [i] and the key of the
    [i]-th result: ranks are 1, 2, ..., one per result, without gaps. *)
Theorem rank_jobs_stable_ranks fs jobs_file resume_file top_n lines o resume_vec :
  fs !! jobs_file = Some (JobsEmbeddings lines) ->
  fs !! resume_file = Some (ResumeFile o) ->
  re_embedding o = Some resume_vec ->
  Forall (well_formed (length resume_vec)) lines ->
  exists results all_sorted top rows fs',
    Forall2 (fun job r => Stage4.score sdot nrm2 (to_numpy resume_vec) job = Ok r)
            (candidates lines) results
    /\ results_sorted sdot nrm2 resume_vec (candidates lines) = Ok all_sorted
    /\ Permutation all_sorted results
    /\ nonincreasing r_similarity all_sorted
    /\ keeps_order r_similarity results all_sorted
    /\ rank_jobs sdot nrm2 fmt6 dict_slice_error jobs_file resume_file top_n fs = (Ok top, fs')
    /\ top = slice_to all_sorted top_n
    /\ (0 <= top_n -> top = firstn (Z.to_nat top_n) all_sorted)
    /\ fs' !! OUTPUT_CSV = Some (TopJobsCsv rows)
    /\ map c_rank rows = seq 1 (length top)
    /\ map c_job_key rows = map r_job_key top.
Proof.
  intros Hjobs Hresume Hemb Hwf.
  destruct (rank_jobs_ok fs jobs_file resume_file top_n lines o resume_vec
              Hjobs Hresume Hemb Hwf) as (results & HF2 & Hnan & Hsorted & Hrun).
  exists results, (sorted_reverse r_similarity results).
  eexists. eexists. eexists.
  split; [exact HF2|]. split; [exact Hsorted|].
  split; [apply sorted_reverse_perm|].
  split; [apply sorted_reverse_nonincreasing, Hnan|].
  split; [apply sorted_reverse_keeps_order|].
  split; [exact Hrun|]. split; [reflexivity|].
  split; [apply slice_to_nonneg|].
  split; [apply lookup_insert_eq|].
  apply csv_rows_ranks.
Qed.

End Ranker.

(** The sample jobs files are well formed for the dimension of the sample
    resume. *)
Ltac sample_line :=
  first
    [ exact I
    | split;
      [ eexists; split; reflexivity
      | let c := fresh "c" in
        let Hc := fresh "Hc" in
        intros c Hc; injection Hc as <-; repeat split ] ].

Ltac sample_lines := repeat (apply List.Forall_cons; [sample_line|]); apply List.Forall_nil.

Lemma sample_lines_well_formed : Forall (well_formed 2) Sample.lines.
Proof. unfold Sample.lines, Sample.candidate. sample_lines. Qed.

Lemma sample_ties_well_formed : Forall (well_formed 2) Sample.lines_with_ties.
Proof. unfold Sample.lines_with_ties, Sample.candidate. sample_lines. Qed.

Lemma rank_jobs_top_n_witness :
  Forall (well_formed 2) Sample.lines
  /\ exists top fs',
       Sample.rank 10 Sample.files = (Ok top, fs')
       /\ length top = 3%nat
       /\ nonincreasing r_similarity top.
Proof.
  split; [exact sample_lines_well_formed|].
  apply (rank_jobs_top_n Sample.seq_dot Sample.seq_norm Sample.fixed6 TypeError
           Sample.files DEFAULT_JOBS_FILE DEFAULT_RESUME_FILE 10
           Sample.lines Sample.resume_obj [one; zero]).
  - reflexivity.
  - reflexivity.
  - reflexivity.
  - exact sample_lines_well_formed.
  - lia.
Defined.

(** With [--top -1] and three candidates the ranker returns two results:
    the slice [results_sorted[:-1]] drops the last one, whereas the minimum
    of -1 and 3 is -1 (and 0 once it is read as a length). *)
Lemma rank_jobs_negative_top :
  exists top fs',
    Sample.rank (-1) Sample.files = (Ok top, fs')
    /\ length (candidates Sample.lines) = 3%nat
    /\ length top = 2%nat
    /\ Z.min (-1) 3 = -1
    /\ Nat.min (Z.to_nat (-1)) 3 = 0%nat.
Proof.
  eexists. eexists. split; [vm_compute; reflexivity|].
  repeat split.
Qed.

(** The jobs file B, A, C, E, D, in which A and D have similarity 1 and B
    and E similarity 0: the ranker puts A before D and B before E, as in
    the file. *)
Lemma rank_jobs_stable_ranks_witness :
  Forall (well_formed 2) Sample.lines_with_ties
  /\ (exists results all_sorted top rows fs',
        Forall2 (fun job r =>
                   Stage4.score Sample.seq_dot Sample.seq_norm (to_numpy [one; zero]) job
                   = Ok r)
                (candidates Sample.lines_with_ties) results
        /\ results_sorted Sample.seq_dot Sample.seq_norm [one; zero]
             (candidates Sample.lines_with_ties) = Ok all_sorted
        /\ Permutation all_sorted results
        /\ nonincreasing r_similarity all_sorted
        /\ keeps_order r_similarity results all_sorted
        /\ Sample.rank 5 Sample.files_with_ties = (Ok top, fs')
        /\ top = slice_to all_sorted 5
        /\ (0 <= 5 -> top = firstn (Z.to_nat 5) all_sorted)
        /\ fs' !! OUTPUT_CSV = Some (TopJobsCsv rows)
        /\ map c_rank rows = seq 1 (length top)
        /\ map c_job_key rows = map r_job_key top)
  /\ match fst (Sample.rank 5 Sample.files_with_ties) with
     | Ok top =>
         map r_job_key top
         = [JStr (lit "A"); JStr (lit "D"); JStr (lit "C");
            JStr (lit "B"); JStr (lit "E")]
         /\ map (fun r => Sample.fixed6 (r_similarity r)) top
            = ["1.000000"; "1.000000"; "0.993884"; "0.000000"; "0.000000"]%string
     | Raise _ => False
     end.
Proof.
  split; [exact sample_ties_well_formed|].
  split.
  - apply (rank_jobs_stable_ranks Sample.seq_dot Sample.seq_norm Sample.fixed6 TypeError
             Sample.files_with_ties DEFAULT_JOBS_FILE DEFAULT_RESUME_FILE 5
             Sample.lines_with_ties Sample.resume_obj [one; zero]).
    + reflexivity.
    + reflexivity.
    + reflexivity.
    + exact sample_ties_well_formed.
  - vm_compute. split; reflexivity.
Defined.

(** The scenario of three candidates [1,0], [0,1], [0.9,0.1] against the
    reference [1,0]: with [--top 2] the ranker returns A with similarity 1
    and then C, and the CSV rows carry the ranks 1 and 2. *)
Example rank_scenario_top2 :
  exists top fs',
    Sample.rank 2 Sample.files = (Ok top, fs')
    /\ map r_job_key top = [JStr (lit "A"); JStr (lit "C")]
    /\ map (fun r => Sample.fixed6 (r_similarity r)) top = ["1.000000"; "0.993884"]%string
    /\ match fs' !! OUTPUT_CSV with
       | Some (TopJobsCsv rows) => map c_rank rows = [1; 2]%nat
       | _ => False
       end.
Proof.
  eexists. eexists. split; [vm_compute; reflexivity|].
  repeat split.
Qed.

End Stage4Facts.
(** ** Stage 3: the embedding client *)

Module Stage3Facts.
Import Stage3.

(** *** Chunking *)

Lemma firstn_add_skipn {A} (l : list A) (a b : nat) :
  firstn (a + b) l = firstn a l ++ firstn b (skipn a l).
Proof.
  revert l. induction a as [|a IH]; intros l; [reflexivity|].
  destruct l as [|x l]; simpl.
  - now rewrite firstn_nil.
  - now rewrite IH.
Qed.

Lemma concat_slices {A} (l : list A) (n m : nat) :
  concat (map (fun i => slice l i (i + n)) (map (fun k => (k * n)%nat) (seq 0 m)))
  = firstn (m * n) l.
Proof.
  induction m as [|m IH]; [reflexivity|].
  rewrite seq_S, !map_app, concat_app, IH. simpl.
  rewrite app_nil_r. unfold slice.
  replace (m * n + n - m * n)%nat with n by lia.
  replace (n + m * n)%nat with (m * n + n)%nat by lia.
  now rewrite firstn_add_skipn.
Qed.

Lemma range_step_covers (stop n : nat) :
  (0 < n)%nat -> (stop <= (stop + n - 1) / n * n)%nat.
Proof.
  intros Hn.
  pose proof (Nat.div_mod (stop + n - 1) n ltac:(lia)) as Hdm.
  pose proof (Nat.mod_upper_bound (stop + n - 1) n ltac:(lia)) as Hlt.
  lia.
Qed.

(** The chunks of a list, concatenated, are the list. *)
Lemma chunked_concat {A} (l : list A) (n : nat) :
  (0 < n)%nat ->
  exists chunks, chunked l n = Ok chunks /\ concat chunks = l.
Proof.
  intros Hn. destruct n as [|n]; [lia|].
  eexists. split; [reflexivity|].
  unfold range_step. rewrite concat_slices.
  apply firstn_all2. now apply range_step_covers.
Qed.

Lemma chunked_sizes {A} (l : list A) (n : nat) chunks :
  chunked l n = Ok chunks ->
  Forall (fun c => (0 < length c <= n)%nat) chunks.
Proof.
  destruct n as [|n]; [discriminate|]. intros [= <-].
  unfold range_step. rewrite map_map. apply Forall_map, List.Forall_forall.
  intros k Hk. apply in_seq in Hk. unfold slice.
  rewrite length_firstn, length_skipn.
  assert (k * S n < length l)%nat; [|lia].
  pose proof (Nat.Div0.mul_div_le (length l + S n - 1) (S n)) as Hle.
  nia.
Qed.

(** *** The client *)

Section Client.
Variable post : nat -> string -> list str -> http_outcome.

Lemma attempts_retry n range inputs model backoff w :
  retried (post (calls w) model inputs) ->
  attempts post (n :: range) inputs model backoff w
  = attempts post range inputs model (Z.min (backoff * 2) MAX_BACKOFF)
      (time_sleep (Backoff backoff) (posted w)).
Proof.
  simpl. destruct (post (calls w) model inputs) as [status body|]; [|reflexivity].
  simpl. intros [Ht|[-> ->]]; [|reflexivity].
  destruct (status =? 200) eqn:E200.
  - apply Z.eqb_eq in E200. subst. discriminate.
  - now rewrite Ht.
Qed.

(** When every request is answered by a transient error, the loop runs
    through its whole range. *)
Lemma attempts_exhausted range inputs model backoff w :
  (forall k, retried (post k model inputs)) ->
  exists w',
    attempts post range inputs model backoff w = (Raise RuntimeError, w')
    /\ calls w' = (calls w + length range)%nat
    /\ length (slept w') = (length (slept w) + length range)%nat
    /\ fs w' = fs w.
Proof.
  intros Hall. revert backoff w.
  induction range as [|n range IH]; intros backoff w.
  - exists w. simpl. repeat split; lia.
  - rewrite attempts_retry by apply Hall.
    destruct (IH (Z.min (backoff * 2) MAX_BACKOFF)
                 (time_sleep (Backoff backoff) (posted w)))
      as (w' & -> & Hcalls & Hslept & Hfs).
    exists w'. simpl in *. repeat split; [lia|lia|assumption].
Qed.

(** The client never touches the files and never forgets a request. *)
Lemma attempts_frame range inputs model backoff w :
  fs (snd (attempts post range inputs model backoff w)) = fs w
  /\ (calls w <= calls (snd (attempts post range inputs model backoff w)))%nat.
Proof.
  revert backoff w. induction range as [|n range IH]; intros backoff w.
  - simpl. split; [reflexivity|lia].
  - simpl.
    specialize (IH (Z.min (backoff * 2) MAX_BACKOFF)
                   (time_sleep (Backoff backoff) (posted w))).
    simpl in IH.
    destruct (post (calls w) model inputs) as [status body|].
    + destruct (status =? 200).
      * destruct body; simpl; try (split; (reflexivity || lia)).
        destruct IH as [-> ?]. split; [reflexivity|lia].
      * destruct (transient status); simpl; [|split; (reflexivity || lia)].
        destruct IH as [-> ?]. split; [reflexivity|lia].
    + destruct IH as [-> ?]. split; [reflexivity|lia].
Qed.

Lemma call_openai_embeddings_fs inputs model w :
  fs (snd (call_openai_embeddings post inputs model w)) = fs w.
Proof. apply attempts_frame. Qed.

Lemma call_openai_embeddings_ok inputs model w vs :
  post (calls w) model inputs = Response 200 (Data vs) ->
  call_openai_embeddings post inputs model w = (Ok vs, posted w).
Proof.
  intros H. unfold call_openai_embeddings. simpl. now rewrite H.
Qed.

(** *** Batching *)

Lemma skipn_nth_error {A} (l : list A) (i : nat) (x : A) :
  nth_error l i = Some x -> skipn i l = x :: skipn (S i) l.
Proof.
  revert l. induction i as [|i IH]; intros [|y l]; simpl; try discriminate.
  - now intros [= ->].
  - apply IH.
Qed.

Lemma combine_app_r {A B} (l : list A) (v1 v2 : list B) :
  combine l (v1 ++ v2) = combine l v1 ++ combine (skipn (length v1) l) v2.
Proof.
  revert l. induction v1 as [|v v1 IH]; intros l; simpl.
  - now destruct l.
  - destruct l as [|x l]; simpl; [reflexivity|]. now rewrite IH.
Qed.

(** The loop over the embeddings of one batch pairs them with the
    metadata from position [idx] on. *)
Lemma emit_ok vs metas a :
  (idx a + length vs <= length metas)%nat ->
  emit vs metas a
  = Ok {| idx := idx a + length vs;
          out_lines :=
            out_lines a
            ++ map (fun me => {| eo_job_key := dict_get (fst me) "job_key";
                                 eo_meta := Some (fst me);
                                 eo_embedding := Some (snd me) |})
                   (combine (skipn (idx a) metas) vs);
          all_embeddings := all_embeddings a ++ vs |}.
Proof.
  revert a. induction vs as [|e vs IH]; intros a Hlen; simpl in *.
  - rewrite Nat.add_0_r, combine_nil. simpl. rewrite !app_nil_r. now destruct a.
  - destruct (nth_error metas (idx a)) as [meta|] eqn:Hnth.
    2:{ apply nth_error_None in Hnth. lia. }
    rewrite IH by (simpl; lia). simpl.
    rewrite (skipn_nth_error _ _ _ Hnth). simpl.
    rewrite <- !app_assoc. simpl.
    f_equal. f_equal. lia.
Qed.

Section Service.
(** What the service is assumed to do: [E text v] says that [v] is a
    vector the service may give for [text]. Every request is answered
    with one such vector per text, in the order of the texts. *)
Variable E : str -> list spec_float -> Prop.
Hypothesis service :
  forall k inputs, exists vs,
    post k MODEL inputs = Response 200 (Data vs) /\ Forall2 E inputs vs.

Lemma embed_batches_ok chunks metas a w :
  (idx a + length (concat chunks) <= length metas)%nat ->
  exists vs w',
    embed_batches post chunks metas a w
    = (Ok {| idx := idx a + length vs;
             out_lines :=
               out_lines a
               ++ map (fun me => {| eo_job_key := dict_get (fst me) "job_key";
                                    eo_meta := Some (fst me);
                                    eo_embedding := Some (snd me) |})
                      (combine (skipn (idx a) metas) vs);
             all_embeddings := all_embeddings a ++ vs |}, w')
    /\ Forall2 E (concat chunks) vs
    /\ calls w' = (calls w + length chunks)%nat
    /\ fs w' = fs w.
Proof.
  revert a w. induction chunks as [|chunk chunks IH]; intros a w Hlen.
  - exists [], w. simpl. rewrite Nat.add_0_r, combine_nil. simpl. rewrite !app_nil_r.
    split; [now destruct a|]. split; [constructor|]. split; [simpl; lia|reflexivity].
  - simpl in Hlen. rewrite length_app in Hlen.
    destruct (service (calls w) chunk) as (vs1 & Hpost & HE1).
    pose proof (Forall2_length _ _ _ HE1) as Hlen1.
    simpl. rewrite (call_openai_embeddings_ok _ _ _ _ Hpost).
    rewrite emit_ok by lia.
    match goal with |- context [embed_batches post chunks metas ?a1 ?w1] =>
      destruct (IH a1 w1) as (vs2 & w' & -> & HE2 & Hcalls & Hfs)
    end.
    { simpl. lia. }
    exists (vs1 ++ vs2), w'. simpl in *.
    repeat split; [|now apply Forall2_app|lia|assumption].
    do 3 f_equal.
    + rewrite length_app. lia.
    + rewrite <- app_assoc. f_equal.
      rewrite combine_app_r, map_app, skipn_skipn.
      now rewrite (Nat.add_comm (length vs1)).
    + now rewrite app_assoc.
Qed.

Lemma combine_map_l {A B C} (h : A -> B) (l : list A) (v : list C) :
  combine (map h l) v = map (fun p => (h (fst p), snd p)) (combine l v).
Proof.
  revert v. induction l as [|x l IH]; intros [|y v]; simpl; try reflexivity.
  now rewrite IH.
Qed.

Lemma job_meta_key r : dict_get (job_meta r) "job_key" = of_pystr (job_key r).
Proof. unfold dict_get, job_meta. now rewrite lookup_insert_eq. Qed.

(** Claim C4. For every list of cleaned jobs and every positive batch
    size, when each request is answered with one vector per submitted text
    in the order of submission, the batching loop ends normally with
    exactly one vector per job: the batches, concatenated, are the input
    texts; the vector at position [i] is one the service gives for the text
    of job [i]; and output line [i] carries the key and metadata of job [i]
    with that vector. One request is sent per batch. *)
Theorem embed_jobs_round_trip batch_size jobs w :
  (0 < batch_size)%nat ->
  exists chunks a w',
    chunked (map job_input jobs) batch_size = Ok chunks
    /\ concat chunks = map job_input jobs
    /\ embed_jobs post batch_size jobs w = (Ok a, w')
    /\ length (all_embeddings a) = length jobs
    /\ Forall2 E (map job_input jobs) (all_embeddings a)
    /\ out_lines a
       = map (fun re => {| eo_job_key := of_pystr (job_key (fst re));
                           eo_meta := Some (job_meta (fst re));
                           eo_embedding := Some (snd re) |})
             (combine jobs (all_embeddings a))
    /\ calls w' = (calls w + length chunks)%nat.
Proof.
  intros Hn.
  destruct (chunked_concat (map job_input jobs) batch_size Hn) as (chunks & Hch & Hcat).
  destruct (embed_batches_ok chunks (map job_meta jobs)
              {| idx := 0; out_lines := []; all_embeddings := [] |} w)
    as (vs & w' & Hrun & HE & Hcalls & _).
  { simpl. rewrite Hcat, !length_map. lia. }
  rewrite Hcat in HE.
  exists chunks. eexists. exists w'.
  split; [exact Hch|]. split; [exact Hcat|].
  split; [unfold embed_jobs; rewrite Hch; exact Hrun|].
  simpl. split; [|split; [exact HE|split; [|exact Hcalls]]].
  - apply Forall2_length in HE. rewrite length_map in HE. congruence.
  - rewrite drop_0, combine_map_l, map_map. apply map_ext.
    intros [r e]. simpl. now rewrite job_meta_key.
Qed.

End Service.

(** *** What a run leaves on disk *)

Lemma embed_batches_fs chunks metas a w :
  fs (snd (embed_batches post chunks metas a w)) = fs w.
Proof.
  revert a w. induction chunks as [|chunk chunks IH]; intros a w; [reflexivity|].
  simpl. pose proof (call_openai_embeddings_fs chunk MODEL w) as Hfs.
  destruct (call_openai_embeddings post chunk MODEL w) as [[embeddings|e] w1];
    simpl in *; [|assumption].
  destruct (emit embeddings metas a) as [a1|e]; simpl; [|assumption].
  now rewrite IH.
Qed.

Lemma embed_jobs_fs batch_size jobs w :
  fs (snd (embed_jobs post batch_size jobs w)) = fs w.
Proof.
  unfold embed_jobs.
  destruct (chunked (map job_input jobs) batch_size); [|reflexivity].
  apply embed_batches_fs.
Qed.


Lemma embed_resume_empty w text :
  fs w !! PROCESSED_RESUME = Some (Text text) ->
  py_strip text = [] ->
  embed_resume post w = (Ok tt, w).
Proof.
  intros Hfile Hempty. unfold embed_resume, read_resume_text.
  now rewrite Hfile, Hempty.
Qed.


(** Claim C5. When the service answers every request for a batch with a
    transient error (status 429, 502, 503 or 504, or an exception of the
    request), [call_openai_embeddings] sends exactly [MAX_RETRIES] requests,
    backs off after each of them, and then raises [RuntimeError]; it writes
    no file. *)
Theorem call_openai_embeddings_retry_bound inputs model w :
  (forall k, retried (post k model inputs)) ->
  exists w',
    call_openai_embeddings post inputs model w = (Raise RuntimeError, w')
    /\ calls w' = (calls w + MAX_RETRIES)%nat
    /\ length (slept w') = (length (slept w) + MAX_RETRIES)%nat
    /\ fs w' = fs w.
Proof.
  intros Hall.
  destruct (attempts_exhausted (seq 1 MAX_RETRIES) inputs model INITIAL_BACKOFF w Hall)
    as (w' & Hrun & Hcalls & Hslept & Hfs).
  rewrite length_seq in Hcalls, Hslept.
  exists w'. repeat split; assumption.
Qed.

(** Claim C10, with what the next run does spelt out. When the jobs are
    embedded and stored and the processed resume exists but is empty once
    stripped, the Stage 3 script ends normally, so with exit status 0: it
    has written the job-embeddings file, has sent no request for the resume
    and has not written resume_embedding.json. If that file was absent
    before the run, the orchestrator's check that skips Stage 3 is false on
    the files the run leaves, and an orchestrator that finds them, has the
    key and was not told to skip Stage 3 launches the Stage 3 script again.
    If the file was there before the run, left by an earlier one, it still
    is, and the check that skips Stage 3 is true. *)
Theorem empty_resume_run env w jobs a w1 arr text :
  truthy (env !! "OPENAI_API_KEY"%string) = true ->
  load_jobs w = Ok jobs ->
  embed_jobs post BATCH_SIZE jobs w = (Ok a, w1) ->
  np_array (all_embeddings a) = Ok arr ->
  fs w !! PROCESSED_RESUME = Some (Text text) ->
  py_strip text = [] ->
  exists w',
    script post env w = (Ok tt, w')
    /\ exit_status (fst (script post env w)) = 0
    /\ fs w' !! OUT_JSONL = Some (JobsEmbeddings (map ObjLine (out_lines a)))
    /\ calls w' = calls w1
    /\ fs w' !! OUT_RESUME = fs w !! OUT_RESUME
    /\ (fs w !! OUT_RESUME = None ->
        Orchestrator.stage3_outputs_exist (fs w') = false
        /\ forall subprocess_run args stop_on_error (ow : Orchestrator.world file),
             Orchestrator.fs ow = fs w' ->
             Orchestrator.skip_stage3 args = false ->
             truthy (Orchestrator.getenv ow "OPENAI_API_KEY") = true ->
             Orchestrator.stage3 subprocess_run args stop_on_error ow
             = (let '(rc, ow1) :=
                  Orchestrator.run_script subprocess_run
                    Orchestrator.STAGE3_SCRIPT [] None ow in
                Orchestrator.failed 3 rc stop_on_error ow1))
    /\ (forall f, fs w !! OUT_RESUME = Some f ->
                  fs w' !! OUT_RESUME = Some f
                  /\ Orchestrator.stage3_outputs_exist (fs w') = true).
Proof.
  intros Hkey Hjobs Hembed Harr Hfile Hempty.
  pose proof (embed_jobs_fs BATCH_SIZE jobs w) as Hfs.
  rewrite Hembed in Hfs. simpl in Hfs.
  assert (Hrun : script post env w
                 = (Ok tt, write_file OUT_NPY (Npy arr)
                             (write_file OUT_JSONL
                                (JobsEmbeddings (map ObjLine (out_lines a))) w1))).
  { unfold script, main, main_with. rewrite Hkey, Hjobs, Hembed, Harr.
    apply (embed_resume_empty _ text); [|assumption].
    simpl. rewrite !lookup_insert_ne by discriminate. now rewrite Hfs. }
  eexists. split; [exact Hrun|]. rewrite Hrun. simpl.
  split; [reflexivity|].
  split; [rewrite lookup_insert_ne by discriminate; apply lookup_insert_eq|].
  split; [reflexivity|].
  assert (Hresume : (<[OUT_NPY := Npy arr]>
                       (<[OUT_JSONL := JobsEmbeddings (map ObjLine (out_lines a))]>
                          (fs w1)) : gmap string file) !! OUT_RESUME
                    = fs w !! OUT_RESUME).
  { rewrite !lookup_insert_ne by discriminate. now rewrite Hfs. }
  split; [exact Hresume|].
  split.
  - intros Habsent.
    assert (Hcheck : Orchestrator.stage3_outputs_exist
                       (<[OUT_NPY := Npy arr]>
                          (<[OUT_JSONL := JobsEmbeddings (map ObjLine (out_lines a))]>
                             (fs w1)) : gmap string file) = false).
    { unfold Orchestrator.stage3_outputs_exist, path_exists.
      change Orchestrator.STAGE3_RESUME_EMBED with OUT_RESUME.
      rewrite Hresume, Habsent. apply andb_false_r. }
    split; [exact Hcheck|].
    intros subprocess_run args stop_on_error ow Hofs Hskip Hokey.
    unfold Orchestrator.stage3. rewrite Hskip, Hofs, Hcheck, Hokey. reflexivity.
  - intros f Hstale. rewrite Hresume. split; [exact Hstale|].
    unfold Orchestrator.stage3_outputs_exist, path_exists.
    change Orchestrator.STAGE3_RESUME_EMBED with OUT_RESUME.
    change Orchestrator.STAGE3_JOBS_EMBED with OUT_JSONL.
    rewrite Hresume, Hstale.
    rewrite lookup_insert_ne by discriminate. now rewrite lookup_insert_eq.
Qed.

End Client.

Lemma embed_jobs_round_trip_witness :
  (0 < 2)%nat
  /\ (forall k inputs, exists vs,
        Sample.service_ok k MODEL inputs = Response 200 (Data vs)
        /\ Forall2 (fun text v => v = Sample.text_vector text) inputs vs)
  /\ exists chunks a w',
       chunked (map job_input Sample.jobs) 2 = Ok chunks
       /\ concat chunks = map job_input Sample.jobs
       /\ embed_jobs Sample.service_ok 2 Sample.jobs (Sample.world3 "resume")
          = (Ok a, w')
       /\ length (all_embeddings a) = length Sample.jobs
       /\ Forall2 (fun text v => v = Sample.text_vector text)
                  (map job_input Sample.jobs) (all_embeddings a)
       /\ out_lines a
          = map (fun re => {| eo_job_key := of_pystr (job_key (fst re));
                              eo_meta := Some (job_meta (fst re));
                              eo_embedding := Some (snd re) |})
                (combine Sample.jobs (all_embeddings a))
       /\ calls w' = (calls (Sample.world3 "resume") + length chunks)%nat.
Proof.
  assert (Hservice : forall k inputs, exists vs,
            Sample.service_ok k MODEL inputs = Response 200 (Data vs)
            /\ Forall2 (fun text v => v = Sample.text_vector text) inputs vs).
  { intros k inputs. eexists. split; [reflexivity|].
    induction inputs; constructor; auto. }
  split; [lia|]. split; [exact Hservice|].
  apply (embed_jobs_round_trip Sample.service_ok
           (fun text v => v = Sample.text_vector text) Hservice
           2 Sample.jobs (Sample.world3 "resume")).
  lia.
Defined.

Lemma call_openai_embeddings_retry_bound_witness :
  (forall k, retried (Sample.service_busy k MODEL [lit "text"]))
  /\ exists w',
       call_openai_embeddings Sample.service_busy [lit "text"] MODEL
         (Sample.world3 "resume") = (Raise RuntimeError, w')
       /\ calls w' = 5%nat
       /\ length (slept w') = 5%nat
       /\ fs w' = fs (Sample.world3 "resume").
Proof.
  split; [intros k; left; reflexivity|].
  apply (call_openai_embeddings_retry_bound Sample.service_busy
           [lit "text"] MODEL (Sample.world3 "resume")).
  intros k. left. reflexivity.
Defined.

(** The backoffs of an exhausted call: 1, 2, 4, 8 and 16 seconds, the last
    one after the last request. *)
Example retry_backoffs :
  slept (snd (call_openai_embeddings Sample.service_busy [lit "text"] MODEL
                (Sample.world3 "resume")))
  = [Backoff 16; Backoff 8; Backoff 4; Backoff 2; Backoff 1].
Proof. reflexivity. Qed.


Lemma empty_resume_run_witness :
  exists w',
    script Sample.service_ok Sample.env_openai_only
      (Sample.world3 "  ") = (Ok tt, w')
    /\ exit_status
         (fst (script Sample.service_ok Sample.env_openai_only
                 (Sample.world3 "  "))) = 0
    /\ path_exists (fs w') OUT_JSONL = true
    /\ calls w' = 1%nat
    /\ fs w' !! OUT_RESUME = None
    /\ Orchestrator.stage3_outputs_exist (fs w') = false.
Proof.
  edestruct (empty_resume_run Sample.service_ok
               Sample.env_openai_only (Sample.world3 "  ")
               Sample.jobs)
    as (w' & Hrun & Hexit & Hjsonl & Hcalls & Hresume & Hnext & _);
    [reflexivity|reflexivity|vm_compute; reflexivity|vm_compute; reflexivity
    |reflexivity|reflexivity|].
  exists w'. split; [exact Hrun|]. split; [exact Hexit|].
  split; [unfold path_exists; now rewrite Hjsonl|].
  split; [exact Hcalls|].
  split; [rewrite Hresume; reflexivity|].
  now destruct Hnext as [Hcheck _].
Defined.

(** An empty resume with a resume embedding left by an earlier run: the
    script ends normally and leaves that file in place, so the check that
    skips Stage 3 is true, and the next orchestrator run, which has both
    keys, launches Stage 1 and Stage 4 but not Stage 3. *)
Lemma empty_resume_stale_output :
  fst (script Sample.service_ok Sample.env_openai_only (Sample.world3_stale "  "))
  = Ok tt
  /\ fs (snd (script Sample.service_ok Sample.env_openai_only
                (Sample.world3_stale "  "))) !! OUT_RESUME
     = Some (ResumeFile Sample.resume_obj)
  /\ Orchestrator.stage3_outputs_exist
       (fs (snd (script Sample.service_ok Sample.env_openai_only
                   (Sample.world3_stale "  ")))) = true
  /\ Orchestrator.ran
       (snd (Orchestrator.orchestrate Sample.scripts Sample.args0
               {| Orchestrator.fs :=
                    fs (snd (script Sample.service_ok Sample.env_openai_only
                               (Sample.world3_stale "  ")));
                  Orchestrator.env := Sample.env_both;
                  Orchestrator.ran := [];
                  Orchestrator.printed := [] |}))
     = [[Orchestrator.STAGE4_SCRIPT]; [Orchestrator.STAGE1_SCRIPT]].
Proof. vm_compute. repeat split. Qed.

(** A resume of Unicode spaces only is empty once stripped: the run ends
    normally after the one request for the jobs and writes no resume
    embedding. *)
Example unicode_blank_resume :
  py_strip Sample.unicode_blanks = []
  /\ fst (script Sample.service_ok Sample.env_openai_only Sample.world3_unicode_blanks)
     = Ok tt
  /\ calls (snd (script Sample.service_ok Sample.env_openai_only
                   Sample.world3_unicode_blanks)) = 1%nat
  /\ fs (snd (script Sample.service_ok Sample.env_openai_only
                Sample.world3_unicode_blanks)) !! OUT_RESUME = None.
Proof. vm_compute. repeat split. Qed.

End Stage3Facts.
(** ** Stage 1: acquisition *)

Module Stage1Facts.
Import Stage1.

Section Acquisition.
Variable soup_text : str -> str.
Variable py_str : json -> str.

(** A flattened record keeps the record it comes from. *)
Lemma flatten_job_raw job f :
  flatten_job soup_text py_str job = Ok f -> f_raw f = JDict job.
Proof.
  unfold flatten_job.
  destruct (jor (jget job "location") (JDict [])) as [| | | | |l];
    (destruct (if jtruthy (jget job "descriptionHtml") then _ else _) as [desc|e];
     [|discriminate]);
    simpl;
    (destruct (attr_get (jor (jget job "salary") (JDict [])) "salaryText"); [|discriminate]);
    (destruct (attr_get (jor (jget job "salary") (JDict [])) "text"); [|discriminate]);
    (destruct (attr_get (jor (jget job "salary") (JDict [])) "salaryMin"); [|discriminate]);
    (destruct (attr_get (jor (jget job "salary") (JDict [])) "salary_min"); [|discriminate]);
    (destruct (attr_get (jor (jget job "salary") (JDict [])) "salaryMax"); [|discriminate]);
    (destruct (attr_get (jor (jget job "salary") (JDict [])) "salary_max"); [|discriminate]);
    simpl; now intros [= <-].
Qed.

(** A record whose salary is present and is not an object cannot be
    flattened. *)
Lemma flatten_job_salary job :
  jtruthy (jget job "descriptionHtml") = false ->
  jtruthy (jget job "salary") = true ->
  is_dict (jget job "salary") = false ->
  flatten_job soup_text py_str job = Raise AttributeError.
Proof.
  intros Hhtml Htruthy Hdict.
  assert (Hsalary : jor (jget job "salary") (JDict []) = jget job "salary")
    by (unfold jor; now rewrite Htruthy).
  assert (Hget : forall k, attr_get (jget job "salary") k = Raise AttributeError)
    by (intros k; destruct (jget job "salary"); try reflexivity; discriminate).
  unfold flatten_job. rewrite Hhtml, Hsalary, !Hget.
  now destruct (jor (jget job "location") (JDict [])).
Qed.

(** The comprehension flattens the records that are objects, in order,
    and passes over the others. *)
Lemma flatten_all_filter jobs flattened :
  flatten_all soup_text py_str jobs = Ok flattened ->
  map f_raw flattened = List.filter is_dict jobs.
Proof.
  revert flattened. induction jobs as [|j jobs IH]; intros flattened; simpl.
  - now intros [= <-].
  - destruct j as [| | | | |d]; simpl; try apply IH.
    destruct (flatten_job soup_text py_str d) as [f|e] eqn:Hf; [|discriminate].
    simpl. destruct (flatten_all soup_text py_str jobs) as [fl|e]; [|discriminate].
    simpl. intros [= <-]. simpl.
    now rewrite (flatten_job_raw _ _ Hf), (IH fl).
Qed.

(** One record that cannot be flattened makes the whole comprehension
    raise. *)
Lemma flatten_all_raise jobs d e :
  In (JDict d) jobs ->
  flatten_job soup_text py_str d = Raise e ->
  exists e', flatten_all soup_text py_str jobs = Raise e'.
Proof.
  intros Hin Hd. induction jobs as [|j jobs IH]; [contradiction|].
  destruct Hin as [->|Hin].
  - simpl. rewrite Hd. now exists e.
  - specialize (IH Hin). destruct IH as [e' IH].
    destruct j; simpl; try (now exists e').
    destruct (flatten_job soup_text py_str d0); simpl; [|eauto].
    rewrite IH. eauto.
Qed.

(** *** Runs of [main] *)

Lemma save_raw_outputs obj w p :
  p <> RAW_JSON -> fs (save_raw obj w) !! p = fs w !! p.
Proof. intros Hp. simpl. now rewrite lookup_insert_ne by congruence. Qed.

(** A run that flattens the whole job list. *)
Lemma main_done text result jobs flattened w :
  find_jobs result = Some jobs ->
  jobs <> [] ->
  flatten_all soup_text py_str jobs = Ok flattened ->
  main soup_text py_str (Reply true text (Some result)) w
  = (Ok tt, logging (Done (length flattened))
              (write_outputs flattened (save_raw result w))).
Proof.
  intros Hfind Hne Hflat. unfold main. rewrite Hfind.
  destruct jobs as [|j jobs]; [contradiction|]. now rewrite Hflat.
Qed.

(** A run in which a record cannot be flattened: the exception escapes
    after the raw response is saved. *)
Lemma main_abort text result jobs e w :
  find_jobs result = Some jobs ->
  flatten_all soup_text py_str jobs = Raise e ->
  main soup_text py_str (Reply true text (Some result)) w
  = (Raise e, save_raw result w).
Proof.
  intros Hfind Hflat. unfold main. rewrite Hfind.
  destruct jobs as [|j jobs]; [discriminate|]. now rewrite Hflat.
Qed.


(** A request that fails, or that the provider rejects, ends the run
    normally. *)
Lemma main_request_failed reply w :
  (reply = PostFailed \/ exists text body, reply = Reply false text body) ->
  fst (main soup_text py_str reply w) = Ok tt.
Proof.
  intros [->|(text & body & ->)]; [reflexivity|]. simpl. now destruct body.
Qed.

End Acquisition.
End Stage1Facts.

(** ** The orchestrator *)

Module OrchestratorFacts.
Import Orchestrator.

Section Run.
Context {F : Type}.
Variable subprocess_run :
  list string -> option Z -> gmap string str -> gmap string F -> proc * gmap string F.


Lemma failed_returns n rc stop_on_error (w : world F) :
  returns (failed n rc stop_on_error w) stop_on_error.
Proof.
  unfold failed. destruct (negb (rc =? 0) && stop_on_error) eqn:E; simpl; [|exact I].
  apply andb_true_iff in E. destruct E as [Hrc ->].
  apply negb_true_iff, Z.eqb_neq in Hrc.
  repeat split; [assumption|]. eexists. split; [reflexivity|discriminate].
Qed.

Lemma launch_returns script sargs n stop_on_error (w : world F) :
  returns (let '(rc, w1) := run_script subprocess_run script sargs None w in
           failed n rc stop_on_error w1) stop_on_error.
Proof. destruct (run_script subprocess_run script sargs None w). apply failed_returns. Qed.

Lemma stage1_returns args stop_on_error runs w :
  returns (stage1 subprocess_run args stop_on_error runs w) stop_on_error.
Proof.
  unfold stage1.
  repeat match goal with |- context [if ?c then _ else _] =>
    lazymatch c with
    | truthy _ => fail
    | _ => destruct c; [exact I|]
    end end.
  apply launch_returns.
Qed.

Lemma stage2_returns args stop_on_error w :
  returns (stage2 subprocess_run args stop_on_error w) stop_on_error.
Proof.
  unfold stage2.
  destruct (skip_stage2 args); [exact I|].
  destruct (SKIP_IF_OUTPUT_EXISTS && _); [exact I|].
  apply launch_returns.
Qed.

Lemma stage3_returns args stop_on_error w :
  returns (stage3 subprocess_run args stop_on_error w) stop_on_error.
Proof.
  unfold stage3.
  destruct (skip_stage3 args); [exact I|].
  destruct (stage3_outputs_exist (fs w)); [exact I|].
  destruct (negb (truthy (getenv w "OPENAI_API_KEY"))); [|apply launch_returns].
  destruct stop_on_error; simpl; [|exact I].
  repeat split; [discriminate|]. eexists. split; [reflexivity|discriminate].
Qed.

Lemma stage4_returns args stop_on_error w :
  returns (stage4 subprocess_run args stop_on_error w) stop_on_error.
Proof.
  unfold stage4.
  destruct (skip_stage4 args); [exact I|].
  destruct (SKIP_IF_OUTPUT_EXISTS && _); [exact I|].
  apply launch_returns.
Qed.

(** The orchestrator returns 0 exactly when it reaches its end. *)
Lemma orchestrate_zero args w :
  (fst (orchestrate subprocess_run args w) = 0
   <-> head (printed (snd (orchestrate subprocess_run args w))) = Some PipelineCompleted)
  /\ (continue_on_error args = true -> fst (orchestrate subprocess_run args w) = 0).
Proof.
  unfold orchestrate.
  pose proof (stage1_returns args (negb (continue_on_error args)) 0%nat w) as H1.
  destruct (stage1 subprocess_run args (negb (continue_on_error args)) 0%nat w) as [[rc1|] w1].
  { destruct H1 as (Hrc & Hstop & n & Hn & Hne). simpl. rewrite Hn.
    split; [split; [contradiction|congruence]|].
    intros Hc. rewrite Hc in Hstop. discriminate. }
  pose proof (stage2_returns args (negb (continue_on_error args)) w1) as H2.
  destruct (stage2 subprocess_run args (negb (continue_on_error args)) w1) as [[rc2|] w2].
  { destruct H2 as (Hrc & Hstop & n & Hn & Hne). simpl. rewrite Hn.
    split; [split; [contradiction|congruence]|].
    intros Hc. rewrite Hc in Hstop. discriminate. }
  pose proof (stage3_returns args (negb (continue_on_error args)) w2) as H3.
  destruct (stage3 subprocess_run args (negb (continue_on_error args)) w2) as [[rc3|] w3].
  { destruct H3 as (Hrc & Hstop & n & Hn & Hne). simpl. rewrite Hn.
    split; [split; [contradiction|congruence]|].
    intros Hc. rewrite Hc in Hstop. discriminate. }
  pose proof (stage4_returns args (negb (continue_on_error args)) w3) as H4.
  destruct (stage4 subprocess_run args (negb (continue_on_error args)) w3) as [[rc4|] w4].
  { destruct H4 as (Hrc & Hstop & n & Hn & Hne). simpl. rewrite Hn.
    split; [split; [contradiction|congruence]|].
    intros Hc. rewrite Hc in Hstop. discriminate. }
  simpl. now split.
Qed.

(** *** What is launched *)

Lemma run_script_ran script sargs timeout (w : world F) :
  ran (snd (run_script subprocess_run script sargs timeout w)) = (script :: sargs) :: ran w
  /\ printed (snd (run_script subprocess_run script sargs timeout w)) = printed w
  /\ env (snd (run_script subprocess_run script sargs timeout w)) = env w.
Proof.
  unfold run_script.
  destruct (subprocess_run (script :: sargs) timeout (env w) (fs w)) as [[rc| |] fs'];
    repeat split.
Qed.

Lemma failed_ran n rc stop_on_error (w : world F) :
  ran (snd (failed n rc stop_on_error w)) = ran w.
Proof. unfold failed. now destruct (negb (rc =? 0) && stop_on_error). Qed.

Lemma launch_ran script sargs n stop_on_error (w : world F) :
  ran (snd (let '(rc, w1) := run_script subprocess_run script sargs None w in
            failed n rc stop_on_error w1))
  = (script :: sargs) :: ran w.
Proof.
  pose proof (run_script_ran script sargs None w) as (Hran & _).
  destruct (run_script subprocess_run script sargs None w) as [rc w1].
  now rewrite failed_ran.
Qed.

(** Without the embedding key the Stage 3 block launches nothing: it
    prints a warning and, when errors stop the pipeline, returns 1. *)
Lemma stage3_no_key args stop_on_error w :
  skip_stage3 args = false ->
  stage3_outputs_exist (fs w) = false ->
  truthy (getenv w "OPENAI_API_KEY") = false ->
  stage3 subprocess_run args stop_on_error w
  = (if stop_on_error then Some 1 else None, print (KeyWarning "OPENAI_API_KEY") w).
Proof.
  intros Hskip Hout Hkey. unfold stage3. rewrite Hskip, Hout, Hkey. simpl.
  now destruct stop_on_error.
Qed.

(** Without the listing key the Stage 1 block prints a warning and
    launches the script all the same. *)
Lemma stage1_no_key args stop_on_error w :
  skip_stage1 args = false ->
  path_exists (fs w) STAGE1_OUT && negb (force_stage1 args) = false ->
  truthy (getenv w "RAPIDAPI_KEY") = false ->
  stage1 subprocess_run args stop_on_error 0 w
  = (let '(rc, w1) :=
       run_script subprocess_run STAGE1_SCRIPT [] None
         (print (KeyWarning "RAPIDAPI_KEY") w) in
     failed 1 rc stop_on_error w1).
Proof.
  intros Hskip Hout Hkey. unfold stage1. rewrite Hskip, Hkey. simpl.
  now rewrite Hout.
Qed.

(** When errors do not stop the pipeline no block returns. *)
Lemma continue_falls_through (r : option Z * world F) :
  returns r false -> fst r = None.
Proof. destruct r as [[rc|] w]; [|reflexivity]. now intros (_ & H & _). Qed.

(** *** The code a stopping block returns *)

Lemma failed_stops n rc (w : world F) :
  rc <> 0 -> failed n rc true w = (Some rc, print (StageFailed n) w).
Proof. intros Hrc. unfold failed. apply Z.eqb_neq in Hrc. now rewrite Hrc. Qed.

Lemma launch_stops script sargs n (w : world F) :
  fst (run_script subprocess_run script sargs None w) <> 0 ->
  fst (let '(rc, w1) := run_script subprocess_run script sargs None w in
       failed n rc true w1)
  = Some (fst (run_script subprocess_run script sargs None w)).
Proof.
  destruct (run_script subprocess_run script sargs None w) as [rc w1]. simpl.
  intros Hrc. now rewrite failed_stops.
Qed.

(** The world in which the Stage 1 script is launched: a warning is
    printed first when the listing key is missing. *)
Lemma stage1_launch args stop_on_error w :
  skip_stage1 args = false ->
  path_exists (fs w) STAGE1_OUT && negb (force_stage1 args) = false ->
  stage1 subprocess_run args stop_on_error 0 w
  = (let '(rc, w1) :=
       run_script subprocess_run STAGE1_SCRIPT [] None
         (if truthy (getenv w "RAPIDAPI_KEY") then w
          else print (KeyWarning "RAPIDAPI_KEY") w) in
     failed 1 rc stop_on_error w1).
Proof.
  intros Hskip Hout. unfold stage1. rewrite Hskip. simpl. now rewrite Hout.
Qed.

Lemma stage2_launch args stop_on_error w :
  skip_stage2 args = false ->
  path_exists (fs w) STAGE2_OUT_JSON = false ->
  stage2 subprocess_run args stop_on_error w
  = (let '(rc, w1) :=
       run_script subprocess_run STAGE2_SCRIPT
         (if path_exists (fs w) (resume_path args) then [resume_path args] else [])
         None w in
     failed 2 rc stop_on_error w1).
Proof.
  intros Hskip Hout. unfold stage2. rewrite Hskip. simpl. now rewrite Hout.
Qed.

Lemma stage3_launch args stop_on_error w :
  skip_stage3 args = false ->
  stage3_outputs_exist (fs w) = false ->
  truthy (getenv w "OPENAI_API_KEY") = true ->
  stage3 subprocess_run args stop_on_error w
  = (let '(rc, w1) := run_script subprocess_run STAGE3_SCRIPT [] None w in
     failed 3 rc stop_on_error w1).
Proof.
  intros Hskip Hout Hkey. unfold stage3. now rewrite Hskip, Hout, Hkey.
Qed.

Lemma stage4_launch args stop_on_error w :
  skip_stage4 args = false ->
  path_exists (fs w) STAGE4_TOP = false ->
  stage4 subprocess_run args stop_on_error w
  = (let '(rc, w1) := run_script subprocess_run STAGE4_SCRIPT [] None w in
     failed 4 rc stop_on_error w1).
Proof.
  intros Hskip Hout. unfold stage4. rewrite Hskip. simpl. now rewrite Hout.
Qed.

(** [orchestrate] returns the code of the first block that returns. *)
Lemma orchestrate_stage1 args w rc :
  fst (stage1 subprocess_run args (negb (continue_on_error args)) 0 w) = Some rc ->
  fst (orchestrate subprocess_run args w) = rc.
Proof.
  unfold orchestrate.
  destruct (stage1 subprocess_run args _ 0%nat w) as [[rc1|] w1]; simpl; congruence.
Qed.

Lemma orchestrate_stage2 args w w1 rc :
  stage1 subprocess_run args (negb (continue_on_error args)) 0 w = (None, w1) ->
  fst (stage2 subprocess_run args (negb (continue_on_error args)) w1) = Some rc ->
  fst (orchestrate subprocess_run args w) = rc.
Proof.
  unfold orchestrate. intros ->.
  destruct (stage2 subprocess_run args _ w1) as [[rc2|] w2]; simpl; congruence.
Qed.

Lemma orchestrate_stage3 args w w1 w2 rc :
  stage1 subprocess_run args (negb (continue_on_error args)) 0 w = (None, w1) ->
  stage2 subprocess_run args (negb (continue_on_error args)) w1 = (None, w2) ->
  fst (stage3 subprocess_run args (negb (continue_on_error args)) w2) = Some rc ->
  fst (orchestrate subprocess_run args w) = rc.
Proof.
  unfold orchestrate. intros -> ->.
  destruct (stage3 subprocess_run args _ w2) as [[rc3|] w3]; simpl; congruence.
Qed.

Lemma orchestrate_stage4 args w w1 w2 w3 rc :
  stage1 subprocess_run args (negb (continue_on_error args)) 0 w = (None, w1) ->
  stage2 subprocess_run args (negb (continue_on_error args)) w1 = (None, w2) ->
  stage3 subprocess_run args (negb (continue_on_error args)) w2 = (None, w3) ->
  fst (stage4 subprocess_run args (negb (continue_on_error args)) w3) = Some rc ->
  fst (orchestrate subprocess_run args w) = rc.
Proof.
  unfold orchestrate. intros -> -> ->.
  destruct (stage4 subprocess_run args _ w3) as [[rc4|] w4]; simpl; congruence.
Qed.

End Run.
End OrchestratorFacts.
(** ** Malformed records *)

Module RecordFacts.
Import Stage4.

(** *** Lines of the jobs file *)

Lemma load_lines_skips_blank lines records :
  Forall (fun line => line = BlankLine \/ exists c, candidate_of line = Some c) lines ->
  load_lines lines records = Ok (records ++ candidates lines).
Proof.
  intros H. revert records.
  induction H as [|line lines Hline _ IH]; intros records; simpl.
  - now rewrite app_nil_r.
  - destruct Hline as [->|(c & Hc)]; [apply IH|].
    destruct line as [| |o]; try discriminate. simpl in *.
    destruct (eo_embedding o); [|discriminate].
    rewrite IH, <- app_assoc. reflexivity.
Qed.

Lemma load_lines_raise before line after records :
  Forall (fun line => line = BlankLine \/ exists c, candidate_of line = Some c) before ->
  line <> BlankLine ->
  candidate_of line = None ->
  load_lines (before ++ line :: after) records
  = Raise (match line with BadLine => JSONDecodeError | _ => ValueError end).
Proof.
  intros H Hline Hnone. revert records.
  induction H as [|l before Hl _ IH]; intros records; simpl.
  - destruct line as [| |o]; [contradiction|reflexivity|].
    simpl in Hnone. now destruct (eo_embedding o).
  - destruct Hl as [->|(c & Hc)]; [apply IH|].
    destruct l as [| |o]; try discriminate. simpl in *.
    destruct (eo_embedding o); [apply IH|discriminate].
Qed.

(** Claim C7, as the stages handle records. Stage 4 passes over blank
    lines only: when every line of the jobs file is blank or carries an
    embedding the loader returns the candidates in order, and a line that
    is not JSON or that has no embedding makes the loader raise, and the
    ranker with it, before any output is written. Stage 1 passes over the
    entries of the job list that are not objects: a run that flattens the
    list flattens its objects in order, writes them and logs their number
    as the records processed; when one object cannot be flattened, as when
    its salary is present and is not an object, the run raises after
    saving the raw response and writes no flattened output. *)
Theorem malformed_records
    (soup_text : str -> str) (py_str : json -> str) :
  (forall lines,
     Forall (fun line => line = BlankLine \/ exists c, candidate_of line = Some c) lines ->
     load_lines lines [] = Ok (candidates lines))
  /\ (forall before line after fs jobs_file,
        Forall (fun line => line = BlankLine \/ exists c, candidate_of line = Some c)
               before ->
        line <> BlankLine ->
        candidate_of line = None ->
        fs !! jobs_file = Some (JobsEmbeddings (before ++ line :: after)) ->
        exists e,
          load_jobs_embeddings fs jobs_file = Raise e
          /\ forall sdot nrm2 fmt6 dict_slice_error resume_file top_n,
               rank_jobs sdot nrm2 fmt6 dict_slice_error jobs_file resume_file top_n fs
               = (Raise e, fs))
  /\ (forall text result jobs flattened w,
        Stage1.find_jobs result = Some jobs ->
        jobs <> [] ->
        Stage1.flatten_all soup_text py_str jobs = Ok flattened ->
        map Stage1.f_raw flattened = List.filter is_dict jobs
        /\ exists w',
             Stage1.main soup_text py_str (Stage1.Reply true text (Some result)) w
             = (Ok tt, w')
             /\ Stage1.fs w' !! Stage1.OUTPUT_JSON = Some (Stage1.FlatJson flattened)
             /\ head (Stage1.log w')
                = Some (Stage1.Done (length (List.filter is_dict jobs))))
  /\ (forall text result jobs d e w,
        Stage1.find_jobs result = Some jobs ->
        In (JDict d) jobs ->
        Stage1.flatten_job soup_text py_str d = Raise e ->
        exists e',
          Stage1.main soup_text py_str (Stage1.Reply true text (Some result)) w
          = (Raise e', Stage1.save_raw result w)
          /\ Stage1.fs (Stage1.save_raw result w) !! Stage1.OUTPUT_JSON
             = Stage1.fs w !! Stage1.OUTPUT_JSON)
  /\ (forall job,
        jtruthy (jget job "descriptionHtml") = false ->
        jtruthy (jget job "salary") = true ->
        is_dict (jget job "salary") = false ->
        Stage1.flatten_job soup_text py_str job = Raise AttributeError).
Proof.
  split; [intros lines H; exact (load_lines_skips_blank lines [] H)|].
  split.
  { intros before line after fs jobs_file Hbefore Hline Hnone Hfile.
    eexists. split.
    - unfold load_jobs_embeddings. rewrite Hfile.
      now apply load_lines_raise.
    - intros sdot nrm2 fmt6 dict_slice_error resume_file top_n.
      unfold rank_jobs, load_jobs_embeddings. rewrite Hfile.
      now rewrite load_lines_raise. }
  split.
  { intros text result jobs flattened w Hfind Hne Hflat.
    pose proof (Stage1Facts.flatten_all_filter _ _ _ _ Hflat) as Hraw.
    split; [exact Hraw|].
    eexists. split; [exact (Stage1Facts.main_done soup_text py_str text result jobs flattened w Hfind Hne Hflat)|].
    split.
    - simpl. rewrite lookup_insert_ne by discriminate. apply lookup_insert_eq.
    - simpl. now rewrite <- Hraw, length_map. }
  split.
  { intros text result jobs d e w Hfind Hin Hd.
    destruct (Stage1Facts.flatten_all_raise soup_text py_str jobs d e Hin Hd)
      as [e' He'].
    exists e'. split; [exact (Stage1Facts.main_abort soup_text py_str text result jobs e' w Hfind He')|].
    now apply Stage1Facts.save_raw_outputs. }
  intros job. apply Stage1Facts.flatten_job_salary.
Qed.

(** One line without an embedding among the lines of the jobs file: the
    loader raises, the ranker raises with it and leaves the files as they
    were, although the two other lines are good candidates. *)
Lemma rank_jobs_aborts_on_bad_record :
  load_jobs_embeddings Sample.files_missing_embedding DEFAULT_JOBS_FILE
  = Raise ValueError
  /\ Sample.rank 10 Sample.files_missing_embedding
     = (Raise ValueError, Sample.files_missing_embedding)
  /\ length (candidates Sample.lines_missing_embedding) = 2%nat.
Proof. repeat split. Qed.

(** A response whose job list has an entry that is not an object: the two
    objects are flattened and counted. *)
Example stage1_skips_non_objects :
  exists w',
    Stage1.main Sample.plain_text Sample.scalar_str
      (Stage1.Reply true [] (Some Sample.response)) Sample.world1 = (Ok tt, w')
    /\ head (Stage1.log w') = Some (Stage1.Done 2).
Proof. eexists. split; [vm_compute; reflexivity|reflexivity]. Qed.

(** A response with a record whose salary is a string: the run raises. *)
Example stage1_aborts_on_bad_salary :
  fst (Stage1.main Sample.plain_text Sample.scalar_str
         (Stage1.Reply true [] (Some Sample.response_bad_salary)) Sample.world1)
  = Raise AttributeError.
Proof. reflexivity. Qed.

End RecordFacts.

(** ** Checkpoints, credentials and exit codes *)

Module PipelineFacts.
Import Orchestrator OrchestratorFacts.


(** Vectors that do not all have one dimension: the run raises in making
    the array, with jobs_embeddings.jsonl written and jobs_embeddings.npy
    not. *)
Example stage3_ragged_run_leaves_jsonl :
  fst (Stage3.main Sample.service_ragged (Sample.world3 "resume")) = Raise ValueError
  /\ path_exists
       (Stage3.fs (snd (Stage3.main Sample.service_ragged (Sample.world3 "resume"))))
       Stage3.OUT_JSONL = true
  /\ path_exists
       (Stage3.fs (snd (Stage3.main Sample.service_ragged (Sample.world3 "resume"))))
       Stage3.OUT_NPY = false.
Proof. vm_compute. repeat split. Qed.

Section Run.
Context {F : Type}.
Variable subprocess_run :
  list string -> option Z -> gmap string str -> gmap string F -> proc * gmap string F.

(** Claim C8, as the orchestrator treats the two keys. When the embedding
    key is missing and Stage 3 is neither skipped by flag nor by its
    outputs, the Stage 3 script is not launched: a warning is printed and,
    unless continue-on-error is set, the orchestrator returns 1; with
    continue-on-error it goes on to Stage 4. When the listing key is
    missing and Stage 1 is not skipped, the orchestrator prints a warning
    and launches the Stage 1 script all the same. Each of the two scripts
    raises at once when its key is missing, before it reads or writes
    anything. *)
Theorem missing_credentials
    (post : nat -> string -> list str -> Stage3.http_outcome)
    (soup_text : str -> str) (py_str : json -> str)
    (reply : Stage1.reply) :
  (forall args (w w1 w2 : world F),
     stage1 subprocess_run args (negb (continue_on_error args)) 0 w = (None, w1) ->
     stage2 subprocess_run args (negb (continue_on_error args)) w1 = (None, w2) ->
     skip_stage3 args = false ->
     stage3_outputs_exist (fs w2) = false ->
     truthy (getenv w2 "OPENAI_API_KEY") = false ->
     ran (snd (stage3 subprocess_run args (negb (continue_on_error args)) w2)) = ran w2
     /\ (continue_on_error args = false ->
         orchestrate subprocess_run args w
         = (1, print (KeyWarning "OPENAI_API_KEY") w2))
     /\ (continue_on_error args = true ->
         orchestrate subprocess_run args w
         = (0, print PipelineCompleted
                 (snd (stage4 subprocess_run args false
                         (print (KeyWarning "OPENAI_API_KEY") w2))))))
  /\ (forall args stop_on_error (w : world F),
        skip_stage1 args = false ->
        path_exists (fs w) STAGE1_OUT && negb (force_stage1 args) = false ->
        truthy (getenv w "RAPIDAPI_KEY") = false ->
        stage1 subprocess_run args stop_on_error 0 w
        = (let '(rc, w1) :=
             run_script subprocess_run STAGE1_SCRIPT [] None
               (print (KeyWarning "RAPIDAPI_KEY") w) in
           failed 1 rc stop_on_error w1)
        /\ ran (snd (stage1 subprocess_run args stop_on_error 0 w))
           = [STAGE1_SCRIPT] :: ran w)
  /\ (forall env w,
        truthy (env !! "RAPIDAPI_KEY"%string) = false ->
        Stage1.script soup_text py_str reply env w = (Raise RuntimeError, w))
  /\ (forall env w,
        truthy (env !! "OPENAI_API_KEY"%string) = false ->
        Stage3.script post env w = (Raise RuntimeError, w)).
Proof.
  split.
  { intros args w w1 w2 H1 H2 Hskip Hout Hkey.
    rewrite (stage3_no_key subprocess_run args _ w2 Hskip Hout Hkey).
    split; [reflexivity|]. split; intros Hc.
    - unfold orchestrate. rewrite H1, H2.
      rewrite (stage3_no_key subprocess_run args _ w2 Hskip Hout Hkey).
      now rewrite Hc.
    - unfold orchestrate. rewrite H1, H2.
      rewrite (stage3_no_key subprocess_run args _ w2 Hskip Hout Hkey).
      rewrite Hc. simpl.
      pose proof (stage4_returns subprocess_run args false
                    (print (KeyWarning "OPENAI_API_KEY") w2)) as H4.
      apply continue_falls_through in H4.
      destruct (stage4 subprocess_run args false _) as [[rc|] w4];
        [discriminate|reflexivity]. }
  split.
  { intros args stop_on_error w Hskip Hout Hkey.
    rewrite (stage1_no_key subprocess_run args stop_on_error w Hskip Hout Hkey).
    split; [reflexivity|]. now rewrite launch_ran. }
  split.
  - intros env w Hkey. unfold Stage1.script. now rewrite Hkey.
  - intros env w Hkey. unfold Stage3.script. now rewrite Hkey.
Qed.

(** Claim C9, as the orchestrator computes its exit code. The code is 0
    exactly when the run reaches the end of the pipeline; with
    continue-on-error it always does, whatever the stages return. Without
    continue-on-error the orchestrator returns the code of the first
    launched script whose code is not 0, be it Stage 1, 2, 3 or 4, and it
    returns 1 when Stage 3 is due and the embedding key is missing.
    [run_script] gives the child's return code, 124 when the child times
    out and 1 for any other exception. The Stage 1 script ends normally,
    so with status 0, when its request fails or is rejected by the
    provider. *)
Theorem exit_codes (soup_text : str -> str) (py_str : json -> str) :
  (forall args (w : world F),
     (fst (orchestrate subprocess_run args w) = 0
      <-> head (printed (snd (orchestrate subprocess_run args w)))
          = Some PipelineCompleted)
     /\ (continue_on_error args = true -> fst (orchestrate subprocess_run args w) = 0))
  /\ (forall args (w : world F),
        continue_on_error args = false ->
        skip_stage1 args = false ->
        path_exists (fs w) STAGE1_OUT && negb (force_stage1 args) = false ->
        fst (run_script subprocess_run STAGE1_SCRIPT [] None
               (if truthy (getenv w "RAPIDAPI_KEY") then w
                else print (KeyWarning "RAPIDAPI_KEY") w)) <> 0 ->
        fst (orchestrate subprocess_run args w)
        = fst (run_script subprocess_run STAGE1_SCRIPT [] None
                 (if truthy (getenv w "RAPIDAPI_KEY") then w
                  else print (KeyWarning "RAPIDAPI_KEY") w)))
  /\ (forall args (w w1 : world F),
        continue_on_error args = false ->
        stage1 subprocess_run args true 0 w = (None, w1) ->
        skip_stage2 args = false ->
        path_exists (fs w1) STAGE2_OUT_JSON = false ->
        fst (run_script subprocess_run STAGE2_SCRIPT
               (if path_exists (fs w1) (resume_path args)
                then [resume_path args] else []) None w1) <> 0 ->
        fst (orchestrate subprocess_run args w)
        = fst (run_script subprocess_run STAGE2_SCRIPT
                 (if path_exists (fs w1) (resume_path args)
                  then [resume_path args] else []) None w1))
  /\ (forall args (w w1 w2 : world F),
        continue_on_error args = false ->
        stage1 subprocess_run args true 0 w = (None, w1) ->
        stage2 subprocess_run args true w1 = (None, w2) ->
        skip_stage3 args = false ->
        stage3_outputs_exist (fs w2) = false ->
        (truthy (getenv w2 "OPENAI_API_KEY") = false ->
         fst (orchestrate subprocess_run args w) = 1)
        /\ (truthy (getenv w2 "OPENAI_API_KEY") = true ->
            fst (run_script subprocess_run STAGE3_SCRIPT [] None w2) <> 0 ->
            fst (orchestrate subprocess_run args w)
            = fst (run_script subprocess_run STAGE3_SCRIPT [] None w2)))
  /\ (forall args (w w1 w2 w3 : world F),
        continue_on_error args = false ->
        stage1 subprocess_run args true 0 w = (None, w1) ->
        stage2 subprocess_run args true w1 = (None, w2) ->
        stage3 subprocess_run args true w2 = (None, w3) ->
        skip_stage4 args = false ->
        path_exists (fs w3) STAGE4_TOP = false ->
        fst (run_script subprocess_run STAGE4_SCRIPT [] None w3) <> 0 ->
        fst (orchestrate subprocess_run args w)
        = fst (run_script subprocess_run STAGE4_SCRIPT [] None w3))
  /\ (forall script sargs timeout (w : world F),
        fst (run_script subprocess_run script sargs timeout w)
        = match fst (subprocess_run (script :: sargs) timeout (env w) (fs w)) with
          | Exited returncode => returncode
          | TimeoutExpired => 124
          | OtherException => 1
          end)
  /\ (forall reply w,
        reply = Stage1.PostFailed \/ (exists text body, reply = Stage1.Reply false text body) ->
        exit_status (fst (Stage1.main soup_text py_str reply w)) = 0).
Proof.
  split; [intros args w; apply orchestrate_zero|].
  split.
  { intros args w Hc Hskip Hout Hrc.
    apply orchestrate_stage1. rewrite Hc. simpl negb.
    rewrite (stage1_launch subprocess_run args true w Hskip Hout).
    now apply launch_stops. }
  split.
  { intros args w w1 Hc H1 Hskip Hout Hrc.
    apply (orchestrate_stage2 subprocess_run args w w1); rewrite Hc; simpl negb;
      [exact H1|].
    rewrite (stage2_launch subprocess_run args true w1 Hskip Hout).
    now apply launch_stops. }
  split.
  { intros args w w1 w2 Hc H1 H2 Hskip Hout. split.
    - intros Hkey.
      apply (orchestrate_stage3 subprocess_run args w w1 w2); rewrite Hc; simpl negb;
        [exact H1|exact H2|].
      now rewrite (stage3_no_key subprocess_run args true w2 Hskip Hout Hkey).
    - intros Hkey Hrc.
      apply (orchestrate_stage3 subprocess_run args w w1 w2); rewrite Hc; simpl negb;
        [exact H1|exact H2|].
      rewrite (stage3_launch subprocess_run args true w2 Hskip Hout Hkey).
      now apply launch_stops. }
  split.
  { intros args w w1 w2 w3 Hc H1 H2 H3 Hskip Hout Hrc.
    apply (orchestrate_stage4 subprocess_run args w w1 w2 w3); rewrite Hc; simpl negb;
      [exact H1|exact H2|exact H3|].
    rewrite (stage4_launch subprocess_run args true w3 Hskip Hout).
    now apply launch_stops. }
  split.
  { intros script sargs timeout w. unfold run_script.
    now destruct (subprocess_run (script :: sargs) timeout (env w) (fs w)) as [[rc| |] fs']. }
  intros reply w H. now rewrite Stage1Facts.main_request_failed.
Qed.

(** The codes of a run that stops: a script that times out makes the
    orchestrator exit with 124, one that exits with 3 with 3. *)
Example orchestrate_exit_codes :
  fst (orchestrate (fun _ _ _ files => (TimeoutExpired, files)) Sample.args0
         (Sample.fresh Sample.env_both)) = 124
  /\ fst (orchestrate (Sample.exits 3) Sample.args0 (Sample.fresh Sample.env_both)) = 3
  /\ fst (orchestrate (Sample.exits 0) Sample.args0
            (Sample.fresh Sample.env_rapidapi_only)) = 1.
Proof. vm_compute. repeat split. Qed.

End Run.

(** The listing key is missing: the orchestrator launches the Stage 1
    script all the same, and it is this launch, which the script ends with
    code 1, that stops the pipeline. *)
Lemma stage1_runs_without_key :
  getenv (Sample.fresh Sample.env_openai_only) "RAPIDAPI_KEY" = None
  /\ ran (snd (orchestrate Sample.scripts Sample.args0
                 (Sample.fresh Sample.env_openai_only)))
     = [[STAGE1_SCRIPT]]
  /\ printed (snd (orchestrate Sample.scripts Sample.args0
                     (Sample.fresh Sample.env_openai_only)))
     = [StageFailed 1; KeyWarning "RAPIDAPI_KEY"]
  /\ ran (snd (orchestrate Sample.scripts Sample.args_continue
                 (Sample.fresh Sample.env_openai_only)))
     = [[STAGE4_SCRIPT]; [STAGE3_SCRIPT]; [STAGE2_SCRIPT]; [STAGE1_SCRIPT]].
Proof. vm_compute. repeat split. Qed.

(** With continue-on-error every stage can fail and the orchestrator
    still exits with 0; and a Stage 1 run whose request fails exits with
    0. *)
Lemma exit_zero_despite_failures :
  orchestrate (Sample.exits 1) Sample.args_continue (Sample.fresh Sample.env_both)
  = (0, {| fs := ∅;
           env := Sample.env_both;
           ran := [[STAGE4_SCRIPT]; [STAGE3_SCRIPT]; [STAGE2_SCRIPT]; [STAGE1_SCRIPT]];
           printed := [PipelineCompleted] |})
  /\ exit_status
       (fst (Stage1.main Sample.plain_text Sample.scalar_str Stage1.PostFailed
               Sample.world1)) = 0
  /\ Stage1.log
       (snd (Stage1.main Sample.plain_text Sample.scalar_str Stage1.PostFailed
               Sample.world1)) = [Stage1.RequestFailed].
Proof. vm_compute. repeat split. Qed.

End PipelineFacts.

(** ** More on the embedding client *)

Module ClientFacts.
Import Stage3 Stage3Facts.

(** *** The shape of the batches *)

Lemma nth_error_slices {A} (l : list A) (n m i : nat) c :
  nth_error (map (fun i => slice l i (i + n)) (map (fun k => (k * n)%nat) (seq 0 m))) i
  = Some c ->
  (i < m)%nat /\ c = slice l (i * n) (i * n + n).
Proof.
  rewrite map_map. intros H.
  assert (Hi : (i < m)%nat).
  { assert (Hne : nth_error (map (fun x => slice l (x * n) (x * n + n)) (seq 0 m)) i
                   <> None) by congruence.
    apply nth_error_Some in Hne. now rewrite length_map, length_seq in Hne. }
  split; [exact Hi|].
  rewrite nth_error_map, nth_error_seq in H.
  destruct (Nat.ltb_spec i m); [|lia]. simpl in H. congruence.
Qed.

(** [chunked] cuts a list into consecutive batches: as many as the length
    divided by the batch size, rounded up; none of them empty, none longer
    than the batch size, and all but the last one full. A batch size of 0
    is an error. *)
Theorem chunked_shape {A} (l : list A) (n : nat) chunks :
  chunked l n = Ok chunks ->
  concat chunks = l
  /\ length chunks = ((length l + n - 1) / n)%nat
  /\ Forall (fun c => (0 < length c <= n)%nat) chunks
  /\ (forall i c, nth_error chunks i = Some c -> (S i < length chunks)%nat ->
                  length c = n)
  /\ chunked l 0 = Raise ValueError.
Proof.
  intros H.
  assert (Hn : (0 < n)%nat) by (destruct n; [discriminate|lia]).
  destruct (chunked_concat l n Hn) as (chunks' & H' & Hcat).
  assert (chunks' = chunks) by congruence. subst chunks'.
  split; [exact Hcat|].
  assert (Hlen : length chunks = ((length l + n - 1) / n)%nat).
  { destruct n as [|n]; [lia|]. injection H as <-.
    unfold range_step. now rewrite !length_map, length_seq. }
  split; [exact Hlen|]. split; [now apply (chunked_sizes l n)|].
  split; [|reflexivity].
  intros i c Hc Hi. rewrite Hlen in Hi.
  destruct n as [|n]; [lia|]. injection H as <-.
  unfold range_step in Hc. apply nth_error_slices in Hc. destruct Hc as [_ ->].
  unfold slice. rewrite length_firstn, length_skipn.
  pose proof (Nat.Div0.mul_div_le (length l + S n - 1) (S n)) as Hle.
  nia.
Qed.

Lemma chunked_shape_witness :
  chunked ["a"; "b"; "c"; "d"; "e"]%string 2
  = Ok [["a"; "b"]; ["c"; "d"]; ["e"]]%string
  /\ concat [["a"; "b"]; ["c"; "d"]; ["e"]]%string = ["a"; "b"; "c"; "d"; "e"]%string
  /\ length [["a"; "b"]; ["c"; "d"]; ["e"]]%string = 3%nat.
Proof.
  split; [reflexivity|].
  destruct (chunked_shape ["a"; "b"; "c"; "d"; "e"]%string 2
              [["a"; "b"]; ["c"; "d"]; ["e"]]%string eq_refl)
    as (Hcat & Hlen & _).
  split; [exact Hcat|exact Hlen].
Defined.

Section Client.
Variable post : nat -> string -> list str -> http_outcome.

(** *** Outcomes of one call *)

(** Answers that end the call at once, after one request and without a
    sleep: a status that is neither 200 nor transient raises
    [RuntimeError]; so does a response with status 200 whose JSON has no
    ["data"]; and when reading the JSON of such a response raises (a
    [TypeError] on [null], a [KeyError] on an item without an embedding),
    that exception escapes, since it is not a [RequestException]. *)
Theorem call_openai_embeddings_fatal inputs model w status body :
  post (calls w) model inputs = Response status body ->
  (status <> 200 -> transient status = false ->
   call_openai_embeddings post inputs model w = (Raise RuntimeError, posted w))
  /\ (status = 200 -> body = NoData ->
      call_openai_embeddings post inputs model w = (Raise RuntimeError, posted w))
  /\ (forall e, status = 200 -> body = Unusable e ->
      call_openai_embeddings post inputs model w = (Raise e, posted w)).
Proof.
  intros Hpost. unfold call_openai_embeddings. simpl. rewrite Hpost.
  split; [|split].
  - intros Hs Ht. apply Z.eqb_neq in Hs. now rewrite Hs, Ht.
  - now intros -> ->.
  - now intros e -> ->.
Qed.

Lemma attempts_recover range inputs model backoff w j vs :
  (j < length range)%nat ->
  (forall i, (i < j)%nat -> retried (post (calls w + i) model inputs)) ->
  post (calls w + j) model inputs = Response 200 (Data vs) ->
  exists w',
    attempts post range inputs model backoff w = (Ok vs, w')
    /\ calls w' = (calls w + j + 1)%nat
    /\ length (slept w') = (length (slept w) + j)%nat
    /\ fs w' = fs w.
Proof.
  revert range backoff w. induction j as [|j IH]; intros range backoff w Hlen Hretry Hok.
  - destruct range as [|n range]; [simpl in Hlen; lia|].
    rewrite Nat.add_0_r in Hok. simpl. rewrite Hok.
    eexists. split; [reflexivity|]. simpl. repeat split; lia.
  - destruct range as [|n range]; [simpl in Hlen; lia|]. simpl in Hlen.
    rewrite attempts_retry.
    2:{ specialize (Hretry 0%nat ltac:(lia)). now rewrite Nat.add_0_r in Hretry. }
    destruct (IH range (Z.min (backoff * 2) MAX_BACKOFF)
                 (time_sleep (Backoff backoff) (posted w))) as (w' & -> & Hc & Hs & Hf).
    + lia.
    + intros i Hi. specialize (Hretry (S i) ltac:(lia)).
      simpl. now rewrite <- Nat.add_succ_r.
    + simpl. now rewrite <- Nat.add_succ_r.
    + exists w'. simpl in *. repeat split; [lia|lia|assumption].
Qed.

(** Transient errors followed by a success: when the first [j] requests,
    fewer than [MAX_RETRIES], are answered by transient errors and the next
    one by the embeddings, the call returns those embeddings after [j + 1]
    requests and [j] backoffs. *)
Theorem call_openai_embeddings_recovers inputs model w j vs :
  (j < MAX_RETRIES)%nat ->
  (forall i, (i < j)%nat -> retried (post (calls w + i) model inputs)) ->
  post (calls w + j) model inputs = Response 200 (Data vs) ->
  exists w',
    call_openai_embeddings post inputs model w = (Ok vs, w')
    /\ calls w' = (calls w + j + 1)%nat
    /\ length (slept w') = (length (slept w) + j)%nat
    /\ fs w' = fs w.
Proof.
  intros Hj. apply attempts_recover. now rewrite length_seq.
Qed.

(** The backoff doubles up to the cap. *)
Lemma backoff_doubles backoff k :
  0 < backoff ->
  Z.min (Z.min (backoff * 2) MAX_BACKOFF * 2 ^ Z.of_nat k) MAX_BACKOFF
  = Z.min (backoff * 2 ^ Z.of_nat (S k)) MAX_BACKOFF.
Proof.
  intros Hb. rewrite Nat2Z.inj_succ, Z.pow_succ_r by lia.
  assert (Hp : 0 < 2 ^ Z.of_nat k) by (apply Z.pow_pos_nonneg; lia).
  unfold MAX_BACKOFF.
  destruct (Z.le_gt_cases (backoff * 2) 30) as [Hle|Hgt].
  - rewrite (Z.min_l (backoff * 2)) by exact Hle. f_equal. ring.
  - rewrite (Z.min_r (backoff * 2)) by lia.
    rewrite !Z.min_r; [reflexivity|nia|nia].
Qed.

(** The loop from a backoff: every request but the last is followed by
    a sleep, and the last one too when the attempts run out; the sleep
    after the request of index [k] is the backoff doubled [k] times,
    capped. *)
Lemma attempts_schedule range inputs model backoff w :
  0 < backoff <= MAX_BACKOFF ->
  exists r w' sleeps,
    attempts post range inputs model backoff w = (r, w')
    /\ slept w' = sleeps ++ slept w
    /\ sleeps = rev (map (fun k => Backoff (Z.min (backoff * 2 ^ Z.of_nat k) MAX_BACKOFF))
                         (seq 0 (length sleeps)))
    /\ fs w' = fs w
    /\ ((calls w' = calls w + length sleeps + 1 /\ length sleeps < length range)%nat
        \/ (calls w' = calls w + length range /\ length sleeps = length range
            /\ r = Raise RuntimeError)%nat).
Proof.
  revert backoff w. induction range as [|n range IH]; intros backoff w Hb.
  - exists (Raise RuntimeError), w, []. simpl.
    repeat split. right. repeat split; lia.
  - assert (Hb' : 0 < Z.min (backoff * 2) MAX_BACKOFF <= MAX_BACKOFF)
      by (unfold MAX_BACKOFF in *; lia).
    destruct (IH (Z.min (backoff * 2) MAX_BACKOFF)
                 (time_sleep (Backoff backoff) (posted w)) Hb')
      as (r & w' & sleeps & Hrun & Hslept & Hsched & Hfs & Hcount).
    assert (Hretry :
      exists r w' sleeps,
        attempts post range inputs model (Z.min (backoff * 2) MAX_BACKOFF)
          (time_sleep (Backoff backoff) (posted w)) = (r, w')
        /\ slept w' = sleeps ++ slept w
        /\ sleeps = rev (map (fun k => Backoff (Z.min (backoff * 2 ^ Z.of_nat k)
                                                      MAX_BACKOFF))
                             (seq 0 (length sleeps)))
        /\ fs w' = fs w
        /\ ((calls w' = calls w + length sleeps + 1
             /\ length sleeps < length (n :: range))%nat
            \/ (calls w' = calls w + length (n :: range)
                /\ length sleeps = length (n :: range)
                /\ r = Raise RuntimeError)%nat)).
    { exists r, w', (sleeps ++ [Backoff backoff]). simpl in *.
      split; [exact Hrun|].
      split; [now rewrite <- app_assoc|].
      split.
      { rewrite length_app. simpl length. rewrite Nat.add_1_r. simpl seq. simpl map.
        simpl rev. f_equal.
        - rewrite <- seq_shift, map_map. rewrite Hsched at 1. f_equal.
          apply map_ext. intros k. f_equal. apply backoff_doubles. lia.
        - do 2 f_equal. rewrite Z.mul_1_r. unfold MAX_BACKOFF in *. lia. }
      split; [exact Hfs|].
      rewrite length_app. simpl length.
      destruct Hcount as [[Hc Hl]|(Hc & Hl & Hr)]; [left|right]; repeat split;
        (lia || assumption). }
    assert (Hstop : forall r0 : result (list (list spec_float)),
      exists r w' sleeps,
        (r0, posted w) = (r, w')
        /\ slept w' = sleeps ++ slept w
        /\ sleeps = rev (map (fun k => Backoff (Z.min (backoff * 2 ^ Z.of_nat k)
                                                      MAX_BACKOFF))
                             (seq 0 (length sleeps)))
        /\ fs w' = fs w
        /\ ((calls w' = calls w + length sleeps + 1
             /\ length sleeps < length (n :: range))%nat
            \/ (calls w' = calls w + length (n :: range)
                /\ length sleeps = length (n :: range)
                /\ r = Raise RuntimeError)%nat)).
    { intros r0. exists r0, (posted w), []. simpl.
      repeat split. left. split; lia. }
    simpl attempts. destruct (post (calls w) model inputs) as [status body|];
      [|exact Hretry].
    destruct (status =? 200); [destruct body; (exact Hretry || apply Hstop)|].
    destruct (transient status); [exact Hretry|apply Hstop].
Qed.

(** Whatever the service answers, one call sends at least one request and
    at most [MAX_RETRIES] and writes no file. It sleeps after every
    request but the last, and after the last one too only when all
    [MAX_RETRIES] requests are spent, in which case it raises
    [RuntimeError]; so it never sleeps more often than it sends requests.
    The sleep after the request of index [k] lasts [2 ^ k] seconds (jitter
    apart), which stays between [INITIAL_BACKOFF] and [MAX_BACKOFF]. *)
Theorem call_openai_embeddings_bounded inputs model w :
  exists r w' sleeps,
    call_openai_embeddings post inputs model w = (r, w')
    /\ (calls w < calls w' <= calls w + MAX_RETRIES)%nat
    /\ slept w' = sleeps ++ slept w
    /\ (length sleeps <= MAX_RETRIES)%nat
    /\ Forall (fun s => exists b, s = Backoff b /\ INITIAL_BACKOFF <= b <= MAX_BACKOFF)
              sleeps
    /\ fs w' = fs w
    /\ (length sleeps <= calls w' - calls w <= length sleeps + 1)%nat
    /\ (length sleeps = calls w' - calls w ->
        r = Raise RuntimeError /\ calls w' = calls w + MAX_RETRIES)%nat
    /\ sleeps = rev (map (fun k => Backoff (2 ^ Z.of_nat k)) (seq 0 (length sleeps))).
Proof.
  destruct (attempts_schedule (seq 1 MAX_RETRIES) inputs model INITIAL_BACKOFF w)
    as (r & w' & sleeps & Hrun & Hslept & Hsched & Hfs & Hcount).
  { unfold INITIAL_BACKOFF, MAX_BACKOFF. lia. }
  rewrite length_seq in Hcount.
  assert (Hlen : (length sleeps <= MAX_RETRIES)%nat) by lia.
  assert (Hexact : sleeps
                   = rev (map (fun k => Backoff (2 ^ Z.of_nat k)) (seq 0 (length sleeps)))).
  { rewrite Hsched at 1. f_equal. apply map_ext_in. intros k Hk.
    apply in_seq in Hk. f_equal. unfold INITIAL_BACKOFF, MAX_BACKOFF, MAX_RETRIES in *.
    rewrite Z.mul_1_l. apply Z.min_l.
    assert (Hk4 : 0 <= Z.of_nat k <= 4) by lia.
    transitivity (2 ^ 4); [apply Z.pow_le_mono_r; lia|now compute]. }
  exists r, w', sleeps. split; [exact Hrun|].
  split; [unfold MAX_RETRIES in *; lia|].
  split; [exact Hslept|]. split; [exact Hlen|].
  split.
  { rewrite Hexact. apply List.Forall_rev, List.Forall_map, List.Forall_forall.
    intros k Hk. apply in_seq in Hk. eexists. split; [reflexivity|].
    unfold INITIAL_BACKOFF, MAX_BACKOFF, MAX_RETRIES in *.
    assert (Hk4 : 0 <= Z.of_nat k <= 4) by lia.
    split.
    - change 1 with (2 ^ 0). apply Z.pow_le_mono_r; lia.
    - transitivity (2 ^ 4); [apply Z.pow_le_mono_r; lia|now compute]. }
  split; [exact Hfs|].
  split; [unfold MAX_RETRIES in *; lia|].
  split; [|exact Hexact].
  intros Heq. destruct Hcount as [[Hc Hl]|(Hc & Hl & Hr)]; [lia|].
  split; [exact Hr|exact Hc].
Qed.

(** *** Texts *)

(** A text within the limit is sent as it is; a longer one is cut to the
    limit and marked, which makes it 16 characters longer than the limit.
    Lengths are counted in code points. Cutting keeps the first
    [TRUNCATE_INPUT_CHARS] characters, so the first 2000 characters of the
    text that is sent, which the resume file keeps as a sample, are those
    of the text itself. No text made for a job exceeds the limit by more
    than the mark. *)
Theorem truncate_length text :
  ((length text <= TRUNCATE_INPUT_CHARS)%nat -> truncate text = text)
  /\ ((TRUNCATE_INPUT_CHARS < length text)%nat ->
      truncate text = str_prefix TRUNCATE_INPUT_CHARS text ++ lit " ... (truncated)"
      /\ length (truncate text) = (TRUNCATE_INPUT_CHARS + 16)%nat)
  /\ (length (truncate text) <= TRUNCATE_INPUT_CHARS + 16)%nat
  /\ (forall n, (n <= TRUNCATE_INPUT_CHARS)%nat ->
                str_prefix n (truncate text) = str_prefix n text)
  /\ str_prefix 2000 (truncate text) = str_prefix 2000 text
  /\ (forall r, (length (job_input r) <= TRUNCATE_INPUT_CHARS + 16)%nat).
Proof.
  assert (Hcut : forall t, (TRUNCATE_INPUT_CHARS < length t)%nat ->
            truncate t = str_prefix TRUNCATE_INPUT_CHARS t ++ lit " ... (truncated)"
            /\ length (truncate t) = (TRUNCATE_INPUT_CHARS + 16)%nat).
  { intros t Hlong. unfold truncate.
    destruct (Nat.ltb_spec TRUNCATE_INPUT_CHARS (length t)); [|lia].
    split; [reflexivity|].
    unfold str_prefix. rewrite length_app, length_firstn.
    change (length (lit " ... (truncated)")) with 16%nat. lia. }
  assert (Hkeep : forall t, (length t <= TRUNCATE_INPUT_CHARS)%nat -> truncate t = t).
  { intros t Hshort. unfold truncate.
    destruct (Nat.ltb_spec TRUNCATE_INPUT_CHARS (length t)); [lia|reflexivity]. }
  assert (Hbound : forall t, (length (truncate t) <= TRUNCATE_INPUT_CHARS + 16)%nat).
  { intros t.
    destruct (Nat.le_gt_cases (length t) TRUNCATE_INPUT_CHARS) as [Hs|Hl];
      [rewrite (Hkeep t Hs); lia|destruct (Hcut t Hl) as [_ ->]; lia]. }
  assert (Hprefix : forall n, (n <= TRUNCATE_INPUT_CHARS)%nat ->
            str_prefix n (truncate text) = str_prefix n text).
  { intros n Hn.
    destruct (Nat.le_gt_cases (length text) TRUNCATE_INPUT_CHARS) as [Hs|Hl];
      [now rewrite (Hkeep text Hs)|].
    destruct (Hcut text Hl) as [-> _]. unfold str_prefix.
    rewrite firstn_app, length_firstn.
    replace (n - Nat.min TRUNCATE_INPUT_CHARS (length text))%nat with 0%nat by lia.
    rewrite firstn_firstn, app_nil_r. f_equal. lia. }
  split; [apply Hkeep|]. split; [apply Hcut|]. split; [apply Hbound|].
  split; [exact Hprefix|].
  split; [apply Hprefix, Nat.leb_le; now vm_compute|].
  intros r. apply Hbound.
Qed.

(** *** Runs of [main] *)

(** The inputs are looked for when they are needed: without
    cleaned_jobs.json the run raises before any request; the processed
    resume is only looked for once the job embeddings have been requested
    and stored, so without it the run raises with those files written. *)
Theorem main_missing_inputs batch_size w :
  (fs w !! CLEANED_JOBS_JSON = None ->
   main_with post batch_size w = (Raise FileNotFoundError, w))
  /\ (forall jobs a w1 arr,
        load_jobs w = Ok jobs ->
        embed_jobs post batch_size jobs w = (Ok a, w1) ->
        np_array (all_embeddings a) = Ok arr ->
        fs w !! PROCESSED_RESUME = None ->
        main_with post batch_size w
        = (Raise FileNotFoundError,
           write_file OUT_NPY (Npy arr)
             (write_file OUT_JSONL (JobsEmbeddings (map ObjLine (out_lines a))) w1))).
Proof.
  split.
  - intros H. unfold main_with, load_jobs. now rewrite H.
  - intros jobs a w1 arr Hjobs Hembed Harr Hnone.
    pose proof (embed_jobs_fs post batch_size jobs w) as Hfs.
    rewrite Hembed in Hfs. simpl in Hfs.
    unfold main_with. rewrite Hjobs, Hembed, Harr.
    unfold embed_resume, read_resume_text. simpl.
    rewrite !lookup_insert_ne by discriminate. now rewrite Hfs, Hnone.
Qed.

(** A run that ends normally on a resume that is not empty once stripped
    has written the three outputs. The job embeddings were stored first;
    then one call was made for the stripped and cut resume text alone, and
    the resume file holds the first vector that call returned, with the
    first 2000 characters of the stripped text as its sample. On the files
    the run leaves, the orchestrator's Stage 3 block launches nothing. *)
Theorem completed_run_is_skipped w w' text :
  main post w = (Ok tt, w') ->
  fs w !! PROCESSED_RESUME = Some (Text text) ->
  py_strip text <> [] ->
  (exists jobs a w1 arr v rest w4,
     load_jobs w = Ok jobs
     /\ embed_jobs post BATCH_SIZE jobs w = (Ok a, w1)
     /\ np_array (all_embeddings a) = Ok arr
     /\ call_openai_embeddings post [truncate (py_strip text)] MODEL
          (write_file OUT_NPY (Npy arr)
             (write_file OUT_JSONL (JobsEmbeddings (map ObjLine (out_lines a))) w1))
        = (Ok (v :: rest), w4)
     /\ w' = write_file OUT_RESUME
               (ResumeFile {| re_model := MODEL;
                              re_embedding := Some v;
                              re_text_sample := str_prefix 2000 (py_strip text) |})
               w4
     /\ fs w' !! OUT_RESUME
        = Some (ResumeFile {| re_model := MODEL;
                              re_embedding := Some v;
                              re_text_sample := str_prefix 2000 (py_strip text) |})
     /\ fs w' !! OUT_JSONL = Some (JobsEmbeddings (map ObjLine (out_lines a)))
     /\ fs w' !! OUT_NPY = Some (Npy arr))
  /\ path_exists (fs w') OUT_JSONL = true
  /\ path_exists (fs w') OUT_NPY = true
  /\ Orchestrator.stage3_outputs_exist (fs w') = true
  /\ forall subprocess_run args stop_on_error (ow : Orchestrator.world file),
       Orchestrator.fs ow = fs w' ->
       Orchestrator.stage3 subprocess_run args stop_on_error ow = (None, ow).
Proof.
  intros Hrun Hfile Hne. unfold main, main_with in Hrun.
  destruct (load_jobs w) as [jobs|e] eqn:Hjobs; [|discriminate].
  pose proof (embed_jobs_fs post BATCH_SIZE jobs w) as Hfs.
  destruct (embed_jobs post BATCH_SIZE jobs w) as [[a|e] w1] eqn:Hembed; [|discriminate].
  cbn [snd] in Hfs.
  destruct (np_array (all_embeddings a)) as [arr|e] eqn:Harr; [|discriminate].
  unfold embed_resume, read_resume_text in Hrun. cbn [fs write_file] in Hrun.
  rewrite !lookup_insert_ne in Hrun by discriminate.
  rewrite Hfs, Hfile in Hrun.
  assert (Hsample : str_prefix 2000 (truncate (py_strip text))
                    = str_prefix 2000 (py_strip text)).
  { unfold truncate.
    destruct (Nat.ltb_spec TRUNCATE_INPUT_CHARS (length (py_strip text)));
      [|reflexivity].
    assert (H2000 : (2000 <= TRUNCATE_INPUT_CHARS)%nat)
      by (apply Nat.leb_le; now vm_compute).
    unfold str_prefix. rewrite firstn_app, length_firstn.
    replace (2000 - Nat.min TRUNCATE_INPUT_CHARS (length (py_strip text)))%nat
      with 0%nat by lia.
    rewrite firstn_firstn, app_nil_r. f_equal; lia. }
  rewrite Hsample in Hrun.
  destruct (is_empty (py_strip text)) eqn:Hempty.
  { destruct (py_strip text); [congruence|discriminate]. }
  match type of Hrun with context [call_openai_embeddings post ?i ?m ?w3] =>
    pose proof (call_openai_embeddings_fs post i m w3) as Hfs3;
    destruct (call_openai_embeddings post i m w3) as [[[|v rest]|e] w4] eqn:Hcall
  end; try discriminate.
  apply (f_equal snd) in Hrun. cbn [snd] in Hrun. subst w'.
  cbn [snd fs write_file] in Hfs3.
  set (obj := {| re_model := MODEL;
                 re_embedding := Some v;
                 re_text_sample := str_prefix 2000 (py_strip text) |}).
  assert (Hresume : fs (write_file OUT_RESUME (ResumeFile obj) w4) !! OUT_RESUME
                    = Some (ResumeFile obj)) by apply lookup_insert_eq.
  assert (Hjsonl : fs (write_file OUT_RESUME (ResumeFile obj) w4) !! OUT_JSONL
                   = Some (JobsEmbeddings (map ObjLine (out_lines a)))).
  { cbn [fs write_file]. rewrite lookup_insert_ne by discriminate.
    rewrite Hfs3, lookup_insert_ne by discriminate. now rewrite lookup_insert_eq. }
  assert (Hnpy : fs (write_file OUT_RESUME (ResumeFile obj) w4) !! OUT_NPY
                 = Some (Npy arr)).
  { cbn [fs write_file]. rewrite lookup_insert_ne by discriminate.
    rewrite Hfs3. now rewrite lookup_insert_eq. }
  assert (Hcheck : Orchestrator.stage3_outputs_exist
                     (fs (write_file OUT_RESUME (ResumeFile obj) w4)) = true).
  { unfold Orchestrator.stage3_outputs_exist, path_exists.
    change Orchestrator.STAGE3_JOBS_EMBED with OUT_JSONL.
    change Orchestrator.STAGE3_RESUME_EMBED with OUT_RESUME.
    now rewrite Hjsonl, Hresume. }
  split.
  { exists jobs, a, w1, arr, v, rest, w4. repeat split; assumption || reflexivity. }
  split; [unfold path_exists; now rewrite Hjsonl|].
  split; [unfold path_exists; now rewrite Hnpy|].
  split; [exact Hcheck|].
  intros subprocess_run args stop_on_error ow Hofs.
  unfold Orchestrator.stage3. rewrite Hofs, Hcheck.
  now destruct (Orchestrator.skip_stage3 args).
Qed.

End Client.

Lemma call_openai_embeddings_recovers_witness :
  (2 < MAX_RETRIES)%nat
  /\ exists w',
       call_openai_embeddings (Sample.service_busy_until 2) [lit "text"] MODEL
         (Sample.world3 "resume")
       = (Ok [Sample.text_vector (lit "text")], w')
       /\ calls w' = 3%nat
       /\ length (slept w') = 2%nat
       /\ fs w' = fs (Sample.world3 "resume").
Proof.
  split; [unfold MAX_RETRIES; lia|].
  apply (call_openai_embeddings_recovers (Sample.service_busy_until 2)
           [lit "text"] MODEL (Sample.world3 "resume") 2
           [Sample.text_vector (lit "text")]).
  - unfold MAX_RETRIES. lia.
  - intros i Hi. destruct i as [|[|i]]; [left; reflexivity|left; reflexivity|lia].
  - reflexivity.
Defined.

(** Bodies that are not JSON under status 200 are retried like transient
    errors: after two of them the third answer is returned, with the
    backoffs of 1 and 2 seconds in between. *)
Example garbled_answers_are_retried :
  call_openai_embeddings (Sample.service_garbled_until 2) [lit "text"] MODEL
    (Sample.world3 "resume")
  = (Ok [Sample.text_vector (lit "text")],
     {| fs := fs (Sample.world3 "resume");
        calls := 3;
        slept := [Backoff 2; Backoff 1] |}).
Proof. vm_compute. reflexivity. Qed.

Lemma completed_run_is_skipped_witness :
  exists w',
    main Sample.service_ok (Sample.world3 " resume text ") = (Ok tt, w')
    /\ calls w' = 2%nat
    /\ fs w' !! OUT_RESUME
       = Some (ResumeFile {| re_model := MODEL;
                             re_embedding := Some (Sample.text_vector (lit "resume text"));
                             re_text_sample := lit "resume text" |})
    /\ Orchestrator.stage3_outputs_exist (fs w') = true.
Proof.
  eexists. split; [vm_compute; reflexivity|]. split; [reflexivity|].
  split; [vm_compute; reflexivity|].
  eapply (completed_run_is_skipped Sample.service_ok
            (Sample.world3 " resume text ") _ (lit " resume text ")).
  - vm_compute. reflexivity.
  - reflexivity.
  - discriminate.
Defined.

Lemma call_openai_embeddings_fatal_witness :
  call_openai_embeddings (Sample.service_denied_after 0) [lit "text"] MODEL
    (Sample.world3 "resume")
  = (Raise RuntimeError, posted (Sample.world3 "resume"))
  /\ call_openai_embeddings Sample.service_no_data [lit "text"] MODEL
       (Sample.world3 "resume")
     = (Raise RuntimeError, posted (Sample.world3 "resume"))
  /\ call_openai_embeddings Sample.service_null [lit "text"] MODEL
       (Sample.world3 "resume")
     = (Raise TypeError, posted (Sample.world3 "resume")).
Proof.
  split; [|split].
  - destruct (call_openai_embeddings_fatal (Sample.service_denied_after 0)
                [lit "text"] MODEL (Sample.world3 "resume") 401 NoData eq_refl)
      as (Hstatus & _).
    apply Hstatus; [discriminate|reflexivity].
  - destruct (call_openai_embeddings_fatal Sample.service_no_data
                [lit "text"] MODEL (Sample.world3 "resume") 200 NoData eq_refl)
      as (_ & Hshape & _).
    apply Hshape; reflexivity.
  - destruct (call_openai_embeddings_fatal Sample.service_null
                [lit "text"] MODEL (Sample.world3 "resume") 200 (Unusable TypeError)
                eq_refl)
      as (_ & _ & Hraise).
    apply Hraise; reflexivity.
Defined.

End ClientFacts.
(** ** More on the ranker *)

Module RankerFacts.
Import Float FloatFacts SortFacts Stage4 Stage4Facts.

Lemma mul32_comm x y : mul32 x y = mul32 y x.
Proof.
  unfold mul32.
  destruct x as [sx|sx| |sx mx ex], y as [sy|sy| |sy my ey]; simpl;
    try reflexivity; try (now rewrite xorb_comm).
  now rewrite xorb_comm, Pos.mul_comm, Z.add_comm.
Qed.

Lemma sorted_app_dominates {A} (R : A -> A -> Prop) l1 l2 :
  StronglySorted R (l1 ++ l2) ->
  forall x y, In x l1 -> In y l2 -> R x y.
Proof.
  induction l1 as [|a l1 IH]; intros Hs x y Hx Hy; [contradiction|].
  simpl in Hs. apply StronglySorted_inv in Hs. destruct Hs as [Hs Ha].
  destruct Hx as [<-|Hx].
  - rewrite List.Forall_forall in Ha. apply Ha, in_or_app. now right.
  - now apply IH.
Qed.

Section Ranker.
Variable sdot : list spec_float -> list spec_float -> spec_float.
Variable nrm2 : list spec_float -> spec_float.
Variable fmt6 : spec_float -> string.
Variable dict_slice_error : exn.

(** With a dot product that does not depend on the order of its
    arguments, neither does the similarity: the same value, or the same
    error, either way round. *)
Theorem safe_cosine_similarity_sym :
  (forall a b, sdot a b = sdot b a) ->
  forall a b,
    safe_cosine_similarity sdot nrm2 a b = safe_cosine_similarity sdot nrm2 b a.
Proof.
  intros Hsym a b. unfold safe_cosine_similarity, np_dot, cosine.
  rewrite (orb_comm (eqb (nrm2 a) zero)), (Nat.eqb_sym (length a)).
  now rewrite (Hsym a b), (mul32_comm (nrm2 a)).
Qed.


(** Running the ranker again on the files a successful run leaves gives
    the same results and leaves the same files, as long as its inputs are
    not named like its outputs. *)
Theorem rank_jobs_idempotent jobs_file resume_file top_n fs top fs' :
  jobs_file <> OUTPUT_JSON -> jobs_file <> OUTPUT_CSV ->
  resume_file <> OUTPUT_JSON -> resume_file <> OUTPUT_CSV ->
  rank_jobs sdot nrm2 fmt6 dict_slice_error jobs_file resume_file top_n fs = (Ok top, fs') ->
  rank_jobs sdot nrm2 fmt6 dict_slice_error jobs_file resume_file top_n fs' = (Ok top, fs').
Proof.
  intros Hj1 Hj2 Hr1 Hr2 Hrun. unfold rank_jobs in *.
  destruct (load_jobs_embeddings fs jobs_file) as [jobs|e] eqn:Hjobs; [|discriminate].
  destruct (load_resume_embedding fs resume_file) as [resume_vec|e] eqn:Hresume;
    [|discriminate].
  destruct (results_sorted sdot nrm2 resume_vec jobs) as [all_sorted|e] eqn:Hsorted;
    [|discriminate].
  cbv zeta in Hrun.
  destruct (print_rows dict_slice_error (slice_to all_sorted top_n)) as [[]|e]
    eqn:Hprint; [|discriminate].
  injection Hrun as <- <-.
  unfold load_jobs_embeddings, load_resume_embedding in *.
  rewrite !lookup_insert_ne by congruence.
  rewrite Hjobs, Hresume, Hsorted. cbv zeta. rewrite Hprint. f_equal.
  rewrite (insert_id _ OUTPUT_JSON).
  - apply insert_id, lookup_insert_eq.
  - rewrite lookup_insert_ne by discriminate. apply lookup_insert_eq.
Qed.

(** The results are the best candidates: on a well-formed jobs file and
    for a requested number that is not negative, the sorted candidates are
    the results followed by the candidates left out, and no candidate left
    out has a greater similarity than a result. *)
Theorem top_results_dominate fs jobs_file resume_file top_n lines o resume_vec :
  fs !! jobs_file = Some (JobsEmbeddings lines) ->
  fs !! resume_file = Some (ResumeFile o) ->
  re_embedding o = Some resume_vec ->
  Forall (well_formed (length resume_vec)) lines ->
  0 <= top_n ->
  exists all_sorted top rest fs',
    results_sorted sdot nrm2 resume_vec (candidates lines) = Ok all_sorted
    /\ rank_jobs sdot nrm2 fmt6 dict_slice_error jobs_file resume_file top_n fs = (Ok top, fs')
    /\ all_sorted = top ++ rest
    /\ forall t r, In t top -> In r rest ->
                   leb (r_similarity r) (r_similarity t) = true.
Proof.
  intros Hjobs Hresume Hemb Hwf Htop.
  destruct (rank_jobs_ok sdot nrm2 fmt6 dict_slice_error fs jobs_file resume_file top_n lines o
              resume_vec Hjobs Hresume Hemb Hwf)
    as (results & _ & Hnan & Hsorted & Hrun).
  exists (sorted_reverse r_similarity results).
  exists (firstn (Z.to_nat top_n) (sorted_reverse r_similarity results)).
  exists (skipn (Z.to_nat top_n) (sorted_reverse r_similarity results)).
  eexists. split; [exact Hsorted|].
  split; [rewrite Hrun, slice_to_nonneg by assumption; reflexivity|].
  split; [now rewrite firstn_skipn|].
  apply (sorted_app_dominates
           (fun x y => leb (r_similarity y) (r_similarity x) = true)).
  rewrite firstn_skipn. apply sorted_reverse_nonincreasing, Hnan.
Qed.

(** What the ranker does with inputs it cannot use: a missing jobs file
    or resume file is a [FileNotFoundError], a resume object without an
    embedding a [ValueError], and so is a candidate whose dimension is not
    the resume's when neither norm is zero. *)
Theorem rank_jobs_input_errors jobs_file resume_file top_n fs :
  (fs !! jobs_file = None ->
   rank_jobs sdot nrm2 fmt6 dict_slice_error jobs_file resume_file top_n fs = (Raise FileNotFoundError, fs))
  /\ (forall lines,
        fs !! jobs_file = Some (JobsEmbeddings lines) ->
        Forall (fun line => line = BlankLine \/ exists c, candidate_of line = Some c)
               lines ->
        (fs !! resume_file = None ->
         rank_jobs sdot nrm2 fmt6 dict_slice_error jobs_file resume_file top_n fs
         = (Raise FileNotFoundError, fs))
        /\ (forall o,
              fs !! resume_file = Some (ResumeFile o) ->
              re_embedding o = None ->
              rank_jobs sdot nrm2 fmt6 dict_slice_error jobs_file resume_file top_n fs
              = (Raise ValueError, fs)))
  /\ (forall a b,
        length a <> length b ->
        eqb (nrm2 a) zero = false ->
        eqb (nrm2 b) zero = false ->
        safe_cosine_similarity sdot nrm2 a b = Raise ValueError).
Proof.
  split.
  { intros H. unfold rank_jobs, load_jobs_embeddings. now rewrite H. }
  split.
  { intros lines Hjobs Hlines.
    unfold rank_jobs, load_jobs_embeddings, load_resume_embedding.
    rewrite Hjobs, (RecordFacts.load_lines_skips_blank lines [] Hlines).
    split; [now intros ->|]. intros o -> Hnone. now rewrite Hnone. }
  intros a b Hlen Ha Hb. unfold safe_cosine_similarity, np_dot.
  rewrite Ha, Hb. simpl. apply Nat.eqb_neq in Hlen. now rewrite Hlen.
Qed.

End Ranker.

Lemma seq_dot_sym a b : Sample.seq_dot a b = Sample.seq_dot b a.
Proof.
  unfold Sample.seq_dot. generalize zero as s. revert b.
  induction a as [|x a IH]; intros [|y b] s; simpl; try reflexivity.
  now rewrite IH, (mul32_comm x y).
Qed.

Lemma safe_cosine_similarity_sym_witness :
  safe_cosine_similarity Sample.seq_dot Sample.seq_norm
    [Sample.nine_tenths; Sample.one_tenth] [one; zero]
  = safe_cosine_similarity Sample.seq_dot Sample.seq_norm
      [one; zero] [Sample.nine_tenths; Sample.one_tenth].
Proof.
  apply (safe_cosine_similarity_sym Sample.seq_dot Sample.seq_norm seq_dot_sym).
Defined.

Lemma rank_jobs_idempotent_witness :
  exists top fs',
    Sample.rank 2 Sample.files = (Ok top, fs')
    /\ Sample.rank 2 fs' = (Ok top, fs').
Proof.
  eexists. eexists. split; [vm_compute; reflexivity|].
  apply (rank_jobs_idempotent Sample.seq_dot Sample.seq_norm Sample.fixed6 TypeError
           DEFAULT_JOBS_FILE DEFAULT_RESUME_FILE 2 Sample.files);
    try discriminate.
  vm_compute. reflexivity.
Defined.

Lemma top_results_dominate_witness :
  Forall (well_formed 2) Sample.lines
  /\ exists all_sorted top rest fs',
       results_sorted Sample.seq_dot Sample.seq_norm [one; zero]
         (candidates Sample.lines) = Ok all_sorted
       /\ Sample.rank 2 Sample.files = (Ok top, fs')
       /\ all_sorted = top ++ rest
       /\ forall t r, In t top -> In r rest ->
                      leb (r_similarity r) (r_similarity t) = true.
Proof.
  split; [exact sample_lines_well_formed|].
  apply (top_results_dominate Sample.seq_dot Sample.seq_norm Sample.fixed6 TypeError
           Sample.files DEFAULT_JOBS_FILE DEFAULT_RESUME_FILE 2
           Sample.lines Sample.resume_obj [one; zero]).
  - reflexivity.
  - reflexivity.
  - reflexivity.
  - exact sample_lines_well_formed.
  - lia.
Defined.


End RankerFacts.

(** ** More on acquisition *)

Module AcquisitionFacts.
Import Stage1 Stage1Facts.

(** *** Finding the job list *)

Lemma is_list_of_dicts_found v l :
  is_list_of_dicts v = Some l ->
  v = JList l /\ exists x rest, l = JDict x :: rest.
Proof.
  destruct v as [| | | |[|[| | | | |x] rest]|]; simpl; try discriminate.
  intros [= <-]. eauto.
Qed.

Lemma first_list_found d keys l :
  first_list d keys = Some l -> exists key, In key keys /\ jget d key = JList l.
Proof.
  induction keys as [|key keys IH]; simpl; [discriminate|].
  destruct (jget d key) eqn:Hget;
    try (intros H; destruct (IH H) as (k & Hin & Hk); now eauto).
  intros [= ->]. eauto.
Qed.

Lemma first_list_of_dicts_found items l :
  first_list_of_dicts items = Some l ->
  exists k, In (k, JList l) items /\ exists x rest, l = JDict x :: rest.
Proof.
  induction items as [|[k v] items IH]; simpl; [discriminate|].
  destruct (is_list_of_dicts v) as [l'|] eqn:Hv.
  - intros [= ->]. apply is_list_of_dicts_found in Hv. destruct Hv as [-> Hl].
    exists k. split; [now left|exact Hl].
  - intros H. destruct (IH H) as (k' & Hin & Hl). exists k'. split; [now right|exact Hl].
Qed.

Lemma first_list_prefers d earlier key later l :
  Forall (fun k => forall l', jget d k <> JList l') earlier ->
  jget d key = JList l ->
  first_list d (earlier ++ key :: later) = Some l.
Proof.
  intros Hearlier Hkey. induction Hearlier as [|k earlier Hk _ IH]; simpl.
  - now rewrite Hkey.
  - destruct (jget d k) as [| | | |l'|] eqn:Hget; try exact IH.
    now contradiction (Hk l').
Qed.

Lemma first_list_none d keys :
  Forall (fun k => forall l', jget d k <> JList l') keys ->
  first_list d keys = None.
Proof.
  induction 1 as [|k keys Hk _ IH]; simpl; [reflexivity|].
  destruct (jget d k) as [| | | |l'|] eqn:Hget; try exact IH.
  now contradiction (Hk l').
Qed.

Lemma first_list_of_dicts_prefers before k v after l :
  Forall (fun item => is_list_of_dicts (snd item) = None) before ->
  is_list_of_dicts v = Some l ->
  first_list_of_dicts (before ++ (k, v) :: after) = Some l.
Proof.
  intros Hbefore Hv. induction Hbefore as [|[k' v'] before Hk _ IH]; simpl.
  - now rewrite Hv.
  - simpl in Hk. now rewrite Hk.
Qed.

Lemma first_list_of_dicts_none items :
  Forall (fun item => is_list_of_dicts (snd item) = None) items ->
  first_list_of_dicts items = None.
Proof.
  induction 1 as [|[k v] items Hk _ IH]; simpl; [reflexivity|].
  simpl in Hk. now rewrite Hk.
Qed.

(** Where [find_jobs] finds the job list, in its order of preference. In
    an object, the list under ["returnvalue"]["data"] is returned whenever
    it is there. Without it, the list under the first of the keys data,
    results, items, jobs, listings whose value is a list is returned,
    whatever the list holds and whatever the other keys hold. Without any
    of those, the value of the first key, in the order of the object,
    that is a list starting with an object is returned, and nothing when
    there is none. A response that is itself a list is returned when it
    starts with an object. Nothing is found in [null], a string, a number
    or a boolean. So what is returned is always a list of the response. *)
Theorem find_jobs_found obj :
  (forall l,
     find_jobs obj = Some l ->
     (obj = JList l /\ exists x rest, l = JDict x :: rest)
     \/ exists d,
          obj = JDict d
          /\ ((exists rv, jget d "returnvalue" = JDict rv /\ jget rv "data" = JList l)
              \/ (exists key,
                    In key ["data"; "results"; "items"; "jobs"; "listings"]%string
                    /\ jget d key = JList l)
              \/ (exists k, In (k, JList l) d /\ exists x rest, l = JDict x :: rest)))
  /\ (forall d rv l,
        obj = JDict d ->
        jget d "returnvalue" = JDict rv ->
        jget rv "data" = JList l ->
        find_jobs obj = Some l)
  /\ (forall d,
        obj = JDict d ->
        (forall rv l, jget d "returnvalue" = JDict rv -> jget rv "data" <> JList l) ->
        (forall earlier key later l,
           ["data"; "results"; "items"; "jobs"; "listings"]%string
           = earlier ++ key :: later ->
           Forall (fun k => forall l', jget d k <> JList l') earlier ->
           jget d key = JList l ->
           find_jobs obj = Some l)
        /\ (Forall (fun k => forall l', jget d k <> JList l')
                   ["data"; "results"; "items"; "jobs"; "listings"]%string ->
            (forall before k v after l,
               d = before ++ (k, v) :: after ->
               Forall (fun item => is_list_of_dicts (snd item) = None) before ->
               is_list_of_dicts v = Some l ->
               find_jobs obj = Some l)
            /\ (Forall (fun item => is_list_of_dicts (snd item) = None) d ->
                find_jobs obj = None)))
  /\ (forall l, obj = JList l -> find_jobs obj = is_list_of_dicts (JList l))
  /\ (is_dict obj = false ->
      (forall l, obj <> JList l) ->
      find_jobs obj = None).
Proof.
  split; [|split; [|split; [|split]]].
  - intros l. destruct obj as [| | | |items|d]; try discriminate.
    + intros H. left. change (is_list_of_dicts (JList items) = Some l) in H.
      now apply is_list_of_dicts_found in H.
    + intros H. right. exists d. split; [reflexivity|].
      unfold find_jobs in H. cbv beta iota zeta in H.
      assert (Hrest : match first_list d ["data"; "results"; "items"; "jobs"; "listings"]%string with
                      | Some l0 => Some l0
                      | None => first_list_of_dicts d
                      end = Some l ->
                      (exists key,
                         In key ["data"; "results"; "items"; "jobs"; "listings"]%string
                         /\ jget d key = JList l)
                      \/ (exists k, In (k, JList l) d
                                    /\ exists x rest, l = JDict x :: rest)).
      { destruct (first_list d _) as [l'|] eqn:Hfirst.
        - intros [= ->]. left. now apply first_list_found in Hfirst.
        - intros H'. right. now apply first_list_of_dicts_found. }
      destruct (jget d "returnvalue") as [| | | | |rv] eqn:Hrv; try (right; now apply Hrest).
      destruct (jget rv "data") as [| | | |l'|] eqn:Hdata; try (right; now apply Hrest).
      injection H as ->. left. eauto.
  - intros d rv l -> Hrv Hdata. unfold find_jobs. now rewrite Hrv, Hdata.
  - intros d -> Hnorv.
    assert (Hskip : find_jobs (JDict d)
                    = match first_list d ["data"; "results"; "items"; "jobs"; "listings"]%string with
                      | Some l => Some l
                      | None => first_list_of_dicts d
                      end).
    { unfold find_jobs. cbv beta iota zeta.
      destruct (jget d "returnvalue") as [| | | | |rv] eqn:Hrv; try reflexivity.
      destruct (jget rv "data") as [| | | |l'|] eqn:Hdata; try reflexivity.
      now contradiction (Hnorv rv l'). }
    split.
    + intros earlier key later l Hnames Hearlier Hkey.
      rewrite Hskip, Hnames.
      now rewrite (first_list_prefers d earlier key later l Hearlier Hkey).
    + intros Hnone. rewrite Hskip, (first_list_none d _ Hnone). split.
      * intros before k v after l -> Hbefore Hv.
        now apply first_list_of_dicts_prefers.
      * apply first_list_of_dicts_none.
  - now intros l ->.
  - intros Hd Hl. destruct obj; try reflexivity; [|discriminate].
    now contradiction (Hl l).
Qed.

(** A key that is not one of the named ones holds a list of postings and
    comes first; ["jobs"] holds a list of numbers: the named key wins. *)
Example find_jobs_prefers_named_keys :
  find_jobs Sample.response_two_lists = Some [JNum 7].
Proof. reflexivity. Qed.

Section Acquisition.
Variable soup_text : str -> str.
Variable py_str : json -> str.

(** *** Records that can be flattened *)

Lemma flatten_job_ok job :
  jtruthy (jget job "descriptionHtml") = false
  \/ (exists s, jget job "descriptionHtml" = JStr s) ->
  jtruthy (jget job "salary") = false \/ is_dict (jget job "salary") = true ->
  exists f,
    flatten_job soup_text py_str job = Ok f
    /\ f_raw f = JDict job
    /\ f_title f = jget job "title"
    /\ f_job_key f = jor (jor (jget job "jobKey") (jget job "id")) (jget job "job_id").
Proof.
  intros Hhtml Hsalary.
  assert (Hs : exists sd, jor (jget job "salary") (JDict []) = JDict sd).
  { unfold jor. destruct Hsalary as [->|Hd]; [eauto|].
    destruct (jget job "salary"); try discriminate.
    destruct (jtruthy (JDict d)); eauto. }
  destruct Hs as [sd Hs].
  assert (Hd : exists desc,
            (if jtruthy (jget job "descriptionHtml")
             then (try! t := html_to_text soup_text (jget job "descriptionHtml") in
                   Ok (JStr t))%result
             else Ok (jor (jor (jor (jget job "descriptionText") (jget job "description"))
                               (jget job "snippet")) (JStr []))) = Ok desc).
  { destruct Hhtml as [->|[s ->]]; [eauto|].
    unfold html_to_text. destruct (jtruthy (JStr s)); simpl; eauto. }
  destruct Hd as [desc Hd].
  unfold flatten_job. rewrite Hd, Hs. simpl.
  destruct (jor (jget job "location") (JDict [])); eexists; repeat split.
Qed.

(** A job list in which every object has a description markup that is
    absent or a string, and a salary that is absent or an object, is
    flattened without error: one flattened record per object, in order. *)
Theorem flatten_all_total jobs :
  Forall (fun j =>
            match j with
            | JDict job =>
                (jtruthy (jget job "descriptionHtml") = false
                 \/ exists s, jget job "descriptionHtml" = JStr s)
                /\ (jtruthy (jget job "salary") = false
                    \/ is_dict (jget job "salary") = true)
            | _ => True
            end) jobs ->
  exists flattened,
    flatten_all soup_text py_str jobs = Ok flattened
    /\ map f_raw flattened = List.filter is_dict jobs
    /\ map f_title flattened
       = map (fun j => match j with JDict job => jget job "title" | _ => JNull end)
             (List.filter is_dict jobs).
Proof.
  induction 1 as [|j jobs Hj _ IH]; simpl.
  - exists []. repeat split.
  - destruct IH as (flattened & Hflat & Hraw & Htitle).
    destruct j as [| | | | |job]; simpl; try (exists flattened; now repeat split).
    destruct Hj as [Hhtml Hsalary].
    destruct (flatten_job_ok job Hhtml Hsalary) as (f & Hf & Hfraw & Hftitle & _).
    exists (f :: flattened). rewrite Hf, Hflat. simpl.
    now rewrite Hfraw, Hraw, Hftitle, Htitle.
Qed.

(** *** What a run saves *)


End Acquisition.

Lemma flatten_all_total_witness :
  exists flattened,
    flatten_all Sample.plain_text Sample.scalar_str
      [Sample.posting "j1" "Engineer"; JStr (lit "not a record"); Sample.posting "j2" "Analyst"]
    = Ok flattened
    /\ map f_title flattened = [JStr (lit "Engineer"); JStr (lit "Analyst")].
Proof.
  destruct (flatten_all_total Sample.plain_text Sample.scalar_str
              [Sample.posting "j1" "Engineer"; JStr (lit "not a record");
               Sample.posting "j2" "Analyst"])
    as (flattened & Hflat & _ & Htitle).
  { repeat constructor. }
  exists flattened. split; [exact Hflat|exact Htitle].
Defined.

End AcquisitionFacts.

(** ** More on the orchestrator *)

Module ControllerFacts.
Import Orchestrator OrchestratorFacts.

Section Run.
Context {F : Type}.
Variable subprocess_run :
  list string -> option Z -> gmap string str -> gmap string F -> proc * gmap string F.

Lemma failed_frame n rc stop_on_error (w : world F) :
  ran (snd (failed n rc stop_on_error w)) = ran w
  /\ env (snd (failed n rc stop_on_error w)) = env w.
Proof. unfold failed. now destruct (negb (rc =? 0) && stop_on_error). Qed.

(** Launching a script and checking its code: the command is recorded,
    the environment kept; and when the block returns, the failure of that
    stage is the last thing printed and its command the last one run. *)
Lemma launch_effect script sargs n stop_on_error (w : world F) :
  ran (snd (let '(rc, w1) := run_script subprocess_run script sargs None w in
            failed n rc stop_on_error w1)) = (script :: sargs) :: ran w
  /\ env (snd (let '(rc, w1) := run_script subprocess_run script sargs None w in
               failed n rc stop_on_error w1)) = env w
  /\ forall rc w',
       (let '(rc, w1) := run_script subprocess_run script sargs None w in
        failed n rc stop_on_error w1) = (Some rc, w') ->
       head (printed w') = Some (StageFailed n)
       /\ head (ran w') = Some (script :: sargs).
Proof.
  pose proof (run_script_ran subprocess_run script sargs None w) as (Hran & _ & Henv).
  destruct (run_script subprocess_run script sargs None w) as [rc w1]. simpl in *.
  destruct (failed_frame n rc stop_on_error w1) as [Hr He].
  split; [congruence|]. split; [congruence|].
  intros rc' w'. unfold failed.
  destruct (negb (rc =? 0) && stop_on_error); [|discriminate].
  intros [= <- <-]. simpl. now rewrite Hran.
Qed.

Lemma stage1_effect args stop_on_error runs (w : world F) :
  exists r : bool,
    ran (snd (stage1 subprocess_run args stop_on_error runs w))
    = (if r then [[STAGE1_SCRIPT]] else []) ++ ran w
    /\ env (snd (stage1 subprocess_run args stop_on_error runs w)) = env w
    /\ forall rc w',
         stage1 subprocess_run args stop_on_error runs w = (Some rc, w') ->
         head (printed w') = Some (StageFailed 1)
         /\ head (ran w') = Some [STAGE1_SCRIPT].
Proof.
  unfold stage1.
  destruct (skip_stage1 args); [exists false; split; [reflexivity|]; split; [reflexivity|]; discriminate|].
  destruct (SKIP_IF_OUTPUT_EXISTS && _ && _); [exists false; split; [reflexivity|]; split; [reflexivity|]; discriminate|].
  destruct (Nat.leb MAX_STAGE1_RUNS runs); [exists false; split; [reflexivity|]; split; [reflexivity|]; discriminate|].
  exists true.
  match goal with |- context [run_script subprocess_run _ _ _ ?w0] =>
    destruct (launch_effect STAGE1_SCRIPT [] 1%nat stop_on_error w0) as (Hr & He & Hf);
    assert (Hran0 : ran w0 = ran w) by (now destruct (truthy _));
    assert (Henv0 : env w0 = env w) by (now destruct (truthy _))
  end.
  rewrite Hr, He, Hran0, Henv0. split; [reflexivity|]. split; [reflexivity|exact Hf].
Qed.

Lemma stage2_effect args stop_on_error (w : world F) :
  exists (r : bool) a2,
    ran (snd (stage2 subprocess_run args stop_on_error w))
    = (if r then [STAGE2_SCRIPT :: a2] else []) ++ ran w
    /\ (a2 = [] \/ a2 = [resume_path args])
    /\ env (snd (stage2 subprocess_run args stop_on_error w)) = env w
    /\ forall rc w',
         stage2 subprocess_run args stop_on_error w = (Some rc, w') ->
         head (printed w') = Some (StageFailed 2)
         /\ head (ran w') = Some (STAGE2_SCRIPT :: a2).
Proof.
  unfold stage2.
  destruct (skip_stage2 args); [exists false, []; repeat split; (auto || discriminate)|].
  destruct (SKIP_IF_OUTPUT_EXISTS && _);
    [exists false, []; repeat split; (auto || discriminate)|].
  match goal with |- context [run_script subprocess_run _ ?a _ _] =>
    exists true, a;
    destruct (launch_effect STAGE2_SCRIPT a 2%nat stop_on_error w) as (Hr & He & Hf)
  end.
  rewrite Hr, He. split; [reflexivity|].
  split; [destruct (path_exists (fs w) (resume_path args)); auto|].
  split; [reflexivity|exact Hf].
Qed.

Lemma stage3_effect args stop_on_error (w : world F) :
  exists r : bool,
    ran (snd (stage3 subprocess_run args stop_on_error w))
    = (if r then [[STAGE3_SCRIPT]] else []) ++ ran w
    /\ env (snd (stage3 subprocess_run args stop_on_error w)) = env w
    /\ forall rc w',
         stage3 subprocess_run args stop_on_error w = (Some rc, w') ->
         (head (printed w') = Some (StageFailed 3)
          /\ head (ran w') = Some [STAGE3_SCRIPT])
         \/ (head (printed w') = Some (KeyWarning "OPENAI_API_KEY")
             /\ rc = 1 /\ ran w' = ran w).
Proof.
  unfold stage3.
  destruct (skip_stage3 args); [exists false; split; [reflexivity|]; split; [reflexivity|]; discriminate|].
  destruct (stage3_outputs_exist (fs w)); [exists false; split; [reflexivity|]; split; [reflexivity|]; discriminate|].
  destruct (negb (truthy (getenv w "OPENAI_API_KEY"))).
  - exists false. split; [now destruct stop_on_error|].
    split; [now destruct stop_on_error|].
    intros rc w' H. right. destruct stop_on_error; [|discriminate].
    injection H as <- <-. now repeat split.
  - exists true.
    destruct (launch_effect STAGE3_SCRIPT [] 3%nat stop_on_error w) as (Hr & He & Hf).
    rewrite Hr, He. split; [reflexivity|]. split; [reflexivity|].
    intros rc w' H. left. exact (Hf rc w' H).
Qed.

Lemma stage4_effect args stop_on_error (w : world F) :
  exists r : bool,
    ran (snd (stage4 subprocess_run args stop_on_error w))
    = (if r then [[STAGE4_SCRIPT]] else []) ++ ran w
    /\ env (snd (stage4 subprocess_run args stop_on_error w)) = env w
    /\ forall rc w',
         stage4 subprocess_run args stop_on_error w = (Some rc, w') ->
         head (printed w') = Some (StageFailed 4)
         /\ head (ran w') = Some [STAGE4_SCRIPT].
Proof.
  unfold stage4.
  destruct (skip_stage4 args); [exists false; split; [reflexivity|]; split; [reflexivity|]; discriminate|].
  destruct (SKIP_IF_OUTPUT_EXISTS && _); [exists false; split; [reflexivity|]; split; [reflexivity|]; discriminate|].
  exists true.
  destruct (launch_effect STAGE4_SCRIPT [] 4%nat stop_on_error w) as (Hr & He & Hf).
  rewrite Hr, He. split; [reflexivity|]. split; [reflexivity|exact Hf].
Qed.

(** The scripts are launched in the order of the stages, each at most
    once: the commands an orchestrator run adds to those run before are,
    latest first, Stage 4's, Stage 3's, Stage 2's and Stage 1's, each
    present or not. Stage 2 is given the resume path or nothing, and the
    environment is left as it was. *)
Theorem orchestrate_launches args (w : world F) :
  exists (r1 r2 r3 r4 : bool) a2,
    ran (snd (orchestrate subprocess_run args w))
    = (if r4 then [[STAGE4_SCRIPT]] else [])
      ++ (if r3 then [[STAGE3_SCRIPT]] else [])
      ++ (if r2 then [STAGE2_SCRIPT :: a2] else [])
      ++ (if r1 then [[STAGE1_SCRIPT]] else [])
      ++ ran w
    /\ (a2 = [] \/ a2 = [resume_path args])
    /\ env (snd (orchestrate subprocess_run args w)) = env w.
Proof.
  unfold orchestrate.
  destruct (stage1_effect args (negb (continue_on_error args)) 0%nat w)
    as (r1 & H1r & H1e & _).
  destruct (stage1 subprocess_run args (negb (continue_on_error args)) 0%nat w)
    as [[rc1|] w1]; simpl in H1r, H1e.
  { exists r1, false, false, false, []. simpl. auto. }
  destruct (stage2_effect args (negb (continue_on_error args)) w1)
    as (r2 & a2 & H2r & Ha2 & H2e & _).
  destruct (stage2 subprocess_run args (negb (continue_on_error args)) w1)
    as [[rc2|] w2]; simpl in H2r, H2e.
  { exists r1, r2, false, false, a2. simpl. rewrite H2r, H2e, H1r, H1e. auto. }
  destruct (stage3_effect args (negb (continue_on_error args)) w2)
    as (r3 & H3r & H3e & _).
  destruct (stage3 subprocess_run args (negb (continue_on_error args)) w2)
    as [[rc3|] w3]; simpl in H3r, H3e.
  { exists r1, r2, r3, false, a2. simpl. rewrite H3r, H3e, H2r, H2e, H1r, H1e. auto. }
  destruct (stage4_effect args (negb (continue_on_error args)) w3)
    as (r4 & H4r & H4e & _).
  destruct (stage4 subprocess_run args (negb (continue_on_error args)) w3)
    as [[rc4|] w4]; simpl in H4r, H4e;
    exists r1, r2, r3, r4, a2; simpl;
    rewrite H4r, H4e, H3r, H3e, H2r, H2e, H1r, H1e; auto.
Qed.

(** When every stage is skipped, by its flag or because its output is
    there (and Stage 1 is not forced), the orchestrator launches nothing,
    prints that the pipeline completed and returns 0. *)
Theorem orchestrate_nothing_to_do args (w : world F) :
  skip_stage1 args = true
  \/ (path_exists (fs w) STAGE1_OUT = true /\ force_stage1 args = false) ->
  skip_stage2 args = true \/ path_exists (fs w) STAGE2_OUT_JSON = true ->
  skip_stage3 args = true
  \/ (path_exists (fs w) STAGE3_JOBS_EMBED = true
      /\ path_exists (fs w) STAGE3_RESUME_EMBED = true) ->
  skip_stage4 args = true \/ path_exists (fs w) STAGE4_TOP = true ->
  orchestrate subprocess_run args w = (0, print PipelineCompleted w).
Proof.
  intros H1 H2 H3 H4. unfold orchestrate.
  assert (E1 : stage1 subprocess_run args (negb (continue_on_error args)) 0%nat w
               = (None, w)).
  { unfold stage1. destruct H1 as [-> | [-> ->]]; [reflexivity|].
    now destruct (skip_stage1 args). }
  assert (E2 : stage2 subprocess_run args (negb (continue_on_error args)) w = (None, w)).
  { unfold stage2. destruct H2 as [-> | ->]; [reflexivity|].
    now destruct (skip_stage2 args). }
  assert (E3 : stage3 subprocess_run args (negb (continue_on_error args)) w = (None, w)).
  { unfold stage3, stage3_outputs_exist. destruct H3 as [-> | [-> ->]]; [reflexivity|].
    now destruct (skip_stage3 args). }
  assert (E4 : stage4 subprocess_run args (negb (continue_on_error args)) w = (None, w)).
  { unfold stage4. destruct H4 as [-> | ->]; [reflexivity|].
    now destruct (skip_stage4 args). }
  now rewrite E1, E2, E3, E4.
Qed.

(** The orchestrator returns a code that is not 0 only when errors stop
    the pipeline, and then either Stage 3 found no key and the code is 1,
    or a stage failed and its command is the last one launched: no stage
    is started after a failure. *)
Theorem orchestrate_fail_fast args (w : world F) :
  fst (orchestrate subprocess_run args w) <> 0 ->
  continue_on_error args = false
  /\ ((head (printed (snd (orchestrate subprocess_run args w)))
       = Some (KeyWarning "OPENAI_API_KEY")
       /\ fst (orchestrate subprocess_run args w) = 1)
      \/ exists n script sargs,
           nth_error [STAGE1_SCRIPT; STAGE2_SCRIPT; STAGE3_SCRIPT; STAGE4_SCRIPT] n
           = Some script
           /\ head (printed (snd (orchestrate subprocess_run args w)))
              = Some (StageFailed (S n))
           /\ head (ran (snd (orchestrate subprocess_run args w)))
              = Some (script :: sargs)).
Proof.
  unfold orchestrate.
  pose proof (stage1_returns subprocess_run args (negb (continue_on_error args)) 0%nat w)
    as R1.
  destruct (stage1_effect args (negb (continue_on_error args)) 0%nat w)
    as (_ & _ & _ & F1).
  destruct (stage1 subprocess_run args (negb (continue_on_error args)) 0%nat w)
    as [[rc1|] w1].
  { intros _. destruct R1 as (_ & Hstop & _). apply negb_true_iff in Hstop.
    split; [exact Hstop|]. right. exists 0%nat, STAGE1_SCRIPT, [].
    destruct (F1 rc1 w1 eq_refl). now repeat split. }
  pose proof (stage2_returns subprocess_run args (negb (continue_on_error args)) w1) as R2.
  destruct (stage2_effect args (negb (continue_on_error args)) w1)
    as (_ & a2 & _ & _ & _ & F2).
  destruct (stage2 subprocess_run args (negb (continue_on_error args)) w1)
    as [[rc2|] w2].
  { intros _. destruct R2 as (_ & Hstop & _). apply negb_true_iff in Hstop.
    split; [exact Hstop|]. right. exists 1%nat, STAGE2_SCRIPT, a2.
    destruct (F2 rc2 w2 eq_refl). now repeat split. }
  pose proof (stage3_returns subprocess_run args (negb (continue_on_error args)) w2) as R3.
  destruct (stage3_effect args (negb (continue_on_error args)) w2)
    as (_ & _ & _ & F3).
  destruct (stage3 subprocess_run args (negb (continue_on_error args)) w2)
    as [[rc3|] w3].
  { intros _. destruct R3 as (_ & Hstop & _). apply negb_true_iff in Hstop.
    split; [exact Hstop|].
    destruct (F3 rc3 w3 eq_refl) as [[Hp Hr]|(Hp & Hrc & _)].
    - right. exists 2%nat, STAGE3_SCRIPT, []. now repeat split.
    - left. now split. }
  pose proof (stage4_returns subprocess_run args (negb (continue_on_error args)) w3) as R4.
  destruct (stage4_effect args (negb (continue_on_error args)) w3)
    as (_ & _ & _ & F4).
  destruct (stage4 subprocess_run args (negb (continue_on_error args)) w3)
    as [[rc4|] w4].
  { intros _. destruct R4 as (_ & Hstop & _). apply negb_true_iff in Hstop.
    split; [exact Hstop|]. right. exists 3%nat, STAGE4_SCRIPT, [].
    destruct (F4 rc4 w4 eq_refl). now repeat split. }
  simpl. intros H. now contradiction H.
Qed.

End Run.

Lemma orchestrate_nothing_to_do_witness :
  orchestrate Sample.scripts Sample.args0 Sample.rerun
  = (0, print PipelineCompleted Sample.rerun).
Proof.
  apply (orchestrate_nothing_to_do Sample.scripts Sample.args0 Sample.rerun).
  - right. split; reflexivity.
  - right. reflexivity.
  - right. split; reflexivity.
  - right. reflexivity.
Defined.

Lemma orchestrate_fail_fast_witness :
  fst (orchestrate Sample.scripts Sample.args0 (Sample.fresh Sample.env_openai_only))
  <> 0
  /\ continue_on_error Sample.args0 = false
  /\ ((head (printed (snd (orchestrate Sample.scripts Sample.args0
                             (Sample.fresh Sample.env_openai_only))))
       = Some (KeyWarning "OPENAI_API_KEY")
       /\ fst (orchestrate Sample.scripts Sample.args0
                 (Sample.fresh Sample.env_openai_only)) = 1)
      \/ exists n script sargs,
           nth_error [STAGE1_SCRIPT; STAGE2_SCRIPT; STAGE3_SCRIPT; STAGE4_SCRIPT] n
           = Some script
           /\ head (printed (snd (orchestrate Sample.scripts Sample.args0
                                    (Sample.fresh Sample.env_openai_only))))
              = Some (StageFailed (S n))
           /\ head (ran (snd (orchestrate Sample.scripts Sample.args0
                                (Sample.fresh Sample.env_openai_only))))
              = Some (script :: sargs)).
Proof.
  split; [vm_compute; discriminate|].
  apply (orchestrate_fail_fast Sample.scripts Sample.args0
           (Sample.fresh Sample.env_openai_only)).
  vm_compute. discriminate.
Defined.

End ControllerFacts.
